(** * sos_notebook/workflow_executor.py: dispatch of notebook cells

    A shallow embedding of [src/sos_notebook/workflow_executor.py]:
    the controller shutdown ([stop_controller]), the inline scratch
    executor ([execute_scratch_cell]), the worker process body
    ([Tapped_Executor.run]) and the dispatcher ([run_sos_workflow]).

    The Python code is effectful: it mutates the process-wide [env]
    object, [sys.argv], [os.environ], the filesystem, and talks to
    sockets, a kernel and the SoS engine.  It is embedded in a
    state-and-exception monad over a record [World]; every call into
    code that lives outside this file (the SoS library, zmq, argparse,
    the kernel) is recorded as an [Event] on the world's trace, and its
    answer is supplied by an interface [SoS] of oracles that either
    return a value or raise. *)

From Stdlib Require Import String Ascii List ZArith Bool Lia DecimalString.
From stdpp Require Import base option list gmap strings.
Import ListNotations.
Local Open Scope string_scope.
Local Open Scope Z_scope.
Local Open Scope list_scope.

(** ** Python strings

    A [str] is modelled as a [string] whose characters are the code
    points below 256.  The predicates follow [str.isspace] and the line
    boundaries of [str.splitlines] on that range. *)
Module PyStr.

Definition code_point (c : ascii) : N := N_of_ascii c.

(** Characters removed by [str.strip()] / [str.lstrip()] without argument. *)
Definition is_space (c : ascii) : bool :=
  let n := code_point c in
  ((9 <=? n) && (n <=? 13) || (28 <=? n) && (n <=? 32)
   || (n =? 133) || (n =? 160))%N.

(** Line boundaries recognised by [str.splitlines()]. *)
Definition is_linebreak (c : ascii) : bool :=
  let n := code_point c in
  ((10 <=? n) && (n <=? 13) || (28 <=? n) && (n <=? 30) || (n =? 133))%N.

Fixpoint lstrip (s : string) : string :=
  match s with
  | EmptyString => EmptyString
  | String c r => if is_space c then lstrip r else s
  end.

Definition rstrip (s : string) : string :=
  String.rev (lstrip (String.rev s)).

Definition strip (s : string) : string := rstrip (lstrip s).

(** Truth value of a [str]: only the empty string is falsy. *)
Definition truthy (s : string) : bool :=
  match s with EmptyString => false | String _ _ => true end.

Definition startswith (s prefix : string) : bool := String.prefix prefix s.

(** [sep.join(l)] *)
Definition join (sep : string) (l : list string) : string :=
  String.concat sep l.

(** [s.splitlines()]: [cur] is the line being read. *)
Fixpoint splitlines_from (cur s : string) : list string :=
  match s with
  | EmptyString => if truthy cur then [cur] else []
  | String c r =>
      if is_linebreak c then
        match r with
        | String c' r' =>
            if ((code_point c =? 13) && (code_point c' =? 10))%N
            then cur :: splitlines_from EmptyString r'
            else cur :: splitlines_from EmptyString r
        | EmptyString => cur :: splitlines_from EmptyString r
        end
      else splitlines_from (cur +:+ String c EmptyString) r
  end.

Definition splitlines (s : string) : list string :=
  splitlines_from EmptyString s.

(** [str(n)] for an [int]. *)
Definition of_int (z : Z) : string := NilZero.string_of_int (Z.to_int z).

(** [needle in hay] as a proposition. *)
Definition occurs_in (needle hay : string) : Prop :=
  exists pre post, hay = pre +:+ needle +:+ post.

(** Every character of [s] is white space. *)
Fixpoint all_space (s : string) : bool :=
  match s with
  | EmptyString => true
  | String c r => is_space c && all_space r
  end.

End PyStr.

(** ** Python values stored in dictionaries *)
#[warnings="-register-all"] Inductive pyval :=
| PNone
| PBool (b : bool)
| PInt (z : Z)
| PStr (s : string)
| PList (l : list pyval)
| PDict (d : list (string * pyval))
| PTargets (l : list string).

Definition PStrs (l : list string) : pyval := PList (map PStr l).

Definition of_opt_str (o : option string) : pyval :=
  match o with Some s => PStr s | None => PNone end.

Definition of_opt_int (o : option Z) : pyval :=
  match o with Some z => PInt z | None => PNone end.

Definition of_opt_strs (o : option (list string)) : pyval :=
  match o with Some l => PStrs l | None => PNone end.

(** Truth value of an optional string / list, as in [if x:]. *)
Definition truthy_opt_str (o : option string) : bool :=
  match o with Some s => PyStr.truthy s | None => false end.

Definition truthy_list {A} (l : list A) : bool :=
  match l with [] => false | _ :: _ => true end.

Definition truthy_opt_list {A} (o : option (list A)) : bool :=
  match o with Some l => truthy_list l | None => false end.

(** ** Exceptions

    The classes the file names, the built-in ones its own statements
    can raise, and [OtherError] for every other subclass of
    [Exception]; [KeyError] carries a [str] key, [IntKeyError] is the
    [KeyError] of an [int] key.  [SystemExit] and [KeyboardInterrupt] derive from
    [BaseException] only, so [except Exception] lets them through. *)
Inductive exn :=
| UnknownTarget (target msg : string)
| RemovedTarget (target msg : string)
| PendingTasks (tasks : list string) (msg : string)
| SystemExit (code : Z)
| KeyboardInterrupt
| AttributeError (msg : string)
| IndexError (msg : string)
| KeyError (key : string)
| IntKeyError (key : Z)
| TypeError (msg : string)
| RuntimeError (msg : string)
| OtherError (cls msg : string).

(** [isinstance(e, Exception)] *)
Definition is_Exception (e : exn) : bool :=
  match e with
  | SystemExit _ | KeyboardInterrupt => false
  | _ => true
  end.

(** [isinstance(e, (UnknownTarget, RemovedTarget))] with its [target]. *)
Definition target_failure (e : exn) : option string :=
  match e with
  | UnknownTarget t _ | RemovedTarget t _ => Some t
  | _ => None
  end.

(** [repr(k)] for a [str] without quote and backslash characters, as
    the keys of this file are. *)
Definition repr_str (k : string) : string := "'" +:+ k +:+ "'".

(** [str(e)].  The text of a [KeyError] is the [repr] of its key. *)
Definition str_exn (e : exn) : string :=
  match e with
  | UnknownTarget _ m | RemovedTarget _ m => m
  | PendingTasks _ m => m
  | SystemExit c => PyStr.of_int c
  | KeyboardInterrupt => EmptyString
  | KeyError k => repr_str k
  | IntKeyError k => PyStr.of_int k
  | AttributeError m | IndexError m | TypeError m
  | RuntimeError m | OtherError _ m => m
  end.

Inductive result (A : Type) :=
| Ret (a : A)
| Raise (e : exn).
Arguments Ret {A} a.
Arguments Raise {A} e.

(** ** Data of the dispatcher *)

(** The [argparse] namespace returned by [parse_known_args], restricted
    to the attributes this file reads. *)
Record Args := mkArgs {
  workflow : option string;
  verbosity : option Z;
  __dag__ : option string;
  __report__ : option string;
  __remote__ : option string;
  __config__ : option string;
  __bin_dirs__ : list string;
  dryrun : bool;
  __sig_mode__ : option string;
  __queue__ : option string;
  __wait__ : bool;
  __no_wait__ : bool;
  __max_procs__ : option Z;
  __max_running_jobs__ : option Z;
  __targets__ : option (list string)
}.

Definition set_workflow (v : option string) (a : Args) : Args :=
  mkArgs v (verbosity a) (__dag__ a) (__report__ a) (__remote__ a)
    (__config__ a) (__bin_dirs__ a) (dryrun a) (__sig_mode__ a) (__queue__ a)
    (__wait__ a) (__no_wait__ a) (__max_procs__ a) (__max_running_jobs__ a)
    (__targets__ a).

Definition set_dag (v : option string) (a : Args) : Args :=
  mkArgs (workflow a) (verbosity a) v (__report__ a) (__remote__ a)
    (__config__ a) (__bin_dirs__ a) (dryrun a) (__sig_mode__ a) (__queue__ a)
    (__wait__ a) (__no_wait__ a) (__max_procs__ a) (__max_running_jobs__ a)
    (__targets__ a).

Definition set_report (v : option string) (a : Args) : Args :=
  mkArgs (workflow a) (verbosity a) (__dag__ a) v (__remote__ a)
    (__config__ a) (__bin_dirs__ a) (dryrun a) (__sig_mode__ a) (__queue__ a)
    (__wait__ a) (__no_wait__ a) (__max_procs__ a) (__max_running_jobs__ a)
    (__targets__ a).

(** [raw_args] is a [str] or already a list of tokens. *)
Inductive RawArgs :=
| RawStr (s : string)
| RawList (l : list string).

(** The frontend kernel is an opaque handle. *)
Inductive Kernel := KernelHandle (id : nat).

Inductive Level := ERROR | WARNING | INFO | DEBUG | TRACE.

(** Handlers installed on [env.logger]: this file's
    [NotebookLoggingHandler], or any handler of another class. *)
Inductive Handler :=
| NotebookLoggingHandler (level : Level) (kernel : Kernel) (title : string)
| OtherHandler (name : string).

(** [NotebookLoggingHandler.setTitle] *)
Definition setTitle (title : string) (h : Handler) : Handler :=
  match h with
  | NotebookLoggingHandler l k _ => NotebookLoggingHandler l k title
  | OtherHandler n => OtherHandler n
  end.

(** [isinstance(h, NotebookLoggingHandler)] *)
Definition is_NotebookLoggingHandler (h : Handler) : bool :=
  match h with NotebookLoggingHandler _ _ _ => true | OtherHandler _ => false end.

(** The value of [datetime.datetime.now()]. *)
Record datetime := mkDatetime {
  year : nat; month : nat; day : nat; hour : nat; minute : nat
}.

Definition digit (n : nat) : ascii := ascii_of_nat (48 + n mod 10).

Definition two_digits (n : nat) : string :=
  String (digit (n / 10)) (String (digit n) EmptyString).

(** [now.strftime('%m%d%y_%H%M')] *)
Definition strftime_mdy_HM (now : datetime) : string :=
  two_digits (month now) +:+ two_digits (day now) +:+ two_digits (year now)
  +:+ "_" +:+ two_digits (hour now) +:+ two_digits (minute now).

(** The result of [analyze_section]. *)
Record Analysis := mkAnalysis {
  signature_vars : pyval;
  environ_vars : pyval;
  changed_vars : pyval
}.

(** ** The code outside this file

    Every function, class and constant the file imports from the SoS
    library, [argparse], [shlex] and [os.path], as an interface.  The
    engine objects are abstract types.  A call returns or raises. *)
Class SoS := {
  Script : Type;
  Workflow : Type;
  Step : Type;
  Host : Type;
  Executor : Type;
  shlex_split : string -> result (list string);
  parse_known_args : bool -> list string -> result (Args * list string);
  load_config_files : option string -> result pyval;
  Host_connect : string -> result Host;
  send_to_host : Host -> string -> result unit;
  remove_arg : list string -> string -> list string;
  run_command : Host -> list string -> result Z;
  expanduser : string -> string;
  SOS_SECTION_HEADER_match : string -> bool;
  SoS_Script : string -> result Script;
  Script_workflow : Script -> option string -> option bool -> result Workflow;
  sections : Workflow -> list Step;
  prepare_env : string -> gmap string pyval -> result (gmap string pyval);
  analyze_section : Step -> result Analysis;
  Interactive_Step_Executor_run :
    Step -> gmap string pyval -> result pyval * gmap string pyval;
  Base_Executor : Workflow -> list string -> gmap string pyval -> result Executor;
  Base_Executor_run : Executor -> option (list string) -> result pyval;
  get_traceback : exn -> string
}.

(** The background controller thread returned by [start_controller]. *)
Inductive Controller := ControllerThread (id : nat).

Section Program.
Context {sos : SoS}.

(** [Tapped_Executor.__init__]: the fields of the worker process object. *)
Record Tapped_Executor := mkTapped_Executor {
  self_workflow : Workflow;
  self_args : list string;
  self_config : gmap string pyval;
  self_targets : option (list string)
}.

(** ** Interactions with the outside, in program order *)
Inductive Event :=
| EvGetRunParser (interactive with_workflow : bool)
| EvPrintHelp
| EvParseKnownArgs (with_workflow : bool) (argv : list string)
| EvLoadConfigFiles (cfg : option string)
| EvHost (name : string)
| EvPrint (text : string)
| EvSendToHost (script : string)
| EvRedirectEnter (k : Kernel)
| EvRedirectExit (k : Kernel)
| EvRunCommand (cmd : list string)
| EvSendResponse (k : Kernel) (msg_type name text : string)
| EvStderrWrite (text : string)
| EvSoSScript (content : string)
| EvScriptWorkflow (name : option string) (use_default : option bool)
| EvStart (worker : Tapped_Executor)
| EvPrepareEnv (arg : string)
| EvAnalyzeSection (s : Step)
| EvStepRun (s : Step)
| EvReqSend (msg : list string)
| EvReqRecv
| EvDisconnectControllers
| EvJoin (c : Controller)
| EvLogToFile (msg : string)
| EvLoggingSend (parts : list string)
| EvControllerSend (ret : pyval)
| EvControllerRecv
| EvBaseExecutor (w : Workflow) (args : list string) (config : gmap string pyval)
| EvExecutorRun (targets : option (list string)).

(** ** The state the code reads and writes *)
Record World := mkWorld {
  sys_argv : list string;                 (* sys.argv *)
  env_verbosity : option Z;               (* env.verbosity *)
  logger_handlers : list Handler;         (* env.logger.handlers *)
  env_config : gmap string pyval;         (* env.config *)
  env_sos_dict : gmap string pyval;       (* env.sos_dict *)
  env_tapping_controller : bool;          (* hasattr(env, 'tapping_controller') *)
  environ : gmap string string;           (* os.environ *)
  dirs : gset string;                     (* existing directories *)
  files : gmap string string;             (* regular files and their content *)
  cwd : string;                           (* os.getcwd() *)
  clock : datetime;                       (* datetime.datetime.now() *)
  trace : list Event                      (* calls made so far, oldest first *)
}.

Definition set_sys_argv (v : list string) (w : World) : World :=
  mkWorld v (env_verbosity w) (logger_handlers w) (env_config w)
    (env_sos_dict w) (env_tapping_controller w) (environ w) (dirs w) (files w)
    (cwd w) (clock w) (trace w).

Definition set_env_verbosity (v : option Z) (w : World) : World :=
  mkWorld (sys_argv w) v (logger_handlers w) (env_config w)
    (env_sos_dict w) (env_tapping_controller w) (environ w) (dirs w) (files w)
    (cwd w) (clock w) (trace w).

Definition set_logger_handlers (v : list Handler) (w : World) : World :=
  mkWorld (sys_argv w) (env_verbosity w) v (env_config w)
    (env_sos_dict w) (env_tapping_controller w) (environ w) (dirs w) (files w)
    (cwd w) (clock w) (trace w).

Definition set_env_config (v : gmap string pyval) (w : World) : World :=
  mkWorld (sys_argv w) (env_verbosity w) (logger_handlers w) v
    (env_sos_dict w) (env_tapping_controller w) (environ w) (dirs w) (files w)
    (cwd w) (clock w) (trace w).

Definition set_env_sos_dict (v : gmap string pyval) (w : World) : World :=
  mkWorld (sys_argv w) (env_verbosity w) (logger_handlers w) (env_config w)
    v (env_tapping_controller w) (environ w) (dirs w) (files w)
    (cwd w) (clock w) (trace w).

Definition set_environ (v : gmap string string) (w : World) : World :=
  mkWorld (sys_argv w) (env_verbosity w) (logger_handlers w) (env_config w)
    (env_sos_dict w) (env_tapping_controller w) v (dirs w) (files w)
    (cwd w) (clock w) (trace w).

Definition set_dirs (v : gset string) (w : World) : World :=
  mkWorld (sys_argv w) (env_verbosity w) (logger_handlers w) (env_config w)
    (env_sos_dict w) (env_tapping_controller w) (environ w) v (files w)
    (cwd w) (clock w) (trace w).

Definition set_files (v : gmap string string) (w : World) : World :=
  mkWorld (sys_argv w) (env_verbosity w) (logger_handlers w) (env_config w)
    (env_sos_dict w) (env_tapping_controller w) (environ w) (dirs w) v
    (cwd w) (clock w) (trace w).

Definition set_trace (v : list Event) (w : World) : World :=
  mkWorld (sys_argv w) (env_verbosity w) (logger_handlers w) (env_config w)
    (env_sos_dict w) (env_tapping_controller w) (environ w) (dirs w) (files w)
    (cwd w) (clock w) v.

(** [env.verbosity = v].  [verbosity] is a property of the [env]
    object of [sos.utils]: its setter takes the values 0 to 4, stores
    them and sets up the logger again, which is then left with one
    [StreamHandler]; any other value, [None] too, is ignored. *)
Definition valid_verbosity (v : option Z) : bool :=
  match v with
  | Some z => (0 <=? z) && (z <=? 4)
  | None => false
  end.

Definition stream_handler : Handler := OtherHandler "StreamHandler".

Definition assign_verbosity (v : option Z) (w : World) : World :=
  if valid_verbosity v
  then set_logger_handlers [stream_handler] (set_env_verbosity v w)
  else w.

(** Append events to the trace. *)
Definition log (evs : list Event) (w : World) : World :=
  set_trace (trace w ++ evs) w.

(** ** The monad: a computation changes the world and returns or raises *)
Definition M (A : Type) : Type := World -> result A * World.

#[global] Instance M_ret : MRet M := fun A a w => (Ret a, w).

#[global] Instance M_bind : MBind M := fun A B f m w =>
  match m w with
  | (Ret a, w1) => f a w1
  | (Raise e, w1) => (Raise e, w1)
  end.

Definition raise {A} (e : exn) : M A := fun w => (Raise e, w).

Definition lift {A} (r : result A) : M A := fun w => (r, w).

Definition get : M World := fun w => (Ret w, w).

Definition modify (f : World -> World) : M unit := fun w => (Ret tt, f w).

Definition emit (ev : Event) : M unit := modify (log [ev]).

(** A call into outside code: recorded, then answered by the interface. *)
Definition call {A} (ev : Event) (r : result A) : M A := emit ev;; lift r.

(** [try: body except ...:]; [handler e] is [None] when no clause matches. *)
Definition try_except {A} (body : M A) (handler : exn -> option (M A)) : M A :=
  fun w =>
    match body w with
    | (Ret a, w1) => (Ret a, w1)
    | (Raise e, w1) =>
        match handler e with
        | Some h => h w1
        | None => (Raise e, w1)
        end
    end.

(** [try: body finally: final] *)
Definition try_finally {A} (body : M A) (final : M unit) : M A :=
  fun w =>
    match body w with
    | (r, w1) =>
        match final w1 with
        | (Ret _, w2) => (r, w2)
        | (Raise e, w2) => (Raise e, w2)
        end
    end.

(** [for x in l: body x] *)
Fixpoint for_each {A} (l : list A) (body : A -> M unit) : M unit :=
  match l with
  | [] => mret tt
  | x :: r => body x;; for_each r body
  end.

(** [env.config[k]].  [env.config] is a [defaultdict(str)]: a key that
    is missing is bound to [''], and that is the value of the lookup. *)
Definition config_getitem (k : string) : M pyval :=
  w ← get;
  match env_config w !! k with
  | Some v => mret v
  | None =>
      modify (set_env_config (<[k := PStr EmptyString]> (env_config w)));;
      mret (PStr EmptyString)
  end.

Fixpoint assoc (d : list (string * pyval)) (k : string) : option pyval :=
  match d with
  | [] => None
  | (k', v) :: r => if String.eqb k' k then Some v else assoc r k
  end.

(** [v[k]] for a [str] key [k]: only a [dict] can be indexed so. *)
Definition subscript (v : pyval) (k : string) : M pyval :=
  match v with
  | PDict d =>
      match assoc d k with
      | Some x => mret x
      | None => raise (KeyError k)
      end
  | PStr _ => raise (TypeError "string indices must be integers")
  | PList _ =>
      raise (TypeError "list indices must be integers or slices, not str")
  | _ => raise (TypeError "object is not subscriptable")
  end.

(** ** [stop_controller]  (lines 65-71) *)
Definition stop_controller (controller : option Controller) : M unit :=
  match controller with
  | None => mret tt
  | Some c =>
      emit (EvReqSend ["done"]);;      (* env.controller_req_socket.send_pyobj(['done']) *)
      emit EvReqRecv;;                 (* env.controller_req_socket.recv() *)
      emit EvDisconnectControllers;;   (* disconnect_controllers() *)
      emit (EvJoin c)                  (* controller.join() *)
  end.

(** ** [execute_scratch_cell]  (lines 73-95) *)

(** [env.sos_dict.pop(k, None)] *)
Definition sos_dict_pop (k : string) : M unit :=
  modify (fun w => set_env_sos_dict (delete k (env_sos_dict w)) w).

(** [env.sos_dict.set(k, v)] *)
Definition sos_dict_set (k : string) (v : pyval) : M unit :=
  modify (fun w => set_env_sos_dict (<[k := v]> (env_sos_dict w)) w).

(** [env.config[k] = v] *)
Definition config_set (k : string) (v : pyval) : M unit :=
  modify (fun w => set_env_config (<[k := v]> (env_config w)) w).

(** Lines 74-82: what runs before the [try]. *)
Definition scratch_setup (config : gmap string pyval) : M unit :=
  config_set "workflow_id" (PStr "0");;
  sos_dict_set "workflow_id" (PStr "0");;
  modify (fun w => set_env_config (config ∪ env_config w) w);;  (* env.config.update(config) *)
  w ← get;
  d ← call (EvPrepareEnv "") (prepare_env "" (env_sos_dict w));
  modify (set_env_sos_dict d);;
  for_each ["__step_input__"; "__default_output__"; "__step_output__"] sos_dict_pop.

(** Lines 86-93: the body of the [try]. *)
Definition scratch_body (section : Step) : M pyval :=
  res ← call (EvAnalyzeSection section) (analyze_section section);
  sos_dict_set "__signature_vars__" (signature_vars res);;
  sos_dict_set "__environ_vars__" (environ_vars res);;
  sos_dict_set "__changed_vars__" (changed_vars res);;
  emit (EvStepRun section);;
  w ← get;
  let '(r, d) := Interactive_Step_Executor_run section (env_sos_dict w) in
  modify (set_env_sos_dict d);;
  lift r.

(** Lines 94-95: the [except (UnknownTarget, RemovedTarget) as e] clause. *)
Definition scratch_handler (e : exn) : option (M pyval) :=
  match target_failure e with
  | Some target => Some (raise (RuntimeError ("Unavailable target " +:+ target)))
  | None => None
  end.

Definition execute_scratch_cell (section : Step) (config : gmap string pyval)
  : M pyval :=
  scratch_setup config;;
  try_except (scratch_body section) scratch_handler.

(** ** [Tapped_Executor.run]  (lines 114-128) *)

(** [env.tapping_controller.socket.recv()]: the attribute
    [tapping_controller] of [env] is looked up first. *)
Definition tapping_controller_recv : M unit :=
  w ← get;
  if env_tapping_controller w then emit EvControllerRecv
  else raise (AttributeError
    "'RuntimeEnvironments' object has no attribute 'tapping_controller'").

Definition worker_body (self : Tapped_Executor) : M unit :=
  let config := <["verbosity" := PInt 4]> (self_config self) in
  executor ← call (EvBaseExecutor (self_workflow self) (self_args self) config)
                  (Base_Executor (self_workflow self) (self_args self) config);
  emit (EvLogToFile "create executor");;
  ret ← call (EvExecutorRun (self_targets self))
             (Base_Executor_run executor (self_targets self));
  emit (EvLoggingSend ["info"; "DONE"]);;
  emit (EvControllerSend ret);;
  tapping_controller_recv;;
  emit (EvLogToFile "done").

(** The [except Exception as e] clause. *)
Definition worker_handler (e : exn) : option (M unit) :=
  if is_Exception e then
    Some (emit (EvLogToFile (str_exn e));;
          emit (EvLoggingSend ["info"; str_exn e]))
  else None.

Definition Tapped_Executor_run (self : Tapped_Executor) : M unit :=
  try_except (worker_body self) worker_handler.

(** ** [run_sos_workflow]  (lines 130-295) *)

(** Line 134 *)
Definition split_raw_args (raw_args : RawArgs) : M (list string) :=
  match raw_args with
  | RawStr s => lift (shlex_split s)
  | RawList l => mret l
  end.

(** Line 135: [code is None or '-h' in raw_args]; the code when the
    test fails. *)
Definition help_check (code : option string) (raw_args : list string)
  : option string :=
  match code with
  | None => None
  | Some c => if bool_decide ("-h" ∈ raw_args) then None else Some c
  end.

(** Lines 136-138 *)
Definition print_usage : M unit :=
  emit (EvGetRunParser true true);;
  emit EvPrintHelp.

(** Line 139: [raw_args and raw_args[0].lstrip().startswith('-')] *)
Definition flag_first (raw_args : list string) : bool :=
  match raw_args with
  | [] => false
  | tok :: _ => PyStr.startswith (PyStr.lstrip tok) "-"
  end.

(** Lines 139-147.  [parser.error = _parse_error] makes a rejected
    argument vector raise instead of exiting: [parse_known_args] returns
    or raises. *)
Definition parse_arguments (raw_args : list string) : M (Args * list string) :=
  if flag_first raw_args then
    emit (EvGetRunParser true false);;
    '(args, workflow_args) ←
      call (EvParseKnownArgs false raw_args) (parse_known_args false raw_args);
    mret (set_workflow None args, workflow_args)
  else
    emit (EvGetRunParser true true);;
    call (EvParseKnownArgs true raw_args) (parse_known_args true raw_args).

(** The dictionary [levels] of lines 155-162, looked up at a key. *)
Definition levels (key : option Z) : result Level :=
  match key with
  | Some 0 => Ret ERROR
  | Some 1 => Ret WARNING
  | Some 2 => Ret INFO
  | Some 3 => Ret DEBUG
  | Some 4 => Ret TRACE
  | None => Ret INFO
  | Some z => Raise (IntKeyError z)
  end.

(** [env.logger.handlers[0]] *)
Definition first_handler : M Handler :=
  w ← get;
  match logger_handlers w with
  | h :: _ => mret h
  | [] => raise (IndexError "list index out of range")
  end.

(** [env.logger.handers]: a [logging.Logger] has no such attribute. *)
Definition logger_handers {A} : M A :=
  raise (AttributeError "'RootLogger' object has no attribute 'handers'").

(** Lines 153-166.  The condition [kernel and not isinstance(...)]
    short-circuits on a falsy [kernel]; in the [else] branch the
    attribute lookup raises before the index and the call to [setTitle]. *)
Definition update_logger (kernel : option Kernel) : M unit :=
  match kernel with
  | Some k =>
      h ← first_handler;
      if negb (is_NotebookLoggingHandler h) then
        modify (set_logger_handlers []);;
        w ← get;
        level ← lift (levels (env_verbosity w));
        modify (fun w => set_logger_handlers
          (logger_handlers w ++
             [NotebookLoggingHandler level k (PyStr.join " " (sys_argv w))]) w)
      else logger_handers
  | None => logger_handers
  end.

(** Lines 169-177, for one option: [None] takes the default name, the
    empty string becomes [None], any other name stays. *)
Definition resolve_output (default : string) (opt : option string)
  : option string :=
  match opt with
  | None => Some default
  | Some name => if String.eqb name "" then None else Some name
  end.

(** Lines 168-177 *)
Definition resolve_outputs (dt : string) (args : Args) : Args :=
  let args := set_dag (resolve_output ("workflow_" +:+ dt +:+ ".dot")
                         (__dag__ args)) args in
  set_report (resolve_output ("workflow_" +:+ dt +:+ ".html")
                (__report__ args)) args.

(** Lines 134-177: everything before the choice of an execution mode.
    The result is [None] when usage was printed (line 138 returns). *)
Definition dispatch_prologue (code : option string) (raw_args : RawArgs)
    (kernel : option Kernel)
  : M (option (string * list string * Args * list string)) :=
  raw_args ← split_raw_args raw_args;
  match help_check code raw_args with
  | None => print_usage;; mret None
  | Some code =>
      '(args, workflow_args) ← parse_arguments raw_args;
      modify (set_sys_argv ("%run" :: raw_args));;
      modify (assign_verbosity (verbosity args));;
      update_logger kernel;;
      w ← get;
      let dt := strftime_mdy_HM (clock w) in
      mret (Some (code, raw_args, resolve_outputs dt args, workflow_args))
  end.

(** *** The remote branch  (lines 180-214) *)

(** [not code.strip()] *)
Definition blank (code : string) : bool := negb (PyStr.truthy (PyStr.strip code)).

(** [os.path.join('.sos', '__interactive__.sos')] on a POSIX system. *)
Definition interactive_script : string := ".sos/__interactive__.sos".

(** [kernel.send_response(kernel.iopub_socket, 'stream', {name, text})] *)
Definition send_response (kernel : option Kernel) (name text : string) : M unit :=
  match kernel with
  | Some k => emit (EvSendResponse k "stream" name text)
  | None => raise (AttributeError
      "'NoneType' object has no attribute 'send_response'")
  end.

(** [with kernel.redirect_sos_io(): body] *)
Definition with_redirect_sos_io {A} (kernel : option Kernel) (body : M A) : M A :=
  match kernel with
  | Some k => emit (EvRedirectEnter k);; try_finally body (emit (EvRedirectExit k))
  | None => raise (AttributeError
      "'NoneType' object has no attribute 'redirect_sos_io'")
  end.

(** [os.path.isfile(p)] *)
Definition is_file (w : World) (p : string) : bool :=
  match files w !! p with Some _ => true | None => false end.

(** [with open(path, 'w') as s: s.write(content)] for a file in the
    directory [dir]: the directory has to exist, and [path] must not be
    a directory itself; a file that exists is overwritten. *)
Definition write_file (dir path content : string) : M unit :=
  w ← get;
  if bool_decide (dir ∈ dirs w) then
    if bool_decide (path ∈ dirs w) then
      raise (OtherError "IsADirectoryError" path)
    else modify (set_files (<[path := content]> (files w)))
  else if is_file w dir then raise (OtherError "NotADirectoryError" path)
  else raise (OtherError "FileNotFoundError" path).

(** Lines 181-200: up to the remote command.  [None] when line 189
    returns on blank code. *)
Definition remote_setup (code : string) (raw_args : list string) (args : Args)
  : M (option (Host * string * list string)) :=
  cfg ← call (EvLoadConfigFiles (__config__ args))
             (load_config_files (__config__ args));
  sos_dict_set "CONFIG" cfg;;
  let name := default "" (__remote__ args) in
  host ← call (EvHost name) (Host_connect name);
  if blank code then mret None
  else
    let script := interactive_script in
    write_file ".sos" script code;;
    emit (EvPrint ("HINT: Executing workflow on " +:+ name));;
    call (EvSendToHost script) (send_to_host host script);;
    let argv := raw_args in            (* raw_args is a list since line 134 *)
    let argv := remove_arg argv "-r" in
    let argv := remove_arg argv "-c" in
    mret (Some (host, script, argv)).

(** The body of the [try] of lines 203-209. *)
Definition remote_command (kernel : option Kernel) (host : Host)
    (cmd : list string) : M unit :=
  ret ← with_redirect_sos_io kernel
          (call (EvRunCommand cmd) (run_command host cmd));
  if negb (ret =? 0) then
    send_response kernel "stderr"
      ("remote execution of workflow exited with code " +:+ PyStr.of_int ret)
  else mret tt.

(** Lines 210-213: [except Exception as e: if kernel: ...] *)
Definition remote_handler (kernel : option Kernel) (e : exn) : option (M unit) :=
  if is_Exception e then
    Some (match kernel with
          | Some _ => send_response kernel "stdout" (str_exn e)
          | None => mret tt
          end)
  else None.

(** Lines 202-213 *)
Definition remote_run (kernel : option Kernel) (host : Host) (script : string)
    (argv : list string) : M unit :=
  try_except (remote_command kernel host (["sos"; "run"; script] ++ argv))
             (remote_handler kernel).

Definition remote_delegate (code : string) (raw_args : list string)
    (kernel : option Kernel) (args : Args) : M pyval :=
  r ← remote_setup code raw_args args;
  match r with
  | None => mret PNone
  | Some (host, script, argv) => remote_run kernel host script argv;; mret PNone
  end.

(** *** The local branch  (lines 216-295) *)

(** The directories above the path [p]: its prefixes that end before
    a ['/'], the root apart. *)
Fixpoint parents_from (pre p : string) : list string :=
  match p with
  | EmptyString => []
  | String c r =>
      (if (PyStr.code_point c =? 47)%N && PyStr.truthy pre then [pre] else [])
      ++ parents_from (pre +:+ String c EmptyString) r
  end.

Definition parents (p : string) : list string := parents_from EmptyString p.

(** [os.makedirs(p, exist_ok=True)]: [p] and the directories above it
    that are missing are created; a regular file at [p] or above it
    makes the call fail. *)
Definition makedirs (p : string) : M unit :=
  w ← get;
  if is_file w p then raise (OtherError "FileExistsError" p)
  else if existsb (is_file w) (parents p) then
    raise (OtherError "NotADirectoryError" p)
  else modify (set_dirs (list_to_set (p :: parents p) ∪ dirs w)).

(** Lines 216-221 *)
Definition prepend_bin_dirs (args : Args) : M unit :=
  if truthy_list (__bin_dirs__ args) then
    for_each (__bin_dirs__ args) (fun d =>
      w ← get;
      if String.eqb d "~/.sos/bin" && negb (bool_decide (expanduser d ∈ dirs w))
      then makedirs (expanduser d)
      else mret tt);;
    w ← get;
    match environ w !! "PATH" with
    | Some path =>
        modify (set_environ
          (<["PATH" := PyStr.join ":" (map expanduser (__bin_dirs__ args))
                       +:+ ":" +:+ path]> (environ w)))
    | None => raise (KeyError "PATH")
    end
  else mret tt.

(** Lines 225-228 *)
Definition reset_step_keys : M unit :=
  sos_dict_set "__step_output__" (PTargets []);;
  for_each ["__step_input__"; "__default_output__"; "step_input"; "step_output";
            "step_depends"; "_input"; "_output"; "_depends"] sos_dict_pop.

(** Lines 230-251 *)
Definition make_config (args : Args) (workflow_args : list string)
    (workdir : string) : gmap string pyval :=
  list_to_map [
    ("config_file", of_opt_str (__config__ args));
    ("output_dag", of_opt_str (__dag__ args));
    ("output_report", of_opt_str (__report__ args));
    ("sig_mode", if dryrun args then PStr "ignore"
                 else of_opt_str (__sig_mode__ args));
    ("default_queue", match __queue__ args with
                      | None => PStr ""
                      | Some q => PStr q
                      end);
    ("wait_for_task", if __wait__ args || dryrun args then PBool true
                      else if __no_wait__ args then PBool false else PNone);
    ("resume_mode", PBool false);
    ("run_mode", if dryrun args then PStr "dryrun" else PStr "interactive");
    ("verbosity", of_opt_int (verbosity args));
    ("max_procs", of_opt_int (__max_procs__ args));
    ("max_running_jobs", of_opt_int (__max_running_jobs__ args));
    ("workdir", PStr workdir);
    ("script", PStr "interactive");
    ("workflow", of_opt_str (workflow args));
    ("targets", of_opt_strs (__targets__ args));
    ("bin_dirs", PStrs (__bin_dirs__ args));
    ("workflow_args", PStrs workflow_args)
  ].

(** Lines 216-251: what the local branch does before its [try]. *)
Definition local_setup (args : Args) (workflow_args : list string)
  : M (gmap string pyval) :=
  prepend_bin_dirs args;;
  reset_step_keys;;
  w ← get;
  mret (make_config args workflow_args (cwd w)).

(** Line 275: some line matches [SOS_SECTION_HEADER] or starts with
    [%from] or [%include]. *)
Definition has_header_or_directive (code : string) : bool :=
  existsb (fun line =>
             SOS_SECTION_HEADER_match line
             || PyStr.startswith line "%from"
             || PyStr.startswith line "%include")
          (PyStr.splitlines code).

(** Lines 258-269: workflow mode. *)
Definition start_worker (code : string) (args : Args)
    (workflow_args : list string) (config : gmap string pyval) : M pyval :=
  script ← call (EvSoSScript code) (SoS_Script code);
  let use_default := negb (truthy_opt_list (__targets__ args)) in
  workflow ← call (EvScriptWorkflow (workflow args) (Some use_default))
                  (Script_workflow script (workflow args) (Some use_default));
  let config := <["tapping" := PStr "slave"]> config in
  sockets ← config_getitem "sockets";
  tapping_logging ← subscript sockets "tapping_logging";
  sockets ← config_getitem "sockets";
  tapping_controller ← subscript sockets "tapping_controller";
  let config := <["sockets" := PDict [("tapping_logging", tapping_logging);
                                      ("tapping_controller", tapping_controller)]]>
                  config in
  let executor := mkTapped_Executor workflow workflow_args config
                    (__targets__ args) in
  emit (EvStart executor);;
  mret PNone.

(** [workflow.sections[0]] *)
Definition first_section (workflow : Workflow) : M Step :=
  match sections workflow with
  | s :: _ => mret s
  | [] => raise (IndexError "list index out of range")
  end.

(** Lines 277-281: the wrapped scratch step. *)
Definition run_scratch (code : string) (args : Args)
    (config : gmap string pyval) : M pyval :=
  let code := "[scratch_0]" +:+ String (ascii_of_nat 10) code in
  script ← call (EvSoSScript code) (SoS_Script code);
  workflow ← call (EvScriptWorkflow (workflow args) None)
                  (Script_workflow script (workflow args) None);
  section ← first_section workflow;
  res ← execute_scratch_cell section config;
  subscript res "__last_res__".

(** Lines 254-281: the body of the [try]. *)
Definition execution_phase (code : string) (args : Args)
    (workflow_args : list string) (config : gmap string pyval)
    (workflow_mode : bool) : M pyval :=
  if blank code then mret PNone
  else if workflow_mode then start_worker code args workflow_args config
  else
    config_set "master_id" (PStr "0");;
    if negb (has_header_or_directive code) then run_scratch code args config
    else mret PNone.

(** Lines 283-292: the [except] clauses. *)
Definition dispatch_handler (args : Args) (e : exn) : option (M pyval) :=
  match e with
  | PendingTasks _ _ => Some (raise e)
  | SystemExit _ => Some (mret PNone)
  | _ =>
      if is_Exception e then
        Some ((match verbosity args with
               | Some v => if negb (v =? 0) && (2 <? v)
                           then emit (EvStderrWrite (get_traceback e))
                           else mret tt
               | None => mret tt
               end);;
              raise e)
      else None
  end.

(** Lines 293-295: the [finally] clause. *)
Definition dispatch_finally : M unit :=
  config_set "sig_mode" (PStr "ignore");;
  modify (assign_verbosity (Some 2)).

(** Lines 253-295 *)
Definition guarded_execution (args : Args) (body : M pyval) : M pyval :=
  try_finally (try_except body (dispatch_handler args)) dispatch_finally.

Definition local_dispatch (code : string) (args : Args)
    (workflow_args : list string) (workflow_mode : bool) : M pyval :=
  config ← local_setup args workflow_args;
  guarded_execution args
    (execution_phase code args workflow_args config workflow_mode).

Definition run_sos_workflow (code : option string) (raw_args : RawArgs)
    (kernel : option Kernel) (workflow_mode : bool) : M pyval :=
  p ← dispatch_prologue code raw_args kernel;
  match p with
  | None => mret PNone
  | Some (code, raw_args, args, workflow_args) =>
      if truthy_opt_str (__remote__ args)
      then remote_delegate code raw_args kernel args
      else local_dispatch code args workflow_args workflow_mode
  end.

(** ** Vocabulary of the statements *)

(** What the [finally] clause of lines 293-295 leaves behind: the
    assignment of line 295 also sets up the logger again. *)
Definition finalize (w : World) : World :=
  set_logger_handlers [stream_handler]
    (set_env_verbosity (Some 2)
       (set_env_config (<["sig_mode" := PStr "ignore"]> (env_config w)) w)).

(** Events that carry out a request: shipping or running code, parsing
    it as a script, starting a worker, running a step, answering the
    frontend.  Building a parser, printing usage, loading the
    configuration and resolving the host do not. *)
Definition executes (ev : Event) : bool :=
  match ev with
  | EvGetRunParser _ _ | EvPrintHelp | EvParseKnownArgs _ _
  | EvLoadConfigFiles _ | EvHost _ => false
  | _ => true
  end.

(** A relation between the worlds before and after a computation that
    every run of [m] establishes, whether it returns or raises. *)
Definition preserves (R : World -> World -> Prop) {A} (m : M A) : Prop :=
  forall w r w', m w = (r, w') -> R w w'.

(** Every value [m] returns satisfies [Q]. *)
Definition returns {A} (Q : A -> Prop) (m : M A) : Prop :=
  forall w a w', m w = (Ret a, w') -> Q a.

(** The trace only grows. *)
Definition extends (w w' : World) : Prop :=
  exists evs, trace w' = trace w ++ evs.

(** No file is written and nothing is executed. *)
Definition idle (w w' : World) : Prop :=
  files w' = files w /\
  exists evs, trace w' = trace w ++ evs /\ Forall (fun ev => executes ev = false) evs.

(** A line that is neither a section header nor an [%include] or
    [%from] directive. *)
Definition plain_line (line : string) : Prop :=
  SOS_SECTION_HEADER_match line = false /\
  PyStr.startswith line "%from" = false /\
  PyStr.startswith line "%include" = false.

(** The code after line 276. *)
Definition wrapped (code : string) : string :=
  "[scratch_0]" +:+ String (ascii_of_nat 10) code.

(** Stream messages to the frontend. *)
Definition is_response (ev : Event) : bool :=
  match ev with
  | EvSendResponse _ _ _ _ => true
  | _ => false
  end.

(** Nothing is sent to the frontend. *)
Definition silent (w w' : World) : Prop :=
  exists evs, trace w' = trace w ++ evs /\
              Forall (fun ev => is_response ev = false) evs.

(** [sys.argv] is left alone. *)
Definition same_argv (w w' : World) : Prop := sys_argv w' = sys_argv w.

(** The worker's exchange with the Controller Service: the reply and
    the wait for its acknowledgement. *)
Definition rendezvous (ev : Event) : bool :=
  match ev with
  | EvControllerSend _ | EvControllerRecv => true
  | _ => false
  end.

(** The events of lines 139-147. *)
Definition parser_events (tokens : list string) : list Event :=
  [EvGetRunParser true (negb (flag_first tokens));
   EvParseKnownArgs (negb (flag_first tokens)) tokens].


Definition any_event (ev : Event) : Prop := True.

Definition quiet (ev : Event) : Prop := executes ev = false.

Definition no_response (ev : Event) : Prop := is_response ev = false.

(** A frame is a preorder on worlds that every assignment to [env],
    [os.environ] and the directory tree respects. *)
Class Frame (R : World -> World -> Prop) := {
  frame_refl : forall w, R w w;
  frame_trans : forall a b c, R a b -> R b c -> R a c;
  frame_verbosity : forall v w, R w (set_env_verbosity v w);
  frame_handlers : forall v w, R w (set_logger_handlers v w);
  frame_config : forall v w, R w (set_env_config v w);
  frame_sos_dict : forall v w, R w (set_env_sos_dict v w);
  frame_environ : forall v w, R w (set_environ v w);
  frame_dirs : forall v w, R w (set_dirs v w)
}.

(** [R] allows the events that satisfy [P]. *)
Class Logs (P : Event -> Prop) (R : World -> World -> Prop) :=
  frame_log : forall ev w, P ev -> R w (log [ev] w).

(** [R] allows writing files. *)
Class Writes (R : World -> World -> Prop) :=
  frame_files : forall v w, R w (set_files v w).

(** [R] allows assigning [sys.argv]. *)
Class Assigns (R : World -> World -> Prop) :=
  frame_argv : forall v w, R w (set_sys_argv v w).

(** The engine of a worker: the executor is built, then run. *)
Definition engine_outcome (self : Tapped_Executor) : result pyval :=
  let config := <["verbosity" := PInt 4]> (self_config self) in
  match Base_Executor (self_workflow self) (self_args self) config with
  | Ret executor => Base_Executor_run executor (self_targets self)
  | Raise e => Raise e
  end.

(** The calls a worker makes while its engine runs. *)
Definition engine_events (self : Tapped_Executor) : list Event :=
  let config := <["verbosity" := PInt 4]> (self_config self) in
  EvBaseExecutor (self_workflow self) (self_args self) config ::
  match Base_Executor (self_workflow self) (self_args self) config with
  | Ret _ => [EvLogToFile "create executor"; EvExecutorRun (self_targets self)]
  | Raise _ => []
  end.

End Program.

(** ** A concrete engine and world, to run the model on *)

Definition demo_args : Args :=
  mkArgs None (Some 2) None None None None ["~/.sos/bin"] false
    (Some "default") None false false (Some 4) None None.

(** An interface whose parser returns [args] for every argument vector,
    whose remote command answers [command], whose step analysis and
    step run answer [analysis] and [step], and whose workflow engine
    answers [engine]. *)
Definition demo (args : Args) (command : result Z)
    (analysis : result Analysis) (step engine : result pyval) : SoS := {|
  Script := string;
  Workflow := list string;
  Step := string;
  Host := string;
  Executor := unit;
  shlex_split s := Ret [s];
  parse_known_args _ argv := Ret (args, argv);
  load_config_files _ := Ret (PDict []);
  Host_connect name := Ret name;
  send_to_host _ _ := Ret tt;
  remove_arg argv _ := argv;
  run_command _ _ := command;
  expanduser p := p;
  SOS_SECTION_HEADER_match line := PyStr.startswith line "[";
  SoS_Script content := Ret content;
  Script_workflow script _ _ := Ret [script];
  sections wf := wf;
  prepare_env _ d := Ret d;
  analyze_section _ := analysis;
  Interactive_Step_Executor_run _ d := (step, d);
  Base_Executor _ _ _ := Ret tt;
  Base_Executor_run _ _ := engine;
  get_traceback e := str_exn e
|}.

(** An interface whose parser rejects every argument vector. *)
Definition strict (e : exn) : SoS := {|
  Script := string;
  Workflow := list string;
  Step := string;
  Host := string;
  Executor := unit;
  shlex_split s := Ret [s];
  parse_known_args _ _ := Raise e;
  load_config_files _ := Ret (PDict []);
  Host_connect name := Ret name;
  send_to_host _ _ := Ret tt;
  remove_arg argv _ := argv;
  run_command _ _ := Ret 0;
  expanduser p := p;
  SOS_SECTION_HEADER_match line := PyStr.startswith line "[";
  SoS_Script content := Ret content;
  Script_workflow script _ _ := Ret [script];
  sections wf := wf;
  prepare_env _ d := Ret d;
  analyze_section _ := Ret (mkAnalysis PNone PNone PNone);
  Interactive_Step_Executor_run _ d := (Ret PNone, d);
  Base_Executor _ _ _ := Ret tt;
  Base_Executor_run _ _ := Ret PNone;
  get_traceback e := str_exn e
|}.

Definition ok_analysis : result Analysis :=
  Ret (mkAnalysis (PList []) (PList []) (PList [])).

Definition ok_step : result pyval :=
  Ret (PDict [("__last_res__", PInt 42)]).

(** A session whose logger still has the handler SoS installed, in a
    working directory that has a [.sos] directory. *)
Definition w0 {sos : SoS} : World :=
  mkWorld ["ipykernel_launcher"] (Some 2) [OtherHandler "StreamHandler"]
    ∅ ∅ true (<["PATH" := "/usr/bin"]> ∅) {[".sos"]} ∅ "/home/user"
    (mkDatetime 2019 1 5 9 7) [].

Definition kernel0 : Kernel := KernelHandle 0.

(** A session whose logger already has the notebook handler. *)
Definition w_notebook {sos : SoS} : World :=
  mkWorld ["%run"] (Some 2) [NotebookLoggingHandler INFO kernel0 "%run"]
    ∅ ∅ true (<["PATH" := "/usr/bin"]> ∅) ∅ ∅ "/home/user"
    (mkDatetime 2019 1 5 9 7) [].

(** An engine on which everything succeeds. *)
Definition sound : SoS :=
  demo demo_args (Ret 0) ok_analysis ok_step (Ret (PInt 0)).

(** The arguments of [%run -r cluster]. *)
Definition remote_args : Args :=
  mkArgs None (Some 2) None None (Some "cluster") None ["~/.sos/bin"] false
    (Some "default") None false false (Some 4) None None.

(** Engines whose remote command exits with [status] or raises [e]. *)
Definition remote_exit (status : Z) : SoS :=
  demo remote_args (Ret status) ok_analysis ok_step (Ret PNone).

Definition remote_failure (e : exn) : SoS :=
  demo remote_args (Raise e) ok_analysis ok_step (Ret PNone).

(** Engines whose step run, step analysis or workflow run raises [e]. *)
Definition failing_step (e : exn) : SoS :=
  demo demo_args (Ret 0) ok_analysis (Raise e) (Ret PNone).


Definition failing_engine (e : exn) : SoS :=
  demo demo_args (Ret 0) ok_analysis ok_step (Raise e).

(** A worker for a one-section workflow. *)
Definition worker0 {sos : SoS} (wf : Workflow) : Tapped_Executor :=
  mkTapped_Executor wf [] ∅ None.

(** ** [NotebookLoggingHandler.emit]  (lines 44-50) *)

Definition is_backtick (c : ascii) : bool := (PyStr.code_point c =? 96)%N.

Definition dquote : string := String (ascii_of_nat 34) EmptyString.

(** What [[^`]*] takes at the start of [s], and the text behind it:
    the longest prefix without a backtick. *)
Fixpoint span_plain (s : string) : string * string :=
  match s with
  | EmptyString => (EmptyString, EmptyString)
  | String c r =>
      if is_backtick c then (EmptyString, s)
      else let '(body, rest) := span_plain r in (String c body, rest)
  end.

(** A match of the pattern of line 45 (two backticks, a group of
    characters other than the backtick, two backticks) at the start of
    [s]: its group and the text behind the match.  The group cannot give characters back: behind a shorter
    group stands a character that is no backtick. *)
Definition match_highlight (s : string) : option (string * string) :=
  match s with
  | String a (String b r) =>
      if is_backtick a && is_backtick b then
        let '(body, rest) := span_plain r in
        match rest with
        | String c (String d rest') =>
            if is_backtick c && is_backtick d then Some (body, rest')
            else None
        | _ => None
        end
      else None
  | _ => None
  end.

(** The replacement of line 46 for the group [body]. *)
Definition highlight_span (body : string) : string :=
  "<span class=" +:+ dquote +:+ "sos_highlight" +:+ dquote +:+ ">"
  +:+ body +:+ "</span>".

(** [re.sub] with that pattern: the text is scanned from the left; a
    match is replaced and the scan goes on behind it, any other
    character is copied.  Every step consumes a character, so
    [fuel = len(s)] steps are enough. *)
Fixpoint sub_highlight (fuel : nat) (s : string) : string :=
  match fuel with
  | O => s
  | S n =>
      match s with
      | EmptyString => EmptyString
      | String c r =>
          match match_highlight s with
          | Some (body, rest) => highlight_span body +:+ sub_highlight n rest
          | None => String c (sub_highlight n r)
          end
      end
  end.

Definition highlight (s : string) : string :=
  sub_highlight (String.length s) s.

(** [str.lower()] on the code points below 256. *)
Definition lower_char (c : ascii) : ascii :=
  let n := PyStr.code_point c in
  if ((65 <=? n) && (n <=? 90)
      || (192 <=? n) && (n <=? 222) && negb (n =? 215))%N
  then ascii_of_N (n + 32) else c.

Fixpoint lower (s : string) : string :=
  match s with
  | EmptyString => EmptyString
  | String c r => String (lower_char c) (lower r)
  end.

(** The attributes of a [logging.LogRecord] that [emit] reads. *)
Record LogRecord := mkLogRecord {
  record_levelname : string;
  record_msg : string
}.

(** The call [kernel.send_frontend_msg('display_data', {'metadata': {},
    'data': {'text/html': html}}, title=..., append=..., page=...)]. *)
Record FrontendMsg := mkFrontendMsg {
  fm_kernel : Kernel;
  fm_msg_type : string;
  fm_html : string;
  fm_title : string;
  fm_append : bool;
  fm_page : string
}.

(** [emit] on a handler built with [kernel] and [title]: the message
    it sends.  [kernel] defaults to [None] in [__init__]. *)
Definition NotebookLoggingHandler_emit (kernel : option Kernel)
    (title : string) (record : LogRecord) : result FrontendMsg :=
  let msg := highlight (record_msg record) in
  match kernel with
  | None => Raise (AttributeError
      "'NoneType' object has no attribute 'send_frontend_msg'")
  | Some k =>
      Ret (mkFrontendMsg k "display_data"
             ("<div class=" +:+ dquote +:+ "sos_logging sos_"
              +:+ lower (record_levelname record) +:+ dquote +:+ ">"
              +:+ record_levelname record +:+ ": " +:+ msg +:+ "</div>")
             title true "SoS")
  end.

(** [h.emit(record)] for a handler of the logger; handlers of other
    classes are outside this file. *)
Definition handler_emit (h : Handler) (record : LogRecord)
  : option (result FrontendMsg) :=
  match h with
  | NotebookLoggingHandler _ k title =>
      Some (NotebookLoggingHandler_emit (Some k) title record)
  | OtherHandler _ => None
  end.

(** ** More vocabulary *)

Section Vocabulary.
Context {sos : SoS}.

(** Between [w] and [w'] only events that [p] accepts were appended. *)
Definition only (p : Event -> bool) (w w' : World) : Prop :=
  exists evs, trace w' = trace w ++ evs /\ Forall (fun ev => p ev = true) evs.

Definition allowed (p : Event -> bool) (ev : Event) : Prop := p ev = true.

(** Events of the step executor of this process. *)
Definition is_step (ev : Event) : bool :=
  match ev with
  | EvPrepareEnv _ | EvAnalyzeSection _ | EvStepRun _ => true
  | _ => false
  end.

Definition is_start (ev : Event) : bool :=
  match ev with
  | EvStart _ => true
  | _ => false
  end.

(** Events of the local branch (lines 216-295). *)
Definition is_local (ev : Event) : bool :=
  match ev with
  | EvSoSScript _ | EvScriptWorkflow _ _ | EvStart _ | EvPrepareEnv _
  | EvAnalyzeSection _ | EvStepRun _ | EvStderrWrite _ => true
  | _ => false
  end.

(** Events of the remote branch (lines 180-214). *)
Definition is_remote (ev : Event) : bool :=
  match ev with
  | EvLoadConfigFiles _ | EvHost _ | EvPrint _ | EvSendToHost _
  | EvRedirectEnter _ | EvRedirectExit _ | EvRunCommand _
  | EvSendResponse _ _ _ _ => true
  | _ => false
  end.

Definition no_step (ev : Event) : bool := negb (is_step ev).

Definition no_start (ev : Event) : bool := negb (is_start ev).

Definition no_local (ev : Event) : bool := negb (is_local ev).

Definition no_remote (ev : Event) : bool := negb (is_remote ev).

(** Line 290: [args.verbosity and args.verbosity > 2]. *)
Definition traceback_due (args : Args) : bool :=
  match verbosity args with
  | Some v => negb (v =? 0) && (2 <? v)
  | None => false
  end.

(** The world after lines 290-295 when the phase raised [e] in [w]. *)
Definition reported (args : Args) (e : exn) (w : World) : World :=
  finalize (if traceback_due args
            then log [EvStderrWrite (get_traceback e)] w else w).

(** The keys popped at lines 226-228. *)
Definition step_keys : list string :=
  ["__step_input__"; "__default_output__"; "step_input"; "step_output";
   "step_depends"; "_input"; "_output"; "_depends"].

(** The configuration a worker is started with (lines 261-265). *)
Definition worker_config (config : gmap string pyval)
    (tapping_logging tapping_controller : pyval) : gmap string pyval :=
  <["sockets" := PDict [("tapping_logging", tapping_logging);
                        ("tapping_controller", tapping_controller)]]>
    (<["tapping" := PStr "slave"]> config).

(** The dictionary the step executor is run on (lines 81-91): what
    [prepare_env] left, without the three step keys, with the three
    sets of the analysis. *)
Definition step_dict (prepared : gmap string pyval) (res : Analysis)
  : gmap string pyval :=
  <["__changed_vars__" := changed_vars res]>
    (<["__environ_vars__" := environ_vars res]>
       (<["__signature_vars__" := signature_vars res]>
          (delete "__step_output__"
             (delete "__default_output__"
                (delete "__step_input__" prepared))))).

(** What [execute_scratch_cell] makes of the outcome of the step. *)
Definition scratch_outcome (r : result pyval) : result pyval :=
  match r with
  | Ret v => Ret v
  | Raise e =>
      match target_failure e with
      | Some target => Raise (RuntimeError ("Unavailable target " +:+ target))
      | None => Raise e
      end
  end.

(** The arguments the dispatcher goes on with (lines 139-147). *)
Definition kept (tokens : list string) (parsed : Args) : Args :=
  if flag_first tokens then set_workflow None parsed else parsed.

(** A text without any backtick. *)
Fixpoint no_backtick (s : string) : bool :=
  match s with
  | EmptyString => true
  | String c r => negb (is_backtick c) && no_backtick r
  end.


(** A token that, behind its leading white space, starts with ['-']. *)
Definition flag_token (tok : string) : Prop :=
  exists pre rest,
    tok = pre +:+ String "-" rest /\ PyStr.all_space pre = true.

(** An argument list that is not empty and starts with such a token. *)
Definition leading_flag (tokens : list string) : Prop :=
  exists tok rest, tokens = tok :: rest /\ flag_token tok.

(** The number a text of two decimal digits stands for. *)
Definition digit_value (c : ascii) : option nat :=
  let n := nat_of_ascii c in
  if ((48 <=? n) && (n <=? 57))%nat then Some (n - 48)%nat else None.

Definition two_digit_value (s : string) : option nat :=
  match s with
  | String a (String b EmptyString) =>
      match digit_value a, digit_value b with
      | Some x, Some y => Some (10 * x + y)%nat
      | _, _ => None
      end
  | _ => None
  end.

(** [T] is the time [now] in the format [MMDDYY_HHMM]: month, day and
    the last two digits of the year, an underscore, hour and minute,
    each in two digits. *)
Definition MMDDYY_HHMM (now : datetime) (T : string) : Prop :=
  exists mm dd yy HH MM,
    T = mm +:+ dd +:+ yy +:+ "_" +:+ HH +:+ MM /\
    two_digit_value mm = Some (month now mod 100)%nat /\
    two_digit_value dd = Some (day now mod 100)%nat /\
    two_digit_value yy = Some (year now mod 100)%nat /\
    two_digit_value HH = Some (hour now mod 100)%nat /\
    two_digit_value MM = Some (minute now mod 100)%nat.

(** [os.makedirs(p)] finds no regular file at [p] or above it. *)
Definition makeable (w : World) (p : string) : bool :=
  negb (is_file w p) && negb (existsb (is_file w) (parents p)).

(** The loop of lines 217-219 gets through: it does not call
    [os.makedirs], or the call succeeds. *)
Definition bin_dir_ready (args : Args) (w : World) : Prop :=
  "~/.sos/bin" ∉ __bin_dirs__ args \/
  expanduser "~/.sos/bin" ∈ dirs w \/
  makeable w (expanduser "~/.sos/bin") = true.

End Vocabulary.

(** A session connected to a controller: [env.config['sockets']] is set. *)
Definition w_tapped {sos : SoS} : World :=
  mkWorld ["ipykernel_launcher"] (Some 2) [OtherHandler "StreamHandler"]
    {["sockets" := PDict [("tapping_logging", PInt 5001);
                          ("tapping_controller", PInt 5002)]]}
    ∅ true (<["PATH" := "/usr/bin"]> ∅) ∅ ∅ "/home/user"
    (mkDatetime 2019 1 5 9 7) [].

(** The arguments of a parser that leaves the verbosity unset. *)
Definition unset_args : Args :=
  mkArgs None None None None None None ["~/.sos/bin"] false
    (Some "default") None false false (Some 4) None None.

(** The arguments of [%run -v 3]. *)
Definition debug_args : Args :=
  mkArgs None (Some 3) None None None None ["~/.sos/bin"] false
    (Some "default") None false false (Some 4) None None.

(** An engine whose host refuses the script. *)
Definition unreachable (e : exn) : SoS := {|
  Script := string;
  Workflow := list string;
  Step := string;
  Host := string;
  Executor := unit;
  shlex_split s := Ret [s];
  parse_known_args _ argv := Ret (remote_args, argv);
  load_config_files _ := Ret (PDict []);
  Host_connect name := Ret name;
  send_to_host _ _ := Raise e;
  remove_arg argv _ := argv;
  run_command _ _ := Ret 0;
  expanduser p := p;
  SOS_SECTION_HEADER_match line := PyStr.startswith line "[";
  SoS_Script content := Ret content;
  Script_workflow script _ _ := Ret [script];
  sections wf := wf;
  prepare_env _ d := Ret d;
  analyze_section _ := ok_analysis;
  Interactive_Step_Executor_run _ d := (ok_step, d);
  Base_Executor _ _ _ := Ret tt;
  Base_Executor_run _ _ := Ret PNone;
  get_traceback e := str_exn e
|}.

(** An engine whose scripts have no section. *)
Definition hollow : SoS := {|
  Script := string;
  Workflow := list string;
  Step := string;
  Host := string;
  Executor := unit;
  shlex_split s := Ret [s];
  parse_known_args _ argv := Ret (demo_args, argv);
  load_config_files _ := Ret (PDict []);
  Host_connect name := Ret name;
  send_to_host _ _ := Ret tt;
  remove_arg argv _ := argv;
  run_command _ _ := Ret 0;
  expanduser p := p;
  SOS_SECTION_HEADER_match line := PyStr.startswith line "[";
  SoS_Script content := Ret content;
  Script_workflow script _ _ := Ret [];
  sections wf := wf;
  prepare_env _ d := Ret d;
  analyze_section _ := ok_analysis;
  Interactive_Step_Executor_run _ d := (ok_step, d);
  Base_Executor _ _ _ := Ret tt;
  Base_Executor_run _ _ := Ret PNone;
  get_traceback e := str_exn e
|}.


(** A session in which [env] has no attribute [tapping_controller]. *)
Definition w_unbound {sos : SoS} : World :=
  mkWorld ["ipykernel_launcher"] (Some 2) [OtherHandler "StreamHandler"]
    ∅ ∅ false (<["PATH" := "/usr/bin"]> ∅) {[".sos"]} ∅ "/home/user"
    (mkDatetime 2019 1 5 9 7) [].

(** A session whose working directory has no [.sos] directory. *)
Definition w_fresh {sos : SoS} : World :=
  mkWorld ["ipykernel_launcher"] (Some 2) [OtherHandler "StreamHandler"]
    ∅ ∅ true (<["PATH" := "/usr/bin"]> ∅) ∅ ∅ "/home/user"
    (mkDatetime 2019 1 5 9 7) [].

(** A session in which a regular file stands at [~/.sos/bin]. *)
Definition w_blocked {sos : SoS} : World :=
  mkWorld ["ipykernel_launcher"] (Some 2) [OtherHandler "StreamHandler"]
    ∅ ∅ true (<["PATH" := "/usr/bin"]> ∅) {[".sos"]}
    (<["~/.sos/bin" := "not a directory"]> ∅) "/home/user"
    (mkDatetime 2019 1 5 9 7) [].


(** A session without [PATH] in its environment. *)
Definition w_nopath {sos : SoS} : World :=
  mkWorld ["ipykernel_launcher"] (Some 2) [OtherHandler "StreamHandler"]
    ∅ ∅ true ∅ ∅ ∅ "/home/user" (mkDatetime 2019 1 5 9 7) [].

(** An engine whose parser leaves the verbosity unset. *)
Definition unset : SoS :=
  demo unset_args (Ret 0) ok_analysis ok_step (Ret PNone).

(** An engine at verbosity 3 whose step raises [e]. *)
Definition debugging (e : exn) : SoS :=
  demo debug_args (Ret 0) ok_analysis (Raise e) (Ret PNone).

(** An engine whose step leaves no [__last_res__]. *)
Definition forgetful : SoS :=
  demo demo_args (Ret 0) ok_analysis (Ret (PDict [])) (Ret PNone).

(** An engine on which no argument string can be split. *)
Definition unbalanced (e : exn) : SoS := {|
  Script := string;
  Workflow := list string;
  Step := string;
  Host := string;
  Executor := unit;
  shlex_split _ := Raise e;
  parse_known_args _ argv := Ret (demo_args, argv);
  load_config_files _ := Ret (PDict []);
  Host_connect name := Ret name;
  send_to_host _ _ := Ret tt;
  remove_arg argv _ := argv;
  run_command _ _ := Ret 0;
  expanduser p := p;
  SOS_SECTION_HEADER_match line := PyStr.startswith line "[";
  SoS_Script content := Ret content;
  Script_workflow script _ _ := Ret [script];
  sections wf := wf;
  prepare_env _ d := Ret d;
  analyze_section _ := ok_analysis;
  Interactive_Step_Executor_run _ d := (ok_step, d);
  Base_Executor _ _ _ := Ret tt;
  Base_Executor_run _ _ := Ret PNone;
  get_traceback e := str_exn e
|}.

(** * Properties *)

(** ** Strings *)
Module PyStrFacts.
Import PyStr.

Lemma truthy_lstrip s : truthy (lstrip s) = negb (all_space s).
Proof.
  induction s as [|c r IH]; simpl; [reflexivity|].
  destruct (is_space c); simpl; [exact IH | reflexivity].
Qed.

Lemma all_space_lstrip s : all_space (lstrip s) = all_space s.
Proof.
  induction s as [|c r IH]; simpl; [reflexivity|].
  destruct (is_space c) eqn:E; simpl; [exact IH | now rewrite E].
Qed.

Lemma all_space_rev_app s acc :
  all_space (String.rev_app s acc) = all_space s && all_space acc.
Proof.
  revert acc. induction s as [|c r IH]; intros acc; simpl; [reflexivity|].
  rewrite IH. simpl. destruct (is_space c), (all_space r); reflexivity.
Qed.

Lemma truthy_rev_app s acc :
  truthy (String.rev_app s acc) = truthy s || truthy acc.
Proof.
  revert acc. induction s as [|c r IH]; intros acc; simpl; [reflexivity|].
  rewrite IH. simpl. now rewrite orb_true_r.
Qed.

Lemma all_space_rev s : all_space (String.rev s) = all_space s.
Proof. unfold String.rev. rewrite all_space_rev_app. simpl. apply andb_true_r. Qed.

(** [s.strip()] is empty exactly when [s] is empty or holds only
    white space. *)
Lemma strip_empty s : negb (truthy (strip s)) = all_space s.
Proof.
  unfold strip, rstrip, String.rev at 1.
  rewrite truthy_rev_app. simpl. rewrite orb_false_r.
  rewrite truthy_lstrip, negb_involutive.
  rewrite all_space_rev. apply all_space_lstrip.
Qed.

Lemma occurs_in_suffix pre s : occurs_in s (pre +:+ s).
Proof.
  exists pre, EmptyString.
  assert (E : forall t, t +:+ EmptyString = t).
  { induction t as [|c t IH]; [reflexivity|].
    change (String c (t +:+ EmptyString) = String c t). now rewrite IH. }
  now rewrite E.
Qed.

End PyStrFacts.

Section Proofs.
Context {sos : SoS}.

Lemma blank_all_space code : blank code = PyStr.all_space code.
Proof. apply PyStrFacts.strip_empty. Qed.

(** ** Running a sequence *)

Lemma bind_ret {A B} (m : M A) (f : A -> M B) w a w1 :
  m w = (Ret a, w1) -> (m ≫= f) w = f a w1.
Proof. intros H. unfold mbind, M_bind. now rewrite H. Qed.

Lemma bind_raise {A B} (m : M A) (f : A -> M B) w e w1 :
  m w = (Raise e, w1) -> (m ≫= f) w = (Raise e, w1).
Proof. intros H. unfold mbind, M_bind. now rewrite H. Qed.

(** A run is the pair of its result and its final world. *)
Lemma run_pair {A} (m : M A) w : m w = ((m w).1, (m w).2).
Proof. now destruct (m w). Qed.

Lemma run_eq {A} (m : M A) w r : (m w).1 = r -> m w = (r, (m w).2).
Proof. intros <-. apply run_pair. Qed.

Lemma bind_inv {A B} (m : M A) (f : A -> M B) w r w' :
  (m ≫= f) w = (r, w') ->
  (exists a w1, m w = (Ret a, w1) /\ f a w1 = (r, w')) \/
  (exists e, m w = (Raise e, w') /\ r = Raise e).
Proof.
  unfold mbind, M_bind. destruct (m w) as [[a|e] w1]; intros H.
  - left. eauto.
  - right. inversion H; subst. eauto.
Qed.

Lemma log_log evs1 evs2 (w : World) :
  log evs2 (log evs1 w) = log (evs1 ++ evs2) w.
Proof. unfold log, set_trace. simpl. now rewrite app_assoc. Qed.

Lemma dispatch_finally_run w : dispatch_finally w = (Ret tt, finalize w).
Proof. reflexivity. Qed.


Lemma trace_finalize w : trace (finalize w) = trace w.
Proof. reflexivity. Qed.

(** ** Frames: relations that every step of a computation respects *)

#[local] Instance extends_frame : Frame extends.
Proof.
  split; try (intros; exists []; simpl; now rewrite app_nil_r).
  intros a b c [e1 H1] [e2 H2]. exists (e1 ++ e2).
  rewrite H2, H1. now rewrite app_assoc.
Qed.

#[local] Instance extends_logs : Logs any_event extends.
Proof. intros ev w _. now exists [ev]. Qed.

#[local] Instance extends_writes : Writes extends.
Proof. intros v w. exists []. simpl. now rewrite app_nil_r. Qed.

#[local] Instance extends_assigns : Assigns extends.
Proof. intros v w. exists []. simpl. now rewrite app_nil_r. Qed.

#[local] Instance same_argv_frame : Frame same_argv.
Proof.
  split; try (intros; reflexivity).
  intros a b c H1 H2. unfold same_argv in *. congruence.
Qed.

#[local] Instance same_argv_logs : Logs any_event same_argv.
Proof. intros ev w _. reflexivity. Qed.

#[local] Instance same_argv_writes : Writes same_argv.
Proof. intros v w. reflexivity. Qed.

Lemma silent_same_trace (w w' : World) : trace w' = trace w -> silent w w'.
Proof. intros H. exists []. split; [now rewrite app_nil_r | constructor]. Qed.

#[local] Instance silent_frame : Frame silent.
Proof.
  split; try (intros; now apply silent_same_trace).
  intros a b c [e1 [H1 Q1]] [e2 [H2 Q2]]. exists (e1 ++ e2). split.
  - rewrite H2, H1. now rewrite app_assoc.
  - apply Forall_app. now split.
Qed.

#[local] Instance silent_logs : Logs no_response silent.
Proof. intros ev w Q. exists [ev]. split; [reflexivity | now constructor]. Qed.

#[local] Instance silent_writes : Writes silent.
Proof. intros v w. now apply silent_same_trace. Qed.

#[local] Instance silent_assigns : Assigns silent.
Proof. intros v w. now apply silent_same_trace. Qed.

Lemma silent_logs_quiet : Logs quiet silent.
Proof.
  intros ev w Q. apply silent_logs. unfold quiet in Q. unfold no_response.
  destruct ev; try reflexivity; discriminate.
Qed.

Lemma idle_refl w : idle w w.
Proof. split; [reflexivity|]. exists []. split; [now rewrite app_nil_r | constructor]. Qed.

Lemma idle_same_trace (w w' : World) :
  files w' = files w -> trace w' = trace w -> idle w w'.
Proof.
  intros Hf Ht. split; [exact Hf|]. exists [].
  split; [now rewrite app_nil_r | constructor].
Qed.

#[local] Instance idle_frame : Frame idle.
Proof.
  split; try (intros; now apply idle_same_trace).
  intros a b c [F1 [e1 [H1 Q1]]] [F2 [e2 [H2 Q2]]]. split; [congruence|].
  exists (e1 ++ e2). split.
  - rewrite H2, H1. now rewrite app_assoc.
  - apply Forall_app. now split.
Qed.

#[local] Instance idle_logs : Logs quiet idle.
Proof.
  intros ev w Q. split; [reflexivity|]. exists [ev].
  split; [reflexivity | now constructor].
Qed.

#[local] Instance idle_assigns : Assigns idle.
Proof. intros v w. now apply idle_same_trace. Qed.

(** *** Returned values *)


Lemma returns_raise {A} (Q : A -> Prop) e : returns Q (raise e).
Proof. intros w x w' H. inversion H. Qed.


Lemma returns_try_except {A} (Q : A -> Prop) (body : M A) handler :
  returns Q body ->
  (forall e h, handler e = Some h -> returns Q h) ->
  returns Q (try_except body handler).
Proof.
  intros Hb Hh w a w'. unfold try_except.
  destruct (body w) as [[x|e] w1] eqn:E.
  - intros H. inversion H; subst. eapply Hb; eassumption.
  - destruct (handler e) as [h|] eqn:Eh; [|discriminate].
    intros H. eapply Hh; eassumption.
Qed.

Lemma returns_try_finally {A} (Q : A -> Prop) (body : M A) final :
  returns Q body -> returns Q (try_finally body final).
Proof.
  intros Hb w a w'. unfold try_finally.
  destruct (body w) as [r1 w1] eqn:E.
  destruct (final w1) as [[u|e] w2]; [|discriminate].
  intros H. inversion H; subst. eapply Hb; eassumption.
Qed.

(** *** Rules *)
Section Rules.
Context (R : World -> World -> Prop) `{!Frame R}.

Lemma preserves_ret {A} (a : A) : preserves R (mret a).
Proof. intros w r w' H. inversion H. apply frame_refl. Qed.

Lemma preserves_raise {A} e : preserves R (raise (A := A) e).
Proof. intros w r w' H. inversion H. apply frame_refl. Qed.

Lemma preserves_lift {A} (x : result A) : preserves R (lift x).
Proof. intros w r w' H. inversion H. apply frame_refl. Qed.

Lemma preserves_get : preserves R get.
Proof. intros w r w' H. inversion H. apply frame_refl. Qed.

Lemma preserves_modify f : (forall w, R w (f w)) -> preserves R (modify f).
Proof. intros Hf w r w' H. inversion H. apply Hf. Qed.

Lemma preserves_bind {A B} (m : M A) (f : A -> M B) :
  preserves R m -> (forall a, preserves R (f a)) -> preserves R (m ≫= f).
Proof.
  intros Hm Hf w r w' H.
  destruct (bind_inv _ _ _ _ _ H) as [(a & w1 & H1 & H2) | (e & H1 & _)].
  - eapply frame_trans; [eapply Hm | eapply Hf]; eassumption.
  - eapply Hm; eassumption.
Qed.


Lemma preserves_try_except {A} (body : M A) handler :
  preserves R body ->
  (forall e h, handler e = Some h -> preserves R h) ->
  preserves R (try_except body handler).
Proof.
  intros Hb Hh w r w'. unfold try_except.
  destruct (body w) as [[a|e] w1] eqn:E.
  - intros H. inversion H; subst. eapply Hb; eassumption.
  - destruct (handler e) as [h|] eqn:Eh.
    + intros H. eapply frame_trans; [eapply Hb | eapply Hh]; eassumption.
    + intros H. inversion H; subst. eapply Hb; eassumption.
Qed.

Lemma preserves_try_finally {A} (body : M A) final :
  preserves R body -> preserves R final ->
  preserves R (try_finally body final).
Proof.
  intros Hb Hf w r w'. unfold try_finally.
  destruct (body w) as [r1 w1] eqn:E.
  destruct (final w1) as [[u|e] w2] eqn:E2; intros H; inversion H; subst;
    (eapply frame_trans; [eapply Hb | eapply Hf]; eassumption).
Qed.

Lemma preserves_for_each {A} (l : list A) body :
  (forall x, preserves R (body x)) -> preserves R (for_each l body).
Proof.
  intros Hb. induction l as [|x l IH]; simpl.
  - apply preserves_ret.
  - apply preserves_bind; [apply Hb | intros _; exact IH].
Qed.

Lemma preserves_config_getitem k : preserves R (config_getitem k).
Proof.
  unfold config_getitem. apply preserves_bind; [apply preserves_get|].
  intros w. destruct (env_config w !! k); [apply preserves_ret|].
  apply preserves_bind; [|intros _; apply preserves_ret].
  apply preserves_modify. intros w0. apply frame_config.
Qed.

Lemma frame_assign_verbosity v w : R w (assign_verbosity v w).
Proof.
  unfold assign_verbosity. destruct (valid_verbosity v); [|apply frame_refl].
  eapply frame_trans; [apply frame_verbosity | apply frame_handlers].
Qed.

Lemma preserves_subscript v k : preserves R (subscript v k).
Proof.
  unfold subscript. destruct v; try apply preserves_raise.
  destruct (assoc d k); [apply preserves_ret | apply preserves_raise].
Qed.

Lemma preserves_emit P `{!Logs P R} ev : P ev -> preserves R (emit ev).
Proof. intros HP. apply preserves_modify. intros w. now apply frame_log. Qed.

Lemma preserves_call P `{!Logs P R} {A} ev (x : result A) :
  P ev -> preserves R (call ev x).
Proof.
  intros HP. unfold call. apply preserves_bind.
  - now apply (preserves_emit P).
  - intros _. apply preserves_lift.
Qed.

Lemma preserves_sos_dict_set k v : preserves R (sos_dict_set k v).
Proof. apply preserves_modify. intros w. apply frame_sos_dict. Qed.

Lemma preserves_sos_dict_pop k : preserves R (sos_dict_pop k).
Proof. apply preserves_modify. intros w. apply frame_sos_dict. Qed.

Lemma preserves_config_set k v : preserves R (config_set k v).
Proof. apply preserves_modify. intros w. apply frame_config. Qed.

End Rules.

(** A frame that allows every event allows the quiet ones. *)
Lemma logs_quiet_of_any R : Logs any_event R -> Logs quiet R.
Proof. intros H ev w _. now apply H. Qed.

(** One step of a frame proof: the rule that fits the head of the
    computation, or a case split on what it branches on. *)
Ltac frame_side :=
  lazymatch goal with
  | |- ?R _ (assign_verbosity _ _) => apply (frame_assign_verbosity R)
  | _ =>
      first [ apply frame_verbosity | apply frame_handlers
            | apply frame_config | apply frame_sos_dict
            | apply frame_environ | apply frame_dirs
            | apply frame_files | apply frame_argv | apply frame_refl ]
  end.

Ltac frame_step :=
  lazymatch goal with
  | |- preserves ?R (match ?x with _ => _ end) => destruct x
  | |- preserves ?R (mbind _ _) => apply (preserves_bind R); [ | intros ? ]
  | |- preserves ?R (mret _) => apply (preserves_ret R)
  | |- preserves ?R (raise _) => apply (preserves_raise R)
  | |- preserves ?R (lift _) => apply (preserves_lift R)
  | |- preserves ?R get => apply (preserves_get R)
  | |- preserves ?R (sos_dict_set _ _) => apply (preserves_sos_dict_set R)
  | |- preserves ?R (sos_dict_pop _) => apply (preserves_sos_dict_pop R)
  | |- preserves ?R (config_set _ _) => apply (preserves_config_set R)
  | |- preserves ?R (config_getitem _) => apply (preserves_config_getitem R)
  | |- preserves ?R (subscript _ _) => apply (preserves_subscript R)
  | |- preserves ?R (emit _) =>
      apply (preserves_emit R _); first [exact I | reflexivity]
  | |- preserves ?R (call _ _) =>
      apply (preserves_call R _); first [exact I | reflexivity]
  | |- preserves ?R (for_each _ _) => apply (preserves_for_each R); intros ?
  | |- preserves ?R (try_finally _ _) => apply (preserves_try_finally R)
  | |- preserves ?R (modify _) => apply (preserves_modify R); intros ?; frame_side
  | |- preserves ?R logger_handers => apply (preserves_raise R)
  | |- preserves ?R (send_response _ _ _) => unfold send_response
  | |- preserves ?R (with_redirect_sos_io _ _) => unfold with_redirect_sos_io
  | |- preserves ?R (makedirs _) => unfold makedirs
  | |- preserves ?R (write_file _ _ _) => unfold write_file
  | |- preserves ?R first_handler => unfold first_handler
  | |- preserves ?R (first_section _) => unfold first_section
  end.

Ltac frame := repeat frame_step.

(** Proves the side condition of [preserves_try_except] for a handler
    given as a case analysis on the exception. *)
Ltac frame_handler :=
  let e := fresh "e" in
  let h := fresh "h" in
  let Hh := fresh "Hh" in
  intros e h Hh; cbv beta delta [scratch_handler worker_handler remote_handler
                                 dispatch_handler] in Hh;
  repeat case_match; simplify_eq; frame.

Section Frames.
Context (R : World -> World -> Prop) `{!Frame R}.

Lemma update_logger_frame kernel : preserves R (update_logger kernel).
Proof. unfold update_logger, first_handler, logger_handers. frame. Qed.

Lemma prepend_bin_dirs_frame args : preserves R (prepend_bin_dirs args).
Proof. unfold prepend_bin_dirs, makedirs. frame. Qed.

Lemma reset_step_keys_frame : preserves R reset_step_keys.
Proof. unfold reset_step_keys. frame. Qed.

Lemma local_setup_frame args workflow_args :
  preserves R (local_setup args workflow_args).
Proof.
  unfold local_setup. apply (preserves_bind R); [apply prepend_bin_dirs_frame|].
  intros _. apply (preserves_bind R); [apply reset_step_keys_frame|].
  intros _. frame.
Qed.

Lemma dispatch_finally_frame : preserves R dispatch_finally.
Proof. unfold dispatch_finally. frame. Qed.

(** The part of the dispatcher that only builds parsers. *)
Context `{!Logs quiet R}.

Lemma parse_arguments_frame raw_args : preserves R (parse_arguments raw_args).
Proof. unfold parse_arguments. frame. Qed.

Lemma dispatch_prologue_frame `{!Assigns R} code raw_args kernel :
  preserves R (dispatch_prologue code raw_args kernel).
Proof.
  unfold dispatch_prologue. apply (preserves_bind R).
  { unfold split_raw_args. frame. }
  intros tokens. destruct (help_check code tokens) as [c|].
  - apply (preserves_bind R); [apply parse_arguments_frame|].
    intros [args workflow_args]. do 2 (apply (preserves_bind R); [frame|intros _]).
    apply (preserves_bind R); [apply update_logger_frame|]. intros _. frame.
  - unfold print_usage. frame.
Qed.




End Frames.

(** Frames that also allow every event and file writes hold across the
    execution paths. *)
Section ExecutionFrames.
Context (R : World -> World -> Prop) `{!Frame R} `{!Logs any_event R}
        `{!Writes R}.

Lemma execute_scratch_cell_frame section config :
  preserves R (execute_scratch_cell section config).
Proof.
  unfold execute_scratch_cell. apply (preserves_bind R).
  - unfold scratch_setup. frame.
  - intros _. apply (preserves_try_except R).
    + unfold scratch_body. frame.
    + frame_handler.
Qed.

Lemma remote_delegate_frame code raw_args kernel args :
  preserves R (remote_delegate code raw_args kernel args).
Proof.
  unfold remote_delegate. apply (preserves_bind R).
  - unfold remote_setup. frame.
  - intros [[[host script] argv]|]; [|frame].
    apply (preserves_bind R); [|intros _; frame].
    unfold remote_run. apply (preserves_try_except R).
    + unfold remote_command, with_redirect_sos_io, send_response. frame.
    + unfold send_response. frame_handler.
Qed.

Lemma execution_phase_frame code args workflow_args config workflow_mode :
  preserves R (execution_phase code args workflow_args config workflow_mode).
Proof.
  unfold execution_phase. destruct (blank code); [frame|].
  destruct workflow_mode.
  - unfold start_worker. frame.
  - apply (preserves_bind R); [frame|]. intros _.
    destruct (negb (has_header_or_directive code)); [|frame].
    unfold run_scratch, first_section. do 3 (apply (preserves_bind R); [frame|intros ?]).
    apply (preserves_bind R); [apply execute_scratch_cell_frame|].
    intros ?. frame.
Qed.

Lemma guarded_execution_frame args body :
  preserves R body -> preserves R (guarded_execution args body).
Proof.
  intros Hb. unfold guarded_execution. apply (preserves_try_finally R).
  - apply (preserves_try_except R); [exact Hb|]. frame_handler.
  - apply dispatch_finally_frame; assumption.
Qed.

Lemma local_dispatch_frame code args workflow_args workflow_mode :
  preserves R (local_dispatch code args workflow_args workflow_mode).
Proof.
  unfold local_dispatch. apply (preserves_bind R).
  - apply local_setup_frame; assumption.
  - intros config. apply guarded_execution_frame, execution_phase_frame.
Qed.

End ExecutionFrames.

Lemma run_sos_workflow_extends code raw_args kernel workflow_mode :
  preserves extends (run_sos_workflow code raw_args kernel workflow_mode).
Proof.
  unfold run_sos_workflow. apply (preserves_bind extends).
  - apply dispatch_prologue_frame;
      first [typeclasses eauto | apply logs_quiet_of_any; typeclasses eauto].
  - intros [[[[c tokens] args] workflow_args]|]; [|frame].
    destruct (truthy_opt_str (__remote__ args)).
    + apply remote_delegate_frame; typeclasses eauto.
    + apply local_dispatch_frame; typeclasses eauto.
Qed.

(** ** The claims *)

(** Unfolds the monad so that a run on a symbolic world computes. *)
Ltac run :=
  cbv beta iota zeta delta [mbind M_bind mret M_ret emit modify call lift get
                            raise try_except try_finally for_each].

(** C9.  [stop_controller] on an absent handle returns at once and
    leaves the world, and so every channel and thread, untouched.  On
    a live handle it sends ['done'] on the request channel, waits for
    the answer, releases the channel bindings and joins the controller
    thread, in this order and nothing else. *)
Theorem stop_controller_protocol (c : Controller) (w : World) :
  stop_controller None w = (Ret tt, w) /\
  stop_controller (Some c) w =
    (Ret tt, log [EvReqSend ["done"]; EvReqRecv; EvDisconnectControllers;
                  EvJoin c] w).
Proof.
  split; [reflexivity|].
  unfold stop_controller. run. now rewrite !log_log.
Qed.

Lemma tapping_controller_log evs (w : World) :
  env_tapping_controller (log evs w) = env_tapping_controller w.
Proof. reflexivity. Qed.

Lemma engine_events_quiet self :
  Forall (fun ev => rendezvous ev = false) (engine_events self).
Proof.
  unfold engine_events. destruct (Base_Executor _ _ _); repeat constructor.
Qed.

(** C2, as the code has it.  A worker whose engine run succeeds
    pushes ["DONE"] on the log channel, then sends the outcome on the
    reply channel, and returns.  A worker whose engine raises an
    [Exception] pushes the text of the exception on the log channel
    and returns normally: it sends no reply and waits for no
    acknowledgement.  A worker whose engine raises something that is
    no [Exception] ([SystemExit], [KeyboardInterrupt]) does not take
    it: it leaves [run], and nothing was pushed or sent. *)
Theorem worker_rendezvous (self : Tapped_Executor) (w : World) :
  (forall ret,
     engine_outcome self = Ret ret ->
     exists rest,
       Tapped_Executor_run self w =
         (Ret tt,
          log (engine_events self ++
               [EvLoggingSend ["info"; "DONE"]; EvControllerSend ret]
               ++ rest) w)) /\
  (forall e,
     engine_outcome self = Raise e -> is_Exception e = true ->
     Tapped_Executor_run self w =
       (Ret tt,
        log (engine_events self ++
             [EvLogToFile (str_exn e); EvLoggingSend ["info"; str_exn e]]) w)) /\
  (forall e,
     engine_outcome self = Raise e -> is_Exception e = false ->
     Tapped_Executor_run self w = (Raise e, log (engine_events self) w)) /\
  Forall (fun ev => rendezvous ev = false) (engine_events self) /\
  ~ In (EvLoggingSend ["info"; "DONE"]) (engine_events self).
Proof.
  split; [|split; [|split; [|split; [apply engine_events_quiet|]]]].
  - intros ret He. unfold engine_outcome in He.
    unfold Tapped_Executor_run, worker_body, tapping_controller_recv,
      worker_handler, engine_events.
    destruct (Base_Executor _ _ _) as [ex|e0] eqn:E; [|discriminate].
    run. rewrite He. rewrite !tapping_controller_log.
    destruct (env_tapping_controller w).
    + exists [EvControllerRecv; EvLogToFile "done"]. now rewrite !log_log.
    + cbn [is_Exception]. run. eexists [_; _]. now rewrite !log_log.
  - intros e He Hx. unfold engine_outcome in He.
    unfold Tapped_Executor_run, worker_body, worker_handler, engine_events.
    destruct (Base_Executor _ _ _) as [ex|e0] eqn:E.
    + run. rewrite He, Hx. run. now rewrite !log_log.
    + inversion He; subst. run. rewrite Hx. run. now rewrite !log_log.
  - intros e He Hx. unfold engine_outcome in He.
    unfold Tapped_Executor_run, worker_body, worker_handler, engine_events.
    destruct (Base_Executor _ _ _) as [ex|e0] eqn:E.
    + run. rewrite He, Hx. now rewrite !log_log.
    + inversion He; subst. run. now rewrite Hx.
  - unfold engine_events. destruct (Base_Executor _ _ _); simpl;
      intros H; repeat destruct H as [H|H]; try discriminate; exact H.
Qed.

(** When [env] has no attribute [tapping_controller], the wait of
    line 124 raises after the reply was sent; the handler reports the
    [AttributeError] on the log channel and the worker returns without
    having waited. *)
Lemma worker_without_tapping_controller (self : Tapped_Executor) (w : World) ret :
  engine_outcome self = Ret ret -> env_tapping_controller w = false ->
  exists msg,
    Tapped_Executor_run self w =
      (Ret tt,
       log (engine_events self ++
            [EvLoggingSend ["info"; "DONE"]; EvControllerSend ret;
             EvLogToFile msg; EvLoggingSend ["info"; msg]]) w).
Proof.
  intros He Hc. unfold engine_outcome in He. eexists.
  unfold Tapped_Executor_run, worker_body, tapping_controller_recv,
    worker_handler, engine_events.
  destruct (Base_Executor _ _ _) as [ex|e0] eqn:E; [|discriminate].
  run. rewrite He. rewrite !tapping_controller_log, Hc.
  cbn [is_Exception str_exn]. run. now rewrite !log_log.
Qed.



(** *** The dispatcher up to the choice of a mode *)

Lemma bind_bind {A B C} (m : M A) (f : A -> M B) (g : B -> M C) w :
  ((m ≫= f) ≫= g) w = (m ≫= (fun a => f a ≫= g)) w.
Proof. unfold mbind, M_bind. destruct (m w) as [[a|e] w1]; reflexivity. Qed.

Lemma parse_arguments_run tokens w :
  parse_arguments tokens w =
    (match parse_known_args (negb (flag_first tokens)) tokens with
     | Ret (a, wa) => Ret (if flag_first tokens then set_workflow None a else a, wa)
     | Raise e => Raise e
     end,
     log (parser_events tokens) w).
Proof.
  unfold parse_arguments, parser_events.
  destruct (flag_first tokens); simpl negb; run;
    destruct (parse_known_args _ tokens) as [[a wa]|e]; now rewrite !log_log.
Qed.

Lemma update_logger_returns kernel w r w1 :
  update_logger kernel w = (Ret r, w1) -> exists k, kernel = Some k.
Proof.
  destruct kernel as [k|]; [eauto|]. discriminate.
Qed.

(** What a returning prologue has done. *)
Lemma dispatch_prologue_inv code raw_args kernel w c tokens args workflow_args w1 :
  dispatch_prologue code raw_args kernel w
    = (Ret (Some (c, tokens, args, workflow_args)), w1) ->
  split_raw_args raw_args w = (Ret tokens, w) /\
  help_check code tokens = Some c /\
  (exists k, kernel = Some k) /\
  exists parsed,
    parse_known_args (negb (flag_first tokens)) tokens = Ret (parsed, workflow_args) /\
    args = resolve_outputs (strftime_mdy_HM (clock w))
             (if flag_first tokens then set_workflow None parsed else parsed).
Proof.
  unfold dispatch_prologue. intros H.
  apply bind_inv in H as [(toks & w2 & Hs & H)|(e & _ & He)]; [|discriminate].
  assert (w2 = w) as ->.
  { destruct raw_args; simpl in Hs; unfold lift in Hs; inversion Hs; reflexivity. }
  destruct (help_check code toks) as [c0|] eqn:Hh.
  2:{ apply bind_inv in H as [(u & w3 & _ & H)|(e & _ & He)]; discriminate. }
  apply bind_inv in H as [([a wa] & w3 & Hp & H)|(e & _ & He)]; [|discriminate].
  rewrite parse_arguments_run in Hp. inversion Hp as [[Hr Hw]]. clear Hp.
  destruct (parse_known_args _ toks) as [[parsed wargs]|e] eqn:Ep; [|discriminate].
  inversion Hr; subst a wa. clear Hr.
  apply bind_inv in H as [(u1 & w4 & H1 & H)|(e & _ & He)]; [|discriminate].
  apply bind_inv in H as [(u2 & w5 & H2 & H)|(e & _ & He)]; [|discriminate].
  apply bind_inv in H as [(u3 & w6 & H3 & H)|(e & _ & He)]; [|discriminate].
  inversion H1; inversion H2; subst. clear H1 H2.
  destruct (update_logger_returns _ _ _ _ H3) as [k Hk].
  revert H. run. intros H. inversion H; subst.
  split; [exact Hs|]. split; [exact Hh|]. split; [eauto|].
  exists parsed. split; [exact Ep|].
  f_equal.
  assert (Hc : forall ww, update_logger (Some k) ww = (Ret u3, w1) -> clock w1 = clock ww).
  { intros ww. unfold update_logger, first_handler, logger_handers. run.
    destruct (logger_handlers ww) as [|h rest]; [discriminate|].
    destruct (negb (is_NotebookLoggingHandler h)); [|discriminate].
    simpl. destruct (levels _); [|discriminate].
    intros Hx. inversion Hx. reflexivity. }
  rewrite (Hc _ H3). unfold assign_verbosity.
  now destruct (valid_verbosity _).
Qed.

(** The verbosities the setter of [env.verbosity] takes are keys of
    the table of levels. *)
Lemma levels_valid v :
  valid_verbosity v = true -> exists level, levels v = Ret level.
Proof.
  destruct v as [z|]; [|discriminate]. cbn [valid_verbosity]. intros H.
  apply andb_true_iff in H as [H0 H4].
  apply Z.leb_le in H0. apply Z.leb_le in H4.
  assert (Hz : z = 0 \/ z = 1 \/ z = 2 \/ z = 3 \/ z = 4) by lia.
  destruct Hz as [->|[->|[->|[->| ->]]]]; eexists; reflexivity.
Qed.

(** With a kernel and a verbosity the setter takes, lines 152-164
    find the handler the setter installed and replace it. *)
Lemma update_logger_valid k v w :
  valid_verbosity v = true ->
  exists level,
    levels v = Ret level /\
    update_logger (Some k) (assign_verbosity v w)
      = (Ret tt,
         set_logger_handlers
           [NotebookLoggingHandler level k (PyStr.join " " (sys_argv w))]
           (set_env_verbosity v w)).
Proof.
  intros Hv. destruct (levels_valid v Hv) as [level Hl]. exists level.
  split; [exact Hl|].
  unfold update_logger, first_handler, assign_verbosity. rewrite Hv. run.
  cbn [logger_handlers env_verbosity sys_argv set_logger_handlers
       set_env_verbosity is_NotebookLoggingHandler stream_handler negb].
  rewrite Hl. reflexivity.
Qed.

(** C10, as the code has it.  A call that gets past the help check and
    whose arguments parse raises [AttributeError] when no kernel is
    given: the branch of line 166 reads [env.logger.handers].  Up to
    then only the argument parser was called: no execution mode was
    entered, no file written and no variable of [env.sos_dict]
    touched.  With a kernel and a verbosity from 0 to 4 that branch is
    not taken, whatever handlers the logger had: the assignment of
    line 152 sets up the logger before the test of line 153, and the
    prologue returns. *)
Theorem handers_attribute_error (code : option string) (raw_args : RawArgs)
    (kernel : option Kernel) (workflow_mode : bool) (w : World)
    (c : string) (tokens : list string) (parsed : Args)
    (workflow_args : list string) :
  split_raw_args raw_args w = (Ret tokens, w) ->
  help_check code tokens = Some c ->
  parse_known_args (negb (flag_first tokens)) tokens
    = Ret (parsed, workflow_args) ->
  (kernel = None ->
   exists msg w',
     run_sos_workflow code raw_args kernel workflow_mode w
       = (Raise (AttributeError msg), w') /\
     trace w' = trace w ++ parser_events tokens /\
     files w' = files w /\
     env_sos_dict w' = env_sos_dict w) /\
  (forall k, kernel = Some k ->
   valid_verbosity (verbosity parsed) = true ->
   exists args w1,
     dispatch_prologue code raw_args kernel w
       = (Ret (Some (c, tokens, args, workflow_args)), w1)).
Proof.
  intros Hs Hh Hp.
  set (a := if flag_first tokens then set_workflow None parsed else parsed).
  assert (Ha : verbosity a = verbosity parsed).
  { unfold a. now destruct (flag_first tokens). }
  assert (Hpa : parse_arguments tokens w
                = (Ret (a, workflow_args), log (parser_events tokens) w)).
  { rewrite parse_arguments_run, Hp. reflexivity. }
  set (w2 := assign_verbosity (verbosity a)
               (set_sys_argv ("%run" :: tokens) (log (parser_events tokens) w))).
  split.
  - intros ->. eexists _, w2. split; [|split; [|split]].
    + unfold run_sos_workflow. apply bind_raise.
      unfold dispatch_prologue. rewrite (bind_ret _ _ _ _ _ Hs). rewrite Hh.
      rewrite (bind_ret _ _ _ _ _ Hpa). cbv beta iota.
      erewrite bind_ret by reflexivity.
      erewrite bind_ret by reflexivity.
      apply bind_raise. reflexivity.
    + unfold w2, assign_verbosity. now destruct (valid_verbosity _).
    + unfold w2, assign_verbosity. now destruct (valid_verbosity _).
    + unfold w2, assign_verbosity. now destruct (valid_verbosity _).
  - intros k -> Hv. rewrite <- Ha in Hv.
    destruct (update_logger_valid k (verbosity a)
                (set_sys_argv ("%run" :: tokens)
                   (log (parser_events tokens) w)) Hv) as (level & _ & Hu).
    eexists _, _.
    unfold dispatch_prologue. rewrite (bind_ret _ _ _ _ _ Hs). rewrite Hh.
    rewrite (bind_ret _ _ _ _ _ Hpa). cbv beta iota.
    erewrite bind_ret by reflexivity.
    erewrite bind_ret by reflexivity.
    rewrite (bind_ret _ _ _ _ _ Hu). reflexivity.
Qed.

Lemma digit_value_digit k : digit_value (digit k) = Some (k mod 10)%nat.
Proof.
  unfold digit_value, digit.
  assert (Hk : (k mod 10 < 10)%nat) by (apply Nat.mod_upper_bound; lia).
  rewrite nat_ascii_embedding by lia.
  destruct (Nat.leb_spec 48 (48 + k mod 10)) as [_|]; [|lia].
  destruct (Nat.leb_spec (48 + k mod 10) 57) as [_|]; [|lia].
  cbn [andb]. f_equal. lia.
Qed.

Lemma two_digits_value n : two_digit_value (two_digits n) = Some (n mod 100)%nat.
Proof.
  unfold two_digit_value, two_digits. rewrite !digit_value_digit. f_equal.
  change 100%nat with (10 * 10)%nat. rewrite Nat.Div0.mod_mul_r. lia.
Qed.

(** The time stamp of line 168 has the format [MMDDYY_HHMM]. *)
Lemma strftime_format now : MMDDYY_HHMM now (strftime_mdy_HM now).
Proof.
  exists (two_digits (month now)), (two_digits (day now)),
    (two_digits (year now)), (two_digits (hour now)),
    (two_digits (minute now)).
  split; [reflexivity|]. repeat split; apply two_digits_value.
Qed.

(** The configuration the local set-up returns is the dictionary of
    lines 230-251. *)
Lemma local_setup_config args workflow_args w config w2 :
  local_setup args workflow_args w = (Ret config, w2) ->
  config = make_config args workflow_args (cwd w2).
Proof.
  unfold local_setup. intros H.
  apply bind_inv in H as [(u1 & w3 & _ & H)|(e & _ & He)]; [|discriminate].
  apply bind_inv in H as [(u2 & w4 & _ & H)|(e & _ & He)]; [|discriminate].
  revert H. run. intros H. now inversion H.
Qed.

(** C5.  A dispatch whose prologue returns has resolved the two
    output options with the time stamp [T] of its clock, in the format
    [MMDDYY_HHMM]: an option the parser left unset ([None]) resolves
    to [workflow_T.dot] for the DAG and [workflow_T.html] for the
    report; an option given as the empty string resolves to [None];
    any other name is kept.  On the local path the configuration the
    execution phase gets holds the resolved options under
    ['output_dag'] and ['output_report'], [None] for the absent
    ones. *)
Theorem output_defaults (code : option string) (raw_args : RawArgs)
    (kernel : option Kernel) (workflow_mode : bool) (w w1 : World)
    (c : string) (tokens : list string) (args : Args)
    (workflow_args : list string) :
  dispatch_prologue code raw_args kernel w
    = (Ret (Some (c, tokens, args, workflow_args)), w1) ->
  exists parsed T,
    parse_known_args (negb (flag_first tokens)) tokens
      = Ret (parsed, workflow_args) /\
    MMDDYY_HHMM (clock w) T /\
    (__dag__ parsed = None ->
       __dag__ args = Some ("workflow_" +:+ T +:+ ".dot")) /\
    (__report__ parsed = None ->
       __report__ args = Some ("workflow_" +:+ T +:+ ".html")) /\
    (__dag__ parsed = Some "" -> __dag__ args = None) /\
    (__report__ parsed = Some "" -> __report__ args = None) /\
    (forall name, name <> "" -> __dag__ parsed = Some name ->
       __dag__ args = Some name) /\
    (forall name, name <> "" -> __report__ parsed = Some name ->
       __report__ args = Some name) /\
    (forall config w2,
       truthy_opt_str (__remote__ args) = false ->
       local_setup args workflow_args w1 = (Ret config, w2) ->
       config !! "output_dag" = Some (of_opt_str (__dag__ args)) /\
       config !! "output_report" = Some (of_opt_str (__report__ args)) /\
       run_sos_workflow code raw_args kernel workflow_mode w
         = guarded_execution args
             (execution_phase c args workflow_args config workflow_mode) w2).
Proof.
  intros Hp.
  destruct (dispatch_prologue_inv _ _ _ _ _ _ _ _ _ Hp)
    as (_ & _ & _ & parsed & Hparse & Hargs).
  set (T := strftime_mdy_HM (clock w)) in *.
  exists parsed, T. split; [exact Hparse|]. split; [apply strftime_format|].
  assert (Hd : __dag__ args =
               resolve_output ("workflow_" +:+ T +:+ ".dot") (__dag__ parsed)).
  { rewrite Hargs. now destruct (flag_first tokens). }
  assert (Hr : __report__ args =
               resolve_output ("workflow_" +:+ T +:+ ".html")
                 (__report__ parsed)).
  { rewrite Hargs. now destruct (flag_first tokens). }
  assert (Hne : forall name d, name <> "" ->
                  resolve_output d (Some name) = Some name).
  { intros name d Hn. unfold resolve_output.
    destruct (String.eqb_spec name ""); [contradiction | reflexivity]. }
  split; [intros H; now rewrite Hd, H|].
  split; [intros H; now rewrite Hr, H|].
  split; [intros H; now rewrite Hd, H|].
  split; [intros H; now rewrite Hr, H|].
  split; [intros name Hn H; rewrite Hd, H; now apply Hne|].
  split; [intros name Hn H; rewrite Hr, H; now apply Hne|].
  intros config w2 Hrem Hs.
  rewrite (local_setup_config _ _ _ _ _ Hs).
  split; [reflexivity|]. split; [reflexivity|].
  rewrite <- (local_setup_config _ _ _ _ _ Hs).
  unfold run_sos_workflow. rewrite (bind_ret _ _ _ _ _ Hp). cbv beta iota.
  rewrite Hrem. unfold local_dispatch. now rewrite (bind_ret _ _ _ _ _ Hs).
Qed.

(** Whatever the parser answers, a dispatch that got past the help
    check has called it first, and everything later is appended. *)
Lemma parser_called_first code raw_args kernel workflow_mode w c tokens :
  split_raw_args raw_args w = (Ret tokens, w) ->
  help_check code tokens = Some c ->
  exists rest,
    trace (run_sos_workflow code raw_args kernel workflow_mode w).2
      = trace w ++ parser_events tokens ++ rest.
Proof.
  intros Hs Hh. unfold run_sos_workflow, dispatch_prologue.
  rewrite bind_bind, (bind_ret _ _ _ _ _ Hs). cbv beta. rewrite Hh.
  rewrite bind_bind.
  pose proof (parse_arguments_run tokens w) as Hp.
  destruct (parse_known_args _ tokens) as [[a wa]|e].
  - rewrite (bind_ret _ _ _ _ _ Hp).
    match goal with
    | |- context [(?m ≫= ?k) ?w0] =>
        assert (Hf : preserves extends (m ≫= k));
        [|destruct ((m ≫= k) w0) as [r w'] eqn:E;
          destruct (Hf _ _ _ E) as [evs Hevs]]
    end.
    + apply (preserves_bind extends).
      * do 2 (apply (preserves_bind extends); [frame|intros _]).
        apply (preserves_bind extends); [apply update_logger_frame; typeclasses eauto|].
        intros _. frame.
      * intros [[[[c0 toks] args] workflow_args]|]; [|frame].
        destruct (truthy_opt_str (__remote__ args)).
        -- apply remote_delegate_frame; typeclasses eauto.
        -- apply local_dispatch_frame; typeclasses eauto.
    + exists evs. simpl. rewrite Hevs. simpl. now rewrite <- app_assoc.
  - rewrite (bind_raise _ _ _ _ _ Hp). exists []. reflexivity.
Qed.

Lemma lstrip_spaces pre s :
  PyStr.all_space pre = true -> PyStr.lstrip (pre +:+ s) = PyStr.lstrip s.
Proof.
  induction pre as [|a pre IH]; [reflexivity|]. cbn [PyStr.all_space].
  intros H. apply andb_true_iff in H as [Ha Hp].
  change (String a pre +:+ s) with (String a (pre +:+ s)).
  cbn [PyStr.lstrip]. rewrite Ha. now apply IH.
Qed.

(** The test of line 139 holds exactly for the argument lists that
    start with a flag. *)
Lemma flag_first_iff tokens : flag_first tokens = true <-> leading_flag tokens.
Proof.
  unfold flag_first, leading_flag, flag_token. split.
  - destruct tokens as [|tok rest]; [discriminate|]. intros H.
    exists tok, rest. split; [reflexivity|].
    induction tok as [|a tok IH]; [discriminate|].
    cbn [PyStr.lstrip] in H. destruct (PyStr.is_space a) eqn:Ha.
    + destruct (IH H) as (pre & r & -> & Hpre).
      exists (String a pre), r. split; [reflexivity|].
      cbn [PyStr.all_space]. now rewrite Ha, Hpre.
    + exists EmptyString, tok. split; [|reflexivity].
      unfold PyStr.startswith in H. cbn [String.prefix] in H.
      destruct (ascii_dec "-" a) as [<-|]; [reflexivity|discriminate].
  - intros (tok & rest & -> & pre & r & -> & Hpre).
    rewrite (lstrip_spaces pre _ Hpre).
    change (PyStr.lstrip (String "-" r)) with (String "-" r).
    unfold PyStr.startswith. cbn [String.prefix].
    destruct (ascii_dec "-" "-") as [_|Hne]; [now destruct r|now destruct Hne].
Qed.

(** C4, as the code has it.  For a request with code and without
    ['-h'] among its arguments: when the argument list is not empty
    and its first token, behind its leading white space, starts with
    ['-'], the first thing the dispatcher does is to build the parser
    without workflow support and to parse with it, and the arguments
    it goes on with have no workflow name; otherwise (also for an
    empty list) it builds the parser with workflow support and goes on
    with the workflow name that parser returned. *)
Theorem parse_mode (code : option string) (raw_args : RawArgs)
    (kernel : option Kernel) (workflow_mode : bool) (w : World)
    (c : string) (tokens : list string) :
  split_raw_args raw_args w = (Ret tokens, w) ->
  code = Some c ->
  "-h" ∉ tokens ->
  (leading_flag tokens ->
     (exists rest,
        trace (run_sos_workflow code raw_args kernel workflow_mode w).2
          = trace w ++ EvGetRunParser true false
                       :: EvParseKnownArgs false tokens :: rest) /\
     (forall c' tokens' args workflow_args w1,
        dispatch_prologue code raw_args kernel w
          = (Ret (Some (c', tokens', args, workflow_args)), w1) ->
        workflow args = None)) /\
  (~ leading_flag tokens ->
     (exists rest,
        trace (run_sos_workflow code raw_args kernel workflow_mode w).2
          = trace w ++ EvGetRunParser true true
                       :: EvParseKnownArgs true tokens :: rest) /\
     (forall c' tokens' args workflow_args w1,
        dispatch_prologue code raw_args kernel w
          = (Ret (Some (c', tokens', args, workflow_args)), w1) ->
        exists parsed,
          parse_known_args true tokens = Ret (parsed, workflow_args) /\
          workflow args = workflow parsed)).
Proof.
  intros Hs -> Hnh.
  assert (Hh : help_check (Some c) tokens = Some c).
  { unfold help_check. now rewrite (bool_decide_eq_false_2 _ Hnh). }
  destruct (parser_called_first (Some c) raw_args kernel workflow_mode w c
              tokens Hs Hh) as [rest Hrest].
  unfold parser_events in Hrest.
  assert (Hcases : forall b, flag_first tokens = b ->
            (exists rest,
               trace (run_sos_workflow (Some c) raw_args kernel
                        workflow_mode w).2
               = trace w ++ EvGetRunParser true (negb b)
                            :: EvParseKnownArgs (negb b) tokens :: rest) /\
            (forall c' tokens' args workflow_args w1,
               dispatch_prologue (Some c) raw_args kernel w
                 = (Ret (Some (c', tokens', args, workflow_args)), w1) ->
               exists parsed,
                 parse_known_args (negb b) tokens
                   = Ret (parsed, workflow_args) /\
                 workflow args
                   = if b then None else workflow parsed)).
  { intros b Hf. rewrite Hf in Hrest. split; [exists rest; exact Hrest|].
    intros c' tokens' args workflow_args w1 Hp.
    destruct (dispatch_prologue_inv _ _ _ _ _ _ _ _ _ Hp)
      as (Hs' & _ & _ & parsed & Hparse & Hargs).
    rewrite Hs in Hs'. inversion Hs'; subst tokens'. clear Hs'.
    rewrite Hf in Hparse, Hargs. exists parsed. split; [exact Hparse|].
    rewrite Hargs. now destruct b. }
  split.
  - intros Hl. apply flag_first_iff in Hl.
    destruct (Hcases true Hl) as [Ht Hw]. split; [exact Ht|].
    intros c' tokens' args workflow_args w1 Hp.
    destruct (Hw _ _ _ _ _ Hp) as (parsed & _ & Hwf). exact Hwf.
  - intros Hl.
    assert (Hf : flag_first tokens = false).
    { destruct (flag_first tokens) eqn:E; [|reflexivity].
      exfalso. apply Hl. now apply flag_first_iff. }
    exact (Hcases false Hf).
Qed.

(** *** The remote branch *)

Lemma remote_setup_silent code tokens args :
  preserves silent (remote_setup code tokens args).
Proof. unfold remote_setup. frame. Qed.

(** C7.  For a dispatch that has reached the remote command (the
    prologue returned, [args.__remote__] is set and the script was
    shipped): a kernel is present; when the command returns 0 the call
    returns without any stream message; when it returns [n <> 0] the
    call returns after one stream message whose text contains [n];
    when it raises an exception [e] the call still returns, after one
    stream message with the text of [e]. *)
Theorem remote_exit_report (code : option string) (raw_args : RawArgs)
    (kernel : option Kernel) (workflow_mode : bool) (w w1 w2 : World)
    (c : string) (tokens : list string) (args : Args)
    (workflow_args : list string) (host : Host) (script : string)
    (argv : list string) :
  dispatch_prologue code raw_args kernel w
    = (Ret (Some (c, tokens, args, workflow_args)), w1) ->
  truthy_opt_str (__remote__ args) = true ->
  remote_setup c tokens args w1 = (Ret (Some (host, script, argv)), w2) ->
  let cmd := ["sos"; "run"; script] ++ argv in
  exists k,
    kernel = Some k /\
    let ran := log [EvRedirectEnter k; EvRunCommand cmd; EvRedirectExit k] w2 in
    (run_command host cmd = Ret 0 ->
       run_sos_workflow code raw_args kernel workflow_mode w = (Ret PNone, ran) /\
       silent w ran) /\
    (forall n, n <> 0 -> run_command host cmd = Ret n ->
       exists text,
         run_sos_workflow code raw_args kernel workflow_mode w
           = (Ret PNone, log [EvSendResponse k "stream" "stderr" text] ran) /\
         PyStr.occurs_in (PyStr.of_int n) text) /\
    (forall e, is_Exception e = true -> run_command host cmd = Raise e ->
       run_sos_workflow code raw_args kernel workflow_mode w
         = (Ret PNone,
            log [EvSendResponse k "stream" "stdout" (str_exn e)] ran)).
Proof.
  intros Hp Hr Hs cmd.
  destruct (dispatch_prologue_inv _ _ _ _ _ _ _ _ _ Hp) as (_ & _ & [k ->] & _).
  exists k. split; [reflexivity|]. intros ran.
  assert (Hrun : run_sos_workflow code raw_args (Some k) workflow_mode w
                 = (remote_run (Some k) host script argv ≫= fun _ => mret PNone) w2).
  { unfold run_sos_workflow. rewrite (bind_ret _ _ _ _ _ Hp). cbv beta iota.
    rewrite Hr. unfold remote_delegate. now rewrite (bind_ret _ _ _ _ _ Hs). }
  rewrite Hrun. clear Hrun.
  unfold remote_run, remote_command, remote_handler, with_redirect_sos_io,
    send_response. fold cmd.
  split; [|split].
  - intros Hc. split.
    + run. rewrite Hc. simpl. unfold ran. now rewrite !log_log.
    + apply (frame_trans w w1); [|apply (frame_trans w1 w2)].
      * eapply (dispatch_prologue_frame silent (Logs0 := silent_logs_quiet)).
        exact Hp.
      * eapply remote_setup_silent. exact Hs.
      * exists [EvRedirectEnter k; EvRunCommand cmd; EvRedirectExit k].
        split; [reflexivity | repeat constructor].
  - intros n Hn Hc. eexists. split.
    + run. rewrite Hc. destruct (Z.eqb_spec n 0) as [|_]; [contradiction|].
      simpl. unfold ran. now rewrite !log_log.
    + apply PyStrFacts.occurs_in_suffix.
  - intros e He Hc. run. rewrite Hc, He. run. unfold ran. now rewrite !log_log.
Qed.

(** *** The local branch *)

(** C8.  For a dispatch that has reached the execution phase (the
    prologue and the local set-up returned): when the phase raises
    [PendingTasks], the call raises that same exception; when it raises
    [SystemExit], the call returns [None].  In both cases only the
    [finally] clause has run on top of the phase: nothing is written
    to the error stream. *)
Theorem pending_and_exit (code : option string) (raw_args : RawArgs)
    (kernel : option Kernel) (workflow_mode : bool) (w w1 w2 w3 : World)
    (c : string) (tokens : list string) (args : Args)
    (workflow_args : list string) (config : gmap string pyval) :
  dispatch_prologue code raw_args kernel w
    = (Ret (Some (c, tokens, args, workflow_args)), w1) ->
  truthy_opt_str (__remote__ args) = false ->
  local_setup args workflow_args w1 = (Ret config, w2) ->
  (forall tasks msg,
     execution_phase c args workflow_args config workflow_mode w2
       = (Raise (PendingTasks tasks msg), w3) ->
     run_sos_workflow code raw_args kernel workflow_mode w
       = (Raise (PendingTasks tasks msg), finalize w3)) /\
  (forall status,
     execution_phase c args workflow_args config workflow_mode w2
       = (Raise (SystemExit status), w3) ->
     run_sos_workflow code raw_args kernel workflow_mode w
       = (Ret PNone, finalize w3)) /\
  trace (finalize w3) = trace w3.
Proof.
  intros Hp Hr Hs.
  assert (Hrun : run_sos_workflow code raw_args kernel workflow_mode w
                 = guarded_execution args
                     (execution_phase c args workflow_args config workflow_mode) w2).
  { unfold run_sos_workflow. rewrite (bind_ret _ _ _ _ _ Hp). cbv beta iota.
    rewrite Hr. unfold local_dispatch. now rewrite (bind_ret _ _ _ _ _ Hs). }
  rewrite Hrun. unfold guarded_execution, try_finally, try_except.
  split; [|split; [|reflexivity]].
  - intros tasks msg He. rewrite He. reflexivity.
  - intros status He. rewrite He. reflexivity.
Qed.

Lemma no_header_iff code :
  has_header_or_directive code = false <->
  Forall plain_line (PyStr.splitlines code).
Proof.
  unfold has_header_or_directive.
  induction (PyStr.splitlines code) as [|line lines IH]; simpl.
  - split; [constructor | reflexivity].
  - rewrite orb_false_iff, !orb_false_iff, IH. split.
    + intros [[[H1 H2] H3] H4]. constructor; [repeat split|]; assumption.
    + intros H. inversion H as [|? ? (H1 & H2 & H3) H4]; subst. auto.
Qed.

Lemma header_iff code :
  has_header_or_directive code = true <->
  Exists (fun line => ~ plain_line line) (PyStr.splitlines code).
Proof.
  destruct (has_header_or_directive code) eqn:E.
  - split; [intros _|reflexivity].
    apply neg_Forall_Exists_neg.
    + intros line. unfold plain_line.
      destruct (SOS_SECTION_HEADER_match line), (PyStr.startswith line "%from"),
        (PyStr.startswith line "%include");
        first [left; repeat split; reflexivity
              | right; intros (H1 & H2 & H3); discriminate].
    + intros H. apply no_header_iff in H. congruence.
  - split; [discriminate|]. intros H. apply no_header_iff in E.
    apply Exists_Forall_neg in H; [contradiction|].
    intros line. unfold plain_line.
    destruct (SOS_SECTION_HEADER_match line), (PyStr.startswith line "%from"),
      (PyStr.startswith line "%include");
      first [left; repeat split; reflexivity
            | right; intros (H1 & H2 & H3); discriminate].
Qed.

(** C3.  For an inline request (no workflow mode, no remote host)
    that has reached the execution phase with code that is not blank:
    when no line of the code is a section header or starts with [%from]
    or [%include], the script that is parsed is the code under the
    header [[scratch_0]], and the first section of its workflow is run
    by [execute_scratch_cell], whose [__last_res__] the call returns;
    when some line is a header or such a directive, the call returns
    [None] and nothing was parsed or run. *)
Theorem scratch_wrapping (code : option string) (raw_args : RawArgs)
    (kernel : option Kernel) (w w1 w2 : World)
    (c : string) (tokens : list string) (args : Args)
    (workflow_args : list string) (config : gmap string pyval) :
  dispatch_prologue code raw_args kernel w
    = (Ret (Some (c, tokens, args, workflow_args)), w1) ->
  truthy_opt_str (__remote__ args) = false ->
  local_setup args workflow_args w1 = (Ret config, w2) ->
  PyStr.all_space c = false ->
  let w3 := set_env_config (<["master_id" := PStr "0"]> (env_config w2)) w2 in
  (Forall plain_line (PyStr.splitlines c) ->
     (exists rest,
        trace (run_sos_workflow code raw_args kernel false w).2
          = trace w2 ++ EvSoSScript (wrapped c) :: rest) /\
     (forall script workflow_ section rest,
        SoS_Script (wrapped c) = Ret script ->
        Script_workflow script (workflow args) None = Ret workflow_ ->
        sections workflow_ = section :: rest ->
        run_sos_workflow code raw_args kernel false w
          = guarded_execution args
              (res ← execute_scratch_cell section config;
               subscript res "__last_res__")
              (log [EvSoSScript (wrapped c);
                    EvScriptWorkflow (workflow args) None] w3))) /\
  (Exists (fun line => ~ plain_line line) (PyStr.splitlines c) ->
     run_sos_workflow code raw_args kernel false w = (Ret PNone, finalize w3) /\
     trace (finalize w3) = trace w2).
Proof.
  intros Hp Hr Hs Hb w3. rewrite <- blank_all_space in Hb.
  assert (Hrun : run_sos_workflow code raw_args kernel false w
                 = guarded_execution args
                     (execution_phase c args workflow_args config false) w2).
  { unfold run_sos_workflow. rewrite (bind_ret _ _ _ _ _ Hp). cbv beta iota.
    rewrite Hr. unfold local_dispatch. now rewrite (bind_ret _ _ _ _ _ Hs). }
  rewrite Hrun. clear Hrun. unfold execution_phase. rewrite Hb.
  split.
  - intros Hplain. apply no_header_iff in Hplain. rewrite Hplain. simpl negb.
    cbv iota.
    assert (Hbody : forall k : M pyval,
              guarded_execution args (config_set "master_id" (PStr "0");; k) w2
              = guarded_execution args k w3) by reflexivity.
    rewrite Hbody. unfold run_scratch. fold (wrapped c). split.
    + assert (Hg : forall body, preserves extends body ->
                preserves extends (guarded_execution args body)).
      { intros body. apply guarded_execution_frame; typeclasses eauto. }
      match goal with
      | |- context [guarded_execution args (call ?ev ?x ≫= ?k) w3] =>
          assert (Hk : preserves extends (lift x ≫= k));
          [|assert (E : guarded_execution args (call ev x ≫= k) w3
                        = guarded_execution args (lift x ≫= k) (log [ev] w3))
              by reflexivity;
            rewrite E;
            destruct (guarded_execution args (lift x ≫= k) (log [ev] w3))
              as [r w'] eqn:Eg;
            destruct (Hg _ Hk _ _ _ Eg) as [evs Hevs]]
      end.
      * apply (preserves_bind extends); [frame|]. intros script.
        unfold first_section.
        do 2 (apply (preserves_bind extends); [frame|intros ?]).
        apply (preserves_bind extends);
          [apply execute_scratch_cell_frame; typeclasses eauto|].
        intros ?. frame.
      * exists evs. simpl. rewrite Hevs. simpl. now rewrite <- app_assoc.
    + intros script workflow_ section rest Hscript Hwf Hsec.
      unfold guarded_execution, try_finally, try_except, first_section. run.
      rewrite Hscript, Hwf, Hsec. now rewrite !log_log.
  - intros Hex. apply header_iff in Hex. rewrite Hex. split; reflexivity.
Qed.

(** *** Blank code *)





(** Once the arguments have parsed, [sys.argv] is ['%run'] followed by
    the tokens, however the call ends. *)
Lemma argv_after_parse code raw_args kernel workflow_mode w r w' tokens parsed
    workflow_args :
  run_sos_workflow (Some code) raw_args kernel workflow_mode w = (r, w') ->
  split_raw_args raw_args w = (Ret tokens, w) ->
  "-h" ∉ tokens ->
  parse_known_args (negb (flag_first tokens)) tokens
    = Ret (parsed, workflow_args) ->
  sys_argv w' = "%run" :: tokens.
Proof.
  intros Hrun Hs Hh Hp.
  revert Hrun. unfold run_sos_workflow, dispatch_prologue.
  rewrite bind_bind, (bind_ret _ _ _ _ _ Hs). cbv beta.
  unfold help_check. rewrite (bool_decide_eq_false_2 _ Hh).
  rewrite bind_bind.
  pose proof (parse_arguments_run tokens w) as Hpa. rewrite Hp in Hpa.
  rewrite (bind_ret _ _ _ _ _ Hpa). cbv beta iota.
  rewrite bind_bind. erewrite bind_ret by reflexivity.
  match goal with
  | |- (?m ≫= ?k) ?w0 = _ -> _ =>
      assert (Hf : preserves same_argv (m ≫= k))
  end.
  { apply (preserves_bind same_argv).
    - apply (preserves_bind same_argv); [frame|intros _].
      apply (preserves_bind same_argv);
        [apply update_logger_frame; typeclasses eauto|].
      intros _. frame.
    - intros [[[[c0 toks] args] wargs]|]; [|frame].
      destruct (truthy_opt_str (__remote__ args)).
      + apply remote_delegate_frame; typeclasses eauto.
      + apply local_dispatch_frame; typeclasses eauto. }
  intros Hrun. apply Hf in Hrun. exact Hrun.
Qed.


(** ** Further properties *)

(** *** The prologue of the dispatcher *)

(** X1.  A request without code, or with ['-h'] anywhere among its
    arguments, only prints the usage of the parser with workflow
    support and returns [None]: nothing is parsed, and [sys.argv], the
    logger and every other part of the state stay as they were. *)
Theorem usage_only (code : option string) (raw_args : RawArgs)
    (kernel : option Kernel) (workflow_mode : bool) (w : World)
    (tokens : list string) :
  split_raw_args raw_args w = (Ret tokens, w) ->
  code = None \/ "-h" ∈ tokens ->
  run_sos_workflow code raw_args kernel workflow_mode w
    = (Ret PNone, log [EvGetRunParser true true; EvPrintHelp] w).
Proof.
  intros Hs Hc.
  assert (Hh : help_check code tokens = None).
  { destruct Hc as [-> | Hin]; [reflexivity|]. unfold help_check.
    destruct code; [|reflexivity]. now rewrite bool_decide_eq_true_2. }
  unfold run_sos_workflow, dispatch_prologue.
  rewrite bind_bind, (bind_ret _ _ _ _ _ Hs). cbv beta. rewrite Hh.
  unfold print_usage. run. now rewrite !log_log.
Qed.

(** X2.  When the argument parser rejects the arguments, its exception
    leaves [run_sos_workflow] as it is, and only the parser has been
    called: [sys.argv], [env.verbosity] and the logger are untouched. *)
Theorem parse_error_propagates (code : option string) (raw_args : RawArgs)
    (kernel : option Kernel) (workflow_mode : bool) (w : World)
    (c : string) (tokens : list string) (e : exn) :
  split_raw_args raw_args w = (Ret tokens, w) ->
  help_check code tokens = Some c ->
  parse_known_args (negb (flag_first tokens)) tokens = Raise e ->
  run_sos_workflow code raw_args kernel workflow_mode w
    = (Raise e, log (parser_events tokens) w).
Proof.
  intros Hs Hh Hp. unfold run_sos_workflow. apply bind_raise.
  unfold dispatch_prologue. rewrite (bind_ret _ _ _ _ _ Hs), Hh.
  apply bind_raise. rewrite parse_arguments_run, Hp. reflexivity.
Qed.

Lemma verbosity_kept tokens parsed : verbosity (kept tokens parsed) = verbosity parsed.
Proof. unfold kept. now destruct (flag_first tokens). Qed.

(** The state after lines 134-152. *)
Lemma prologue_assigns code raw_args kernel w c tokens parsed workflow_args
    {A} (k : option (string * list string * Args * list string) -> M A) :
  split_raw_args raw_args w = (Ret tokens, w) ->
  help_check code tokens = Some c ->
  parse_known_args (negb (flag_first tokens)) tokens
    = Ret (parsed, workflow_args) ->
  (dispatch_prologue code raw_args kernel ≫= k) w
  = ((update_logger kernel;;
      w ← get;
      mret (Some (c, tokens,
                  resolve_outputs (strftime_mdy_HM (clock w))
                    (kept tokens parsed), workflow_args))) ≫= k)
      (assign_verbosity (verbosity parsed)
         (set_sys_argv ("%run" :: tokens) (log (parser_events tokens) w))).
Proof.
  intros Hs Hh Hp. unfold dispatch_prologue.
  rewrite bind_bind, (bind_ret _ _ _ _ _ Hs). cbv beta. rewrite Hh.
  rewrite bind_bind.
  assert (Hpa : parse_arguments tokens w
                = (Ret (kept tokens parsed, workflow_args),
                   log (parser_events tokens) w)).
  { rewrite parse_arguments_run, Hp. reflexivity. }
  rewrite (bind_ret _ _ _ _ _ Hpa). cbv beta iota.
  rewrite bind_bind. erewrite bind_ret by reflexivity.
  rewrite bind_bind. erewrite bind_ret by reflexivity.
  rewrite verbosity_kept. reflexivity.
Qed.

Lemma bind_mret {B} (m : M B) w : (m ≫= fun x => mret x) w = m w.
Proof. unfold mbind, M_bind, mret, M_ret. now destruct (m w) as [[b|e] w1]. Qed.

Lemma emit_titled k title record :
  exists m,
    NotebookLoggingHandler_emit (Some k) title record = Ret m /\
    fm_kernel m = k /\ fm_title m = title.
Proof. eexists. split; [reflexivity|]. split; reflexivity. Qed.

(** X3.  With a kernel, lines 150-164 return and leave the logger
    with exactly one handler, a [NotebookLoggingHandler] of that kernel
    titled [' '.join(sys.argv)], in two cases.  When [args.verbosity]
    is one of 0 to 4, whatever handlers the logger had: the assignment
    of line 152 stores it and sets up the logger, and the level of the
    new handler is the one of that verbosity.  When [args.verbosity]
    is anything else ([None] too), the assignment is ignored: then the
    first handler of the logger has to be of another class,
    [env.verbosity] stays what it was and gives the level.  A record
    emitted through the handlers of the logger then goes once to that
    kernel, under that title. *)
Theorem logger_installed (code : option string) (raw_args : RawArgs)
    (k : Kernel) (w : World) (c : string) (tokens : list string)
    (parsed : Args) (workflow_args : list string) :
  split_raw_args raw_args w = (Ret tokens, w) ->
  help_check code tokens = Some c ->
  parse_known_args (negb (flag_first tokens)) tokens
    = Ret (parsed, workflow_args) ->
  valid_verbosity (verbosity parsed) = true \/
  (exists h rest level,
     logger_handlers w = h :: rest /\
     is_NotebookLoggingHandler h = false /\
     levels (env_verbosity w) = Ret level) ->
  exists args w1 level,
    dispatch_prologue code raw_args (Some k) w
      = (Ret (Some (c, tokens, args, workflow_args)), w1) /\
    logger_handlers w1
      = [NotebookLoggingHandler level k (PyStr.join " " (sys_argv w1))] /\
    sys_argv w1 = "%run" :: tokens /\
    env_verbosity w1
      = (if valid_verbosity (verbosity parsed) then verbosity parsed
         else env_verbosity w) /\
    levels (env_verbosity w1) = Ret level /\
    forall record, exists m,
      map (fun h => handler_emit h record) (logger_handlers w1)
        = [Some (Ret m)] /\
      fm_kernel m = k /\
      fm_title m = PyStr.join " " ("%run" :: tokens).
Proof.
  intros Hs Hh Hp Hcase.
  pose proof (prologue_assigns code raw_args (Some k) w c tokens parsed
                workflow_args (fun x => mret x) Hs Hh Hp) as E.
  rewrite !bind_mret in E.
  assert (Hemit : forall level record, exists m,
            map (fun h => handler_emit h record)
              [NotebookLoggingHandler level k
                 (PyStr.join " " ("%run" :: tokens))]
              = [Some (Ret m)] /\
            fm_kernel m = k /\
            fm_title m = PyStr.join " " ("%run" :: tokens)).
  { intros level record.
    destruct (emit_titled k (PyStr.join " " ("%run" :: tokens)) record)
      as (m & Hm & Hk & Ht).
    exists m. cbn [map handler_emit]. rewrite Hm. auto. }
  destruct (valid_verbosity (verbosity parsed)) eqn:Hv.
  - destruct (update_logger_valid k (verbosity parsed)
                (set_sys_argv ("%run" :: tokens)
                   (log (parser_events tokens) w)) Hv) as (level & Hl & Hu).
    eexists _, _, level. split.
    { rewrite E. rewrite (bind_ret _ _ _ _ _ Hu). reflexivity. }
    split; [reflexivity|]. split; [reflexivity|]. split; [reflexivity|].
    split; [exact Hl|]. apply Hemit.
  - destruct Hcase as [Hcase|(h & rest & level & Hl & Hn & Hlev)];
      [discriminate|].
    eexists _, _, level. split.
    { rewrite E. unfold assign_verbosity. rewrite Hv.
      unfold update_logger, first_handler. run.
      cbn [logger_handlers env_verbosity set_sys_argv log set_trace
           set_logger_handlers].
      rewrite Hl, Hn.
      cbn [negb logger_handlers env_verbosity set_sys_argv log set_trace
           set_logger_handlers].
      rewrite Hlev. reflexivity. }
    split; [reflexivity|]. split; [reflexivity|]. split; [reflexivity|].
    split; [exact Hlev|]. apply Hemit.
Qed.

(** X6.  Whatever the code and however the call ends, once the
    arguments have parsed [sys.argv] is ['%run'] followed by the
    tokens: line 150 assigns it and nothing later touches it. *)
Theorem argv_replaced (code : string) (raw_args : RawArgs)
    (kernel : option Kernel) (workflow_mode : bool) (w w' : World)
    (r : result pyval) (tokens : list string) (parsed : Args)
    (workflow_args : list string) :
  run_sos_workflow (Some code) raw_args kernel workflow_mode w = (r, w') ->
  split_raw_args raw_args w = (Ret tokens, w) ->
  "-h" ∉ tokens ->
  parse_known_args (negb (flag_first tokens)) tokens
    = Ret (parsed, workflow_args) ->
  sys_argv w' = "%run" :: tokens.
Proof. apply argv_after_parse. Qed.

(** *** The local branch, once more *)

(** A dispatch whose prologue and local set-up returned is the
    guarded execution phase. *)
Lemma run_local code raw_args kernel workflow_mode w w1 w2 c tokens args
    workflow_args config :
  dispatch_prologue code raw_args kernel w
    = (Ret (Some (c, tokens, args, workflow_args)), w1) ->
  truthy_opt_str (__remote__ args) = false ->
  local_setup args workflow_args w1 = (Ret config, w2) ->
  run_sos_workflow code raw_args kernel workflow_mode w
    = guarded_execution args
        (execution_phase c args workflow_args config workflow_mode) w2.
Proof.
  intros Hp Hr Hs.
  unfold run_sos_workflow. rewrite (bind_ret _ _ _ _ _ Hp). cbv beta iota.
  rewrite Hr. unfold local_dispatch. now rewrite (bind_ret _ _ _ _ _ Hs).
Qed.

Lemma guarded_finalizes args body w r w' :
  guarded_execution args body w = (r, w') -> exists w1, w' = finalize w1.
Proof.
  unfold guarded_execution, try_finally, try_except.
  destruct (body w) as [[v|e] w1].
  - rewrite dispatch_finally_run. intros H. inversion H. eauto.
  - destruct (dispatch_handler args e) as [h|].
    + destruct (h w1) as [r2 w2]. rewrite dispatch_finally_run.
      intros H. inversion H. eauto.
    + rewrite dispatch_finally_run. intros H. inversion H. eauto.
Qed.

Lemma guarded_returns args body w v w1 :
  body w = (Ret v, w1) -> guarded_execution args body w = (Ret v, finalize w1).
Proof.
  intros Hb. unfold guarded_execution, try_finally, try_except.
  now rewrite Hb.
Qed.

Lemma guarded_raise args body w e w1 :
  body w = (Raise e, w1) ->
  (forall tasks msg, e <> PendingTasks tasks msg) ->
  (forall status, e <> SystemExit status) ->
  guarded_execution args body w
    = (Raise e,
       finalize (if is_Exception e && traceback_due args
                 then log [EvStderrWrite (get_traceback e)] w1 else w1)).
Proof.
  intros Hb Hp Hx.
  unfold guarded_execution, try_finally, try_except, traceback_due.
  rewrite Hb.
  destruct e;
    try (exfalso; eapply Hp; reflexivity);
    try (exfalso; eapply Hx; reflexivity);
    cbn [dispatch_handler is_Exception andb];
    destruct (verbosity args) as [v|];
    try destruct (negb (v =? 0) && (2 <? v)); reflexivity.
Qed.

Lemma guarded_raise_exception args body w e w1 :
  body w = (Raise e, w1) ->
  (forall tasks msg, e <> PendingTasks tasks msg) ->
  is_Exception e = true ->
  guarded_execution args body w = (Raise e, reported args e w1).
Proof.
  intros Hb Hp He. rewrite (guarded_raise args body w e w1 Hb Hp).
  - rewrite He. reflexivity.
  - intros status ->. discriminate He.
Qed.

(** X7.  However a local dispatch ends, by a return or by any
    exception of the execution phase, the [finally] clause has run:
    [env.config['sig_mode']] is ['ignore'] and [env.verbosity] is 2. *)
Theorem finally_always (code : option string) (raw_args : RawArgs)
    (kernel : option Kernel) (workflow_mode : bool) (w w1 w2 w' : World)
    (c : string) (tokens : list string) (args : Args)
    (workflow_args : list string) (config : gmap string pyval)
    (r : result pyval) :
  dispatch_prologue code raw_args kernel w
    = (Ret (Some (c, tokens, args, workflow_args)), w1) ->
  truthy_opt_str (__remote__ args) = false ->
  local_setup args workflow_args w1 = (Ret config, w2) ->
  run_sos_workflow code raw_args kernel workflow_mode w = (r, w') ->
  env_config w' !! "sig_mode" = Some (PStr "ignore") /\
  env_verbosity w' = Some 2.
Proof.
  intros Hp Hr Hs Hrun. rewrite (run_local _ _ _ _ _ _ _ _ _ _ _ _ Hp Hr Hs) in Hrun.
  apply guarded_finalizes in Hrun as [w3 ->]. split.
  - unfold finalize. cbn [env_config set_env_verbosity set_env_config].
    apply lookup_insert_eq.
  - reflexivity.
Qed.

(** X8.  An exception of the execution phase other than
    [PendingTasks] and [SystemExit] leaves the call unchanged.  When
    it is an [Exception] and [args.verbosity] is above 2, the traceback
    is written to [sys.stderr] first; in every other case (a
    [KeyboardInterrupt], a verbosity of [None] or of at most 2)
    nothing is written. *)
Theorem exception_reraised (code : option string) (raw_args : RawArgs)
    (kernel : option Kernel) (workflow_mode : bool) (w w1 w2 w3 : World)
    (c : string) (tokens : list string) (args : Args)
    (workflow_args : list string) (config : gmap string pyval) (e : exn) :
  dispatch_prologue code raw_args kernel w
    = (Ret (Some (c, tokens, args, workflow_args)), w1) ->
  truthy_opt_str (__remote__ args) = false ->
  local_setup args workflow_args w1 = (Ret config, w2) ->
  execution_phase c args workflow_args config workflow_mode w2
    = (Raise e, w3) ->
  (forall tasks msg, e <> PendingTasks tasks msg) ->
  (forall status, e <> SystemExit status) ->
  (is_Exception e = true ->
   (exists v, verbosity args = Some v /\ 2 < v) ->
   run_sos_workflow code raw_args kernel workflow_mode w
     = (Raise e, finalize (log [EvStderrWrite (get_traceback e)] w3))) /\
  (is_Exception e = false \/ verbosity args = None \/
   (exists v, verbosity args = Some v /\ v <= 2) ->
   run_sos_workflow code raw_args kernel workflow_mode w
     = (Raise e, finalize w3)).
Proof.
  intros Hp Hr Hs He Hpt Hse.
  rewrite (run_local _ _ _ _ _ _ _ _ _ _ _ _ Hp Hr Hs).
  rewrite (guarded_raise _ _ _ _ _ He Hpt Hse). unfold traceback_due. split.
  - intros -> (v & -> & Hv).
    destruct (Z.eqb_spec v 0) as [|_]; [lia|].
    destruct (Z.ltb_spec 2 v) as [_|]; [reflexivity|lia].
  - intros [-> | [-> | (v & -> & Hv)]]; [reflexivity | now rewrite andb_false_r |].
    destruct (Z.ltb_spec 2 v) as [|_]; [lia|]. now rewrite !andb_false_r.
Qed.

(** X9.  In workflow mode, with code that is not blank, a script and
    a workflow that parse and both socket entries in
    [env.config['sockets']], the call parses the code as it is, asks
    for the workflow with [use_default = not args.__targets__], starts
    one worker and returns [None].  The worker gets the workflow, the
    workflow arguments, the targets and the configuration of lines
    230-251 with ['tapping'] set to ['slave'] and the two sockets;
    nothing is run in this process. *)
Theorem worker_started (code : option string) (raw_args : RawArgs)
    (kernel : option Kernel) (w w1 w2 : World)
    (c : string) (tokens : list string) (args : Args)
    (workflow_args : list string) (config : gmap string pyval)
    (script : Script) (wf : Workflow) (d : list (string * pyval))
    (tapping_logging tapping_controller : pyval) :
  dispatch_prologue code raw_args kernel w
    = (Ret (Some (c, tokens, args, workflow_args)), w1) ->
  truthy_opt_str (__remote__ args) = false ->
  local_setup args workflow_args w1 = (Ret config, w2) ->
  PyStr.all_space c = false ->
  SoS_Script c = Ret script ->
  Script_workflow script (workflow args)
    (Some (negb (truthy_opt_list (__targets__ args)))) = Ret wf ->
  env_config w2 !! "sockets" = Some (PDict d) ->
  assoc d "tapping_logging" = Some tapping_logging ->
  assoc d "tapping_controller" = Some tapping_controller ->
  run_sos_workflow code raw_args kernel true w
    = (Ret PNone,
       finalize
         (log [EvSoSScript c;
               EvScriptWorkflow (workflow args)
                 (Some (negb (truthy_opt_list (__targets__ args))));
               EvStart (mkTapped_Executor wf workflow_args
                          (worker_config config tapping_logging
                             tapping_controller)
                          (__targets__ args))] w2)).
Proof.
  intros Hp Hr Hs Hb Hscript Hwf Hsock Hl Hc. rewrite <- blank_all_space in Hb.
  rewrite (run_local _ _ _ _ _ _ _ _ _ _ _ _ Hp Hr Hs).
  apply guarded_returns. unfold execution_phase. rewrite Hb. cbv iota.
  unfold start_worker, config_getitem, subscript. run. rewrite Hscript, Hwf.
  repeat first [ rewrite Hsock | rewrite Hl | rewrite Hc
               | progress cbn [env_config log set_trace] ].
  now rewrite !log_log.
Qed.

(** The scratch branch up to the first section. *)
Lemma scratch_phase c args workflow_args config w2 script wf :
  blank c = false ->
  has_header_or_directive c = false ->
  SoS_Script (wrapped c) = Ret script ->
  Script_workflow script (workflow args) None = Ret wf ->
  execution_phase c args workflow_args config false w2
    = (section ← first_section wf;
       res ← execute_scratch_cell section config;
       subscript res "__last_res__")
        (log [EvSoSScript (wrapped c); EvScriptWorkflow (workflow args) None]
           (set_env_config (<["master_id" := PStr "0"]> (env_config w2)) w2)).
Proof.
  intros Hb Hh Hscript Hwf. unfold execution_phase. rewrite Hb, Hh.
  cbn [negb]. cbv iota. unfold run_scratch. fold (wrapped c).
  unfold config_set. run. rewrite Hscript, Hwf. now rewrite !log_log.
Qed.

(** X10.  An inline request whose workflow comes back without any
    section fails at [workflow.sections[0]] with [IndexError]: the
    script was parsed, no step was prepared, analysed or run. *)
Theorem scratch_no_section (code : option string) (raw_args : RawArgs)
    (kernel : option Kernel) (w w1 w2 : World)
    (c : string) (tokens : list string) (args : Args)
    (workflow_args : list string) (config : gmap string pyval)
    (script : Script) (wf : Workflow) :
  dispatch_prologue code raw_args kernel w
    = (Ret (Some (c, tokens, args, workflow_args)), w1) ->
  truthy_opt_str (__remote__ args) = false ->
  local_setup args workflow_args w1 = (Ret config, w2) ->
  PyStr.all_space c = false ->
  Forall plain_line (PyStr.splitlines c) ->
  SoS_Script (wrapped c) = Ret script ->
  Script_workflow script (workflow args) None = Ret wf ->
  sections wf = [] ->
  let w3 := set_env_config (<["master_id" := PStr "0"]> (env_config w2)) w2 in
  run_sos_workflow code raw_args kernel false w
    = (Raise (IndexError "list index out of range"),
       reported args (IndexError "list index out of range")
         (log [EvSoSScript (wrapped c);
               EvScriptWorkflow (workflow args) None] w3)).
Proof.
  intros Hp Hr Hs Hb Hplain Hscript Hwf Hsec w3.
  rewrite <- blank_all_space in Hb. apply no_header_iff in Hplain.
  rewrite (run_local _ _ _ _ _ _ _ _ _ _ _ _ Hp Hr Hs).
  apply guarded_raise_exception; [|discriminate|reflexivity].
  rewrite (scratch_phase _ _ _ _ _ _ _ Hb Hplain Hscript Hwf).
  apply bind_raise. unfold first_section. now rewrite Hsec.
Qed.

(** X11.  An inline request whose scratch step returned the
    dictionary [d] returns [d['__last_res__']]; when the step left no
    such entry the call raises [KeyError('__last_res__')]. *)
Theorem scratch_last_res (code : option string) (raw_args : RawArgs)
    (kernel : option Kernel) (w w1 w2 w4 : World)
    (c : string) (tokens : list string) (args : Args)
    (workflow_args : list string) (config : gmap string pyval)
    (script : Script) (wf : Workflow) (section : Step) (rest : list Step)
    (d : list (string * pyval)) :
  dispatch_prologue code raw_args kernel w
    = (Ret (Some (c, tokens, args, workflow_args)), w1) ->
  truthy_opt_str (__remote__ args) = false ->
  local_setup args workflow_args w1 = (Ret config, w2) ->
  PyStr.all_space c = false ->
  Forall plain_line (PyStr.splitlines c) ->
  SoS_Script (wrapped c) = Ret script ->
  Script_workflow script (workflow args) None = Ret wf ->
  sections wf = section :: rest ->
  execute_scratch_cell section config
      (log [EvSoSScript (wrapped c); EvScriptWorkflow (workflow args) None]
         (set_env_config (<["master_id" := PStr "0"]> (env_config w2)) w2))
    = (Ret (PDict d), w4) ->
  (forall v, assoc d "__last_res__" = Some v ->
     run_sos_workflow code raw_args kernel false w = (Ret v, finalize w4)) /\
  (assoc d "__last_res__" = None ->
     run_sos_workflow code raw_args kernel false w
       = (Raise (KeyError "__last_res__"),
          reported args (KeyError "__last_res__") w4)).
Proof.
  intros Hp Hr Hs Hb Hplain Hscript Hwf Hsec Hcell.
  rewrite <- blank_all_space in Hb. apply no_header_iff in Hplain.
  rewrite (run_local _ _ _ _ _ _ _ _ _ _ _ _ Hp Hr Hs).
  assert (Hph : execution_phase c args workflow_args config false w2
                = subscript (PDict d) "__last_res__" w4).
  { rewrite (scratch_phase _ _ _ _ _ _ _ Hb Hplain Hscript Hwf).
    unfold first_section. rewrite Hsec.
    erewrite bind_ret by reflexivity. now rewrite (bind_ret _ _ _ _ _ Hcell). }
  split.
  - intros v Hv. apply guarded_returns. rewrite Hph. cbn [subscript].
    now rewrite Hv.
  - intros Hn. apply guarded_raise_exception; [|discriminate|reflexivity].
    rewrite Hph. cbn [subscript]. now rewrite Hn.
Qed.

(** *** What a mode never does *)

Lemma only_same_trace p (w w' : World) : trace w' = trace w -> only p w w'.
Proof. intros H. exists []. split; [now rewrite app_nil_r | constructor]. Qed.

#[local] Instance only_frame p : Frame (only p).
Proof.
  split; try (intros; now apply only_same_trace).
  intros a b c [e1 [H1 Q1]] [e2 [H2 Q2]]. exists (e1 ++ e2). split.
  - rewrite H2, H1. now rewrite app_assoc.
  - apply Forall_app. now split.
Qed.

#[local] Instance only_logs p : Logs (allowed p) (only p).
Proof. intros ev w Q. exists [ev]. split; [reflexivity | now constructor]. Qed.

#[local] Instance only_writes p : Writes (only p).
Proof. intros v w. now apply only_same_trace. Qed.

#[local] Instance only_assigns p : Assigns (only p).
Proof. intros v w. now apply only_same_trace. Qed.

(** The proofs of [remote_delegate_frame], [execute_scratch_cell_frame]
    and [guarded_execution_frame], for a frame that allows some events
    only. *)
Ltac frame_prologue :=
  unfold dispatch_prologue, split_raw_args, print_usage, parse_arguments,
    update_logger, first_handler, logger_handers; frame.

Ltac frame_remote R :=
  unfold remote_delegate; apply (preserves_bind R);
    [ unfold remote_setup; frame
    | intros [[[? ?] ?]|]; [|frame];
      apply (preserves_bind R); [|intros _; frame];
      unfold remote_run; apply (preserves_try_except R);
        [ unfold remote_command, with_redirect_sos_io, send_response; frame
        | unfold send_response; frame_handler ] ].

Ltac frame_cell R :=
  unfold execute_scratch_cell; apply (preserves_bind R);
    [ unfold scratch_setup; frame
    | intros _; apply (preserves_try_except R);
        [ unfold scratch_body; frame | frame_handler ] ].

Ltac frame_guarded R :=
  unfold guarded_execution; apply (preserves_try_finally R);
    [ apply (preserves_try_except R); [ | frame_handler ]
    | apply (dispatch_finally_frame R) ].

Ltac frame_scratch R :=
  apply (preserves_bind R); [frame|]; intros _;
  destruct (negb (has_header_or_directive _)); [|frame];
  unfold run_scratch, first_section;
  do 3 (apply (preserves_bind R); [frame|intros ?]);
  apply (preserves_bind R); [frame_cell R|]; intros ?; frame.

Lemma dispatch_prologue_no_local code raw_args kernel :
  preserves (only no_local) (dispatch_prologue code raw_args kernel).
Proof. frame_prologue. Qed.

Lemma dispatch_prologue_no_remote code raw_args kernel :
  preserves (only no_remote) (dispatch_prologue code raw_args kernel).
Proof. frame_prologue. Qed.

Lemma dispatch_prologue_no_step code raw_args kernel :
  preserves (only no_step) (dispatch_prologue code raw_args kernel).
Proof. frame_prologue. Qed.

Lemma dispatch_prologue_no_start code raw_args kernel :
  preserves (only no_start) (dispatch_prologue code raw_args kernel).
Proof. frame_prologue. Qed.

Lemma remote_delegate_no_local code tokens kernel args :
  preserves (only no_local) (remote_delegate code tokens kernel args).
Proof. frame_remote (only no_local). Qed.

Lemma remote_delegate_no_step code tokens kernel args :
  preserves (only no_step) (remote_delegate code tokens kernel args).
Proof. frame_remote (only no_step). Qed.

Lemma remote_delegate_no_start code tokens kernel args :
  preserves (only no_start) (remote_delegate code tokens kernel args).
Proof. frame_remote (only no_start). Qed.

Lemma local_dispatch_no_remote code args workflow_args workflow_mode :
  preserves (only no_remote)
    (local_dispatch code args workflow_args workflow_mode).
Proof.
  unfold local_dispatch. apply (preserves_bind (only no_remote)).
  - apply local_setup_frame; typeclasses eauto.
  - intros config. frame_guarded (only no_remote).
    unfold execution_phase. destruct (blank code); [frame|].
    destruct workflow_mode; [unfold start_worker; frame|].
    frame_scratch (only no_remote).
Qed.

Lemma worker_dispatch_no_step code args workflow_args :
  preserves (only no_step) (local_dispatch code args workflow_args true).
Proof.
  unfold local_dispatch. apply (preserves_bind (only no_step)).
  - apply local_setup_frame; typeclasses eauto.
  - intros config. frame_guarded (only no_step).
    unfold execution_phase. destruct (blank code); [frame|].
    cbv iota. unfold start_worker. frame.
Qed.

Lemma inline_dispatch_no_start code args workflow_args :
  preserves (only no_start) (local_dispatch code args workflow_args false).
Proof.
  unfold local_dispatch. apply (preserves_bind (only no_start)).
  - apply local_setup_frame; typeclasses eauto.
  - intros config. frame_guarded (only no_start).
    unfold execution_phase. destruct (blank code); [frame|].
    cbv iota. frame_scratch (only no_start).
Qed.

(** X12.  A call runs one branch: either it makes no call of the
    local branch (no script is parsed, no worker started, no step
    prepared, analysed or run, nothing written to [sys.stderr]) or it
    makes no call of the remote branch (no configuration loaded, no
    host resolved, nothing printed or shipped, no remote command, no
    stream message). *)
Theorem one_branch (code : option string) (raw_args : RawArgs)
    (kernel : option Kernel) (workflow_mode : bool) (w : World) :
  let w' := (run_sos_workflow code raw_args kernel workflow_mode w).2 in
  only no_local w w' \/ only no_remote w w'.
Proof.
  intros w'. pose proof (run_pair (run_sos_workflow code raw_args kernel
                                     workflow_mode) w) as H.
  fold w' in H. revert H. generalize w'. clear w'. intros w'.
  generalize ((run_sos_workflow code raw_args kernel workflow_mode w).1).
  intros r H. unfold run_sos_workflow in H.
  apply bind_inv in H as [(p & w1 & Hp & H)|(e & Hp & _)].
  - destruct p as [[[[c tokens] args] workflow_args]|].
    + destruct (truthy_opt_str (__remote__ args)).
      * left. eapply frame_trans.
        -- eapply dispatch_prologue_no_local; exact Hp.
        -- eapply remote_delegate_no_local; exact H.
      * right. eapply frame_trans.
        -- eapply dispatch_prologue_no_remote; exact Hp.
        -- eapply local_dispatch_no_remote; exact H.
    + left. inversion H; subst. eapply dispatch_prologue_no_local; exact Hp.
  - left. eapply dispatch_prologue_no_local; exact Hp.
Qed.

(** X13.  The flag [workflow_mode] separates the two ways of local
    execution: with it, no step is prepared, analysed or run in this
    process; without it, no worker is started. *)
Theorem mode_flag (code : option string) (raw_args : RawArgs)
    (kernel : option Kernel) (w : World) :
  only no_step w (run_sos_workflow code raw_args kernel true w).2 /\
  only no_start w (run_sos_workflow code raw_args kernel false w).2.
Proof.
  split.
  - assert (H : preserves (only no_step)
                  (run_sos_workflow code raw_args kernel true)).
    { unfold run_sos_workflow. apply (preserves_bind (only no_step)).
      - apply dispatch_prologue_no_step.
      - intros [[[[c tokens] args] workflow_args]|]; [|frame].
        destruct (truthy_opt_str (__remote__ args)).
        + apply remote_delegate_no_step.
        + apply worker_dispatch_no_step. }
    eapply H. apply run_pair.
  - assert (H : preserves (only no_start)
                  (run_sos_workflow code raw_args kernel false)).
    { unfold run_sos_workflow. apply (preserves_bind (only no_start)).
      - apply dispatch_prologue_no_start.
      - intros [[[[c tokens] args] workflow_args]|]; [|frame].
        destruct (truthy_opt_str (__remote__ args)).
        + apply remote_delegate_no_start.
        + apply inline_dispatch_no_start. }
    eapply H. apply run_pair.
Qed.

(** *** The remote branch, once more *)

Lemma write_file_ok dir path content w :
  dir ∈ dirs w -> path ∉ dirs w ->
  write_file dir path content w
    = (Ret tt, set_files (<[path := content]> (files w)) w).
Proof.
  intros Hd Hp. unfold write_file. run.
  rewrite (bool_decide_eq_true_2 _ Hd), (bool_decide_eq_false_2 _ Hp).
  reflexivity.
Qed.

Lemma write_file_missing dir path content w :
  dir ∉ dirs w ->
  write_file dir path content w
    = (Raise (OtherError (if is_file w dir then "NotADirectoryError"
                          else "FileNotFoundError") path), w).
Proof.
  intros Hd. unfold write_file. run.
  rewrite (bool_decide_eq_false_2 _ Hd). now destruct (is_file w dir).
Qed.

(** X14.  With a configuration that loads, a host that resolves and
    code that is not blank, the remote set-up stores the configuration
    under ['CONFIG'] and then opens [.sos/__interactive__.sos] for
    writing.  Where the directory [.sos] exists (and the script path
    is no directory), the code is written there, the hint is printed
    and the file is shipped, in this order: when the host takes the
    file, the command will run on the tokens without their [-r] and
    [-c] options; when it refuses, its exception leaves the set-up
    with the file already written.  Where [.sos] is no directory, the
    [open] fails, with [NotADirectoryError] when [.sos] is a regular
    file and with [FileNotFoundError] otherwise: nothing is written,
    printed or shipped. *)
Theorem remote_script_shipped (code : string) (tokens : list string)
    (args : Args) (w : World) (cfg : pyval) (host : Host) :
  load_config_files (__config__ args) = Ret cfg ->
  Host_connect (default "" (__remote__ args)) = Ret host ->
  PyStr.all_space code = false ->
  (".sos" ∈ dirs w -> interactive_script ∉ dirs w ->
   exists w',
     remote_setup code tokens args w
       = (match send_to_host host interactive_script with
          | Ret _ => Ret (Some (host, interactive_script,
                                 remove_arg (remove_arg tokens "-r") "-c"))
          | Raise e => Raise e
          end, w') /\
     trace w'
       = trace w ++
         [EvLoadConfigFiles (__config__ args);
          EvHost (default "" (__remote__ args));
          EvPrint ("HINT: Executing workflow on "
                   +:+ default "" (__remote__ args));
          EvSendToHost interactive_script] /\
     files w' = <[interactive_script := code]> (files w) /\
     env_sos_dict w' = <["CONFIG" := cfg]> (env_sos_dict w)) /\
  (".sos" ∉ dirs w ->
   exists w',
     remote_setup code tokens args w
       = (Raise (OtherError (if is_file w ".sos" then "NotADirectoryError"
                             else "FileNotFoundError")
                   interactive_script), w') /\
     trace w'
       = trace w ++
         [EvLoadConfigFiles (__config__ args);
          EvHost (default "" (__remote__ args))] /\
     files w' = files w /\
     env_sos_dict w' = <["CONFIG" := cfg]> (env_sos_dict w)).
Proof.
  intros Hl Hh Hb. rewrite <- blank_all_space in Hb. split.
  - intros Hd Hp. eexists. split.
    + unfold remote_setup, sos_dict_set. rewrite Hb. run. rewrite Hl, Hh.
      erewrite write_file_ok; [|exact Hd|exact Hp].
      destruct (send_to_host host interactive_script) as [[]|e]; reflexivity.
    + cbn [trace files env_sos_dict log set_trace set_files set_env_sos_dict].
      split; [|split; reflexivity].
      rewrite <- !app_assoc. reflexivity.
  - intros Hd. eexists. split.
    + unfold remote_setup, sos_dict_set. rewrite Hb. run. rewrite Hl, Hh.
      erewrite write_file_missing; [|exact Hd]. reflexivity.
    + cbn [trace files env_sos_dict log set_trace set_files set_env_sos_dict].
      split; [|split; reflexivity].
      rewrite <- !app_assoc. reflexivity.
Qed.

(** X15.  An exception of [host.send_to_host] is raised before the
    [try] of line 202: where the script could be written ([.sos]
    exists), it leaves the call as it is.  No command is run and,
    unlike a failure of the command, nothing is sent to the
    frontend. *)
Theorem shipping_failure_propagates (code : option string)
    (raw_args : RawArgs) (kernel : option Kernel) (workflow_mode : bool)
    (w w1 : World) (c : string) (tokens : list string) (args : Args)
    (workflow_args : list string) (cfg : pyval) (host : Host) (e : exn) :
  dispatch_prologue code raw_args kernel w
    = (Ret (Some (c, tokens, args, workflow_args)), w1) ->
  truthy_opt_str (__remote__ args) = true ->
  load_config_files (__config__ args) = Ret cfg ->
  Host_connect (default "" (__remote__ args)) = Ret host ->
  PyStr.all_space c = false ->
  ".sos" ∈ dirs w1 ->
  interactive_script ∉ dirs w1 ->
  send_to_host host interactive_script = Raise e ->
  exists w',
    run_sos_workflow code raw_args kernel workflow_mode w = (Raise e, w') /\
    trace w'
      = trace w1 ++
        [EvLoadConfigFiles (__config__ args);
         EvHost (default "" (__remote__ args));
         EvPrint ("HINT: Executing workflow on "
                  +:+ default "" (__remote__ args));
         EvSendToHost interactive_script] /\
    files w' !! interactive_script = Some c.
Proof.
  intros Hp Hr Hl Hh Hb Hd Hn Hs. rewrite <- blank_all_space in Hb.
  eexists. split; [|split].
  - unfold run_sos_workflow. rewrite (bind_ret _ _ _ _ _ Hp). cbv beta iota.
    rewrite Hr. unfold remote_delegate. apply bind_raise.
    unfold remote_setup, sos_dict_set. rewrite Hb. run. rewrite Hl, Hh.
    erewrite write_file_ok; [|exact Hd|exact Hn]. rewrite Hs.
    reflexivity.
  - cbn [trace log set_trace set_files set_env_sos_dict].
    rewrite <- !app_assoc. reflexivity.
  - cbn [files log set_trace set_files set_env_sos_dict].
    apply lookup_insert_eq.
Qed.

(** *** The local set-up *)

Lemma makedirs_ok p w :
  makeable w p = true ->
  makedirs p w = (Ret tt, set_dirs (list_to_set (p :: parents p) ∪ dirs w) w).
Proof.
  unfold makeable, makedirs. intros H.
  apply andb_true_iff in H as [H1 H2].
  apply negb_true_iff in H1. apply negb_true_iff in H2.
  run. now rewrite H1, H2.
Qed.

Lemma makedirs_blocked p w :
  makeable w p = false ->
  exists cls, makedirs p w = (Raise (OtherError cls p), w).
Proof.
  unfold makeable, makedirs. intros H. run.
  destruct (is_file w p); [eexists; reflexivity|].
  destruct (existsb (is_file w) (parents p)); [eexists; reflexivity|].
  discriminate H.
Qed.

(** The loop of lines 217-219, when nothing is in the way: it returns
    and touches the directory tree only, where at most [~/.sos/bin],
    expanded, and the directories above it are created. *)
Lemma bin_dirs_loop (l : list string) : forall (w : World),
  "~/.sos/bin" ∉ l \/ expanduser "~/.sos/bin" ∈ dirs w \/
  makeable w (expanduser "~/.sos/bin") = true ->
  exists D,
    for_each l (fun d =>
      w ← get;
      if String.eqb d "~/.sos/bin" && negb (bool_decide (expanduser d ∈ dirs w))
      then makedirs (expanduser d)
      else mret tt) w = (Ret tt, set_dirs D w) /\
    dirs w ⊆ D /\
    D ⊆ dirs w ∪ list_to_set (expanduser "~/.sos/bin"
                              :: parents (expanduser "~/.sos/bin")) /\
    ("~/.sos/bin" ∈ l -> expanduser "~/.sos/bin" ∈ D).
Proof.
  set (p := expanduser "~/.sos/bin").
  induction l as [|x l IH]; intros w Hready.
  - exists (dirs w). split; [now destruct w|]. split; [intros y Hy; exact Hy|].
    split; [intros y Hy; now apply elem_of_union_l|].
    intros H. now apply elem_of_nil in H.
  - cbn [for_each]. run.
    destruct (String.eqb_spec x "~/.sos/bin") as [->|Hx].
    + fold p. destruct (decide (p ∈ dirs w)) as [Hin|Hin].
      * rewrite (bool_decide_eq_true_2 _ Hin). cbn [andb negb].
        destruct (IH w (or_intror (or_introl Hin))) as (D & E & H1 & H2 & H3).
        exists D. split; [exact E|]. split; [exact H1|]. split; [exact H2|].
        intros _. now apply H1.
      * rewrite (bool_decide_eq_false_2 _ Hin). cbn [andb negb].
        assert (Hm : makeable w p = true).
        { destruct Hready as [Hn|[Hd|Hm]]; [|contradiction|exact Hm].
          exfalso. apply Hn. apply elem_of_cons. now left. }
        rewrite (makedirs_ok p w Hm).
        set (w1 := set_dirs (list_to_set (p :: parents p) ∪ dirs w) w).
        assert (Hp1 : p ∈ dirs w1).
        { unfold w1. cbn [dirs set_dirs]. apply elem_of_union_l.
          apply elem_of_list_to_set, elem_of_cons. now left. }
        destruct (IH w1 (or_intror (or_introl Hp1)))
          as (D & E & H1 & H2 & H3).
        exists D. split; [exact E|]. unfold w1 in H1, H2.
        cbn [dirs set_dirs] in H1, H2.
        split; [|split].
        -- intros y Hy. now apply H1, elem_of_union_r.
        -- intros y Hy. apply H2 in Hy.
           apply elem_of_union in Hy as [Hy|Hy]; [|now apply elem_of_union_r].
           apply elem_of_union in Hy as [Hy|Hy];
             [now apply elem_of_union_r | now apply elem_of_union_l].
        -- intros _. now apply H1.
    + cbn [andb].
      assert (Hl : "~/.sos/bin" ∉ l \/ p ∈ dirs w \/ makeable w p = true).
      { destruct Hready as [Hn|Hr]; [left|right; exact Hr].
        intros Hin. apply Hn. apply elem_of_cons. now right. }
      destruct (IH w Hl) as (D & E & H1 & H2 & H3).
      exists D. split; [exact E|]. split; [exact H1|]. split; [exact H2|].
      intros H. apply elem_of_cons in H as [H|H]; [congruence|auto].
Qed.

(** The loop when [~/.sos/bin] is in the list, is no directory and
    cannot be made: [os.makedirs] raises, and nothing has changed. *)
Lemma bin_dirs_loop_blocked (l : list string) (w : World) :
  "~/.sos/bin" ∈ l ->
  expanduser "~/.sos/bin" ∉ dirs w ->
  makeable w (expanduser "~/.sos/bin") = false ->
  exists cls,
    for_each l (fun d =>
      w ← get;
      if String.eqb d "~/.sos/bin" && negb (bool_decide (expanduser d ∈ dirs w))
      then makedirs (expanduser d)
      else mret tt) w
    = (Raise (OtherError cls (expanduser "~/.sos/bin")), w).
Proof.
  intros Hin Hd Hm. destruct (makedirs_blocked _ _ Hm) as [cls Hcls].
  exists cls. induction l as [|x l IH]; [now apply elem_of_nil in Hin|].
  cbn [for_each]. run.
  destruct (String.eqb_spec x "~/.sos/bin") as [->|Hx].
  - rewrite (bool_decide_eq_false_2 _ Hd). cbn [andb negb]. now rewrite Hcls.
  - cbn [andb]. apply IH. apply elem_of_cons in Hin as [Hin|Hin];
      [congruence|exact Hin].
Qed.

(** X16.  With a list of directories that is not empty.  When
    [~/.sos/bin] is not in the list, or is a directory already, or can
    be made (no regular file at its expanded path or above it), and
    [PATH] is set, lines 216-221 return: the new [PATH] is the
    expanded directories, joined by [':'], in front of the old one; no
    other variable changes; directories are only added, and at most
    [~/.sos/bin], expanded, and the directories above it, and it
    exists afterwards when it is in the list; no outside call is made.
    When [~/.sos/bin] is in the list, is no directory and cannot be
    made, [os.makedirs] raises and nothing has changed, [PATH]
    neither. *)
Theorem bin_dirs_path (args : Args) (w : World) :
  __bin_dirs__ args <> [] ->
  (forall path,
     environ w !! "PATH" = Some path ->
     bin_dir_ready args w ->
     exists w',
       prepend_bin_dirs args w = (Ret tt, w') /\
       environ w' !! "PATH"
         = Some (PyStr.join ":" (map expanduser (__bin_dirs__ args))
                 +:+ ":" +:+ path) /\
       (forall k, k <> "PATH" -> environ w' !! k = environ w !! k) /\
       dirs w ⊆ dirs w' /\
       dirs w' ⊆ dirs w ∪ list_to_set (expanduser "~/.sos/bin"
                                       :: parents (expanduser "~/.sos/bin")) /\
       ("~/.sos/bin" ∈ __bin_dirs__ args ->
        expanduser "~/.sos/bin" ∈ dirs w') /\
       trace w' = trace w) /\
  ("~/.sos/bin" ∈ __bin_dirs__ args ->
   expanduser "~/.sos/bin" ∉ dirs w ->
   makeable w (expanduser "~/.sos/bin") = false ->
   exists cls,
     prepend_bin_dirs args w
       = (Raise (OtherError cls (expanduser "~/.sos/bin")), w)).
Proof.
  intros Hne. unfold prepend_bin_dirs.
  destruct (__bin_dirs__ args) as [|x l] eqn:El; [congruence|].
  cbn [truthy_list]. split.
  - intros path Hpath Hready. unfold bin_dir_ready in Hready. rewrite El in Hready.
    destruct (bin_dirs_loop (x :: l) w Hready) as (D & E & H1 & H2 & H3).
    rewrite (bind_ret _ _ _ _ _ E). run.
    cbn [environ set_dirs]. rewrite Hpath.
    eexists. split; [reflexivity|].
    cbn [environ dirs trace set_environ set_dirs].
    split; [apply lookup_insert_eq|].
    split; [intros k Hk; now apply lookup_insert_ne|].
    split; [exact H1|]. split; [exact H2|]. split; [exact H3|reflexivity].
  - intros Hin Hd Hm.
    destruct (bin_dirs_loop_blocked (x :: l) w Hin Hd Hm) as [cls E].
    exists cls. now apply bind_raise.
Qed.

(** X17.  With a list of directories that is not empty and no [PATH]
    in the environment, lines 216-221 raise.  This is before the [try]
    of line 253: the dispatch stops there, and the [finally] clause
    does not run either.  When the loop of lines 217-219 gets through
    (see X16), the exception is the [KeyError('PATH')] of line 221;
    otherwise it is the one of [os.makedirs]. *)
Theorem bin_dirs_without_path (code : option string) (raw_args : RawArgs)
    (kernel : option Kernel) (workflow_mode : bool) (w w1 : World)
    (c : string) (tokens : list string) (args : Args)
    (workflow_args : list string) :
  dispatch_prologue code raw_args kernel w
    = (Ret (Some (c, tokens, args, workflow_args)), w1) ->
  truthy_opt_str (__remote__ args) = false ->
  __bin_dirs__ args <> [] ->
  environ w1 !! "PATH" = None ->
  exists e w',
    run_sos_workflow code raw_args kernel workflow_mode w = (Raise e, w') /\
    trace w' = trace w1 /\
    env_config w' = env_config w1 /\
    env_verbosity w' = env_verbosity w1 /\
    (bin_dir_ready args w1 -> e = KeyError "PATH") /\
    (~ bin_dir_ready args w1 ->
     exists cls, e = OtherError cls (expanduser "~/.sos/bin")).
Proof.
  intros Hp Hr Hne Hpath.
  assert (Hb : exists e w',
             prepend_bin_dirs args w1 = (Raise e, w') /\
             trace w' = trace w1 /\
             env_config w' = env_config w1 /\
             env_verbosity w' = env_verbosity w1 /\
             (bin_dir_ready args w1 -> e = KeyError "PATH") /\
             (~ bin_dir_ready args w1 ->
              exists cls, e = OtherError cls (expanduser "~/.sos/bin"))).
  { unfold prepend_bin_dirs, bin_dir_ready.
    destruct (__bin_dirs__ args) as [|x l] eqn:El; [congruence|].
    cbn [truthy_list].
    set (p := expanduser "~/.sos/bin").
    assert (Hcase : ("~/.sos/bin" ∉ (x :: l) \/ p ∈ dirs w1 \/
                     makeable w1 p = true) \/
                    ("~/.sos/bin" ∈ (x :: l) /\ (p ∉ dirs w1) /\
                     makeable w1 p = false)).
    { destruct (decide ("~/.sos/bin" ∈ x :: l)) as [Hin|Hin]; [|now left; left].
      destruct (decide (p ∈ dirs w1)) as [Hd|Hd]; [now left; right; left|].
      destruct (makeable w1 p) eqn:Hm; [now left; right; right|now right]. }
    destruct Hcase as [Hready|(Hin & Hd & Hm)].
    - destruct (bin_dirs_loop (x :: l) w1 Hready) as (D & E & _).
      exists (KeyError "PATH"), (set_dirs D w1).
      split; [|repeat split; try reflexivity; intros Hn; contradiction].
      rewrite (bind_ret _ _ _ _ _ E). run.
      cbn [environ set_dirs]. now rewrite Hpath.
    - destruct (bin_dirs_loop_blocked (x :: l) w1 Hin Hd Hm) as [cls E].
      exists (OtherError cls p), w1.
      split; [now apply bind_raise|]. repeat split; try reflexivity.
      + intros [Hn|[Hd'|Hm']]; [contradiction|contradiction|congruence].
      + intros _. now exists cls. }
  destruct Hb as (e & w' & Hb & H1 & H2 & H3 & H4 & H5).
  exists e, w'. split; [|repeat split; assumption].
  unfold run_sos_workflow. rewrite (bind_ret _ _ _ _ _ Hp). cbv beta iota.
  rewrite Hr. unfold local_dispatch. apply bind_raise.
  unfold local_setup. now apply bind_raise.
Qed.

(** X18.  Lines 225-228 return and leave [env.sos_dict] with
    [__step_output__] bound to the empty targets, none of the eight
    step keys, and every other entry as it was; nothing else in the
    state changes. *)
Theorem step_keys_reset (w : World) :
  exists d,
    reset_step_keys w = (Ret tt, set_env_sos_dict d w) /\
    d !! "__step_output__" = Some (PTargets []) /\
    (forall k, k ∈ step_keys -> d !! k = None) /\
    (forall k, k ∉ step_keys -> k <> "__step_output__" ->
       d !! k = env_sos_dict w !! k).
Proof.
  eexists. split; [reflexivity|].
  cbn [env_sos_dict set_env_sos_dict].
  split; [|split].
  - now rewrite !lookup_delete_ne, lookup_insert_eq by discriminate.
  - intros k Hk. unfold step_keys in Hk.
    repeat (apply elem_of_cons in Hk as [->|Hk];
            [now rewrite ?lookup_delete_ne, lookup_delete_eq by discriminate|]).
    now apply elem_of_nil in Hk.
  - intros k Hk Hne. unfold step_keys in Hk.
    repeat (apply not_elem_of_cons in Hk as [? Hk]).
    now rewrite !lookup_delete_ne, lookup_insert_ne by congruence.
Qed.

(** *** The scratch cell, once more *)

(** Projections of worlds built by the setters. *)
Ltac proj :=
  cbn [sys_argv env_verbosity logger_handlers env_config env_sos_dict
       env_tapping_controller environ dirs files cwd clock trace
       set_sys_argv set_env_verbosity set_logger_handlers set_env_config
       set_env_sos_dict set_environ set_dirs set_files set_trace log].

(** X19.  When [prepare_env] and the analysis of the section return,
    the step executor is run on the dictionary [prepare_env] left,
    without [__step_input__], [__default_output__] and
    [__step_output__] and with the three sets of variables of the
    analysis.  The cell ends as the step does, a missing target
    becoming a [RuntimeError]; [env.sos_dict] is what the step left;
    the outside calls are [prepare_env], the analysis and the step, in
    this order. *)
Theorem scratch_step_dict (section : Step) (config : gmap string pyval)
    (w : World) (prepared : gmap string pyval) (res : Analysis) :
  prepare_env "" (<["workflow_id" := PStr "0"]> (env_sos_dict w))
    = Ret prepared ->
  analyze_section section = Ret res ->
  let d := step_dict prepared res in
  let out := Interactive_Step_Executor_run section d in
  exists w',
    execute_scratch_cell section config w = (scratch_outcome out.1, w') /\
    env_sos_dict w' = out.2 /\
    trace w' = trace w ++ [EvPrepareEnv ""; EvAnalyzeSection section;
                           EvStepRun section] /\
    d !! "__step_input__" = None /\
    d !! "__default_output__" = None /\
    d !! "__step_output__" = None /\
    d !! "__signature_vars__" = Some (signature_vars res) /\
    d !! "__environ_vars__" = Some (environ_vars res) /\
    d !! "__changed_vars__" = Some (changed_vars res).
Proof.
  intros Hprep Hres d out.
  assert (Hrun : exists w',
             execute_scratch_cell section config w
               = (scratch_outcome out.1, w') /\
             env_sos_dict w' = out.2 /\
             trace w' = trace w ++ [EvPrepareEnv ""; EvAnalyzeSection section;
                                    EvStepRun section]).
  { unfold execute_scratch_cell, scratch_setup, scratch_body, scratch_handler,
      config_set, sos_dict_set, sos_dict_pop.
    run. proj. rewrite Hprep. proj. rewrite Hres. proj.
    subst out d. unfold step_dict.
    destruct (Interactive_Step_Executor_run section _) as [[v|e] d'].
    - eexists. split; [reflexivity|]. proj.
      split; [reflexivity|]. now rewrite <- !app_assoc.
    - cbn [fst snd scratch_outcome].
      destruct (target_failure e) as [target|].
      + eexists. split; [reflexivity|]. proj.
        split; [reflexivity|]. now rewrite <- !app_assoc.
      + eexists. split; [reflexivity|]. proj.
        split; [reflexivity|]. now rewrite <- !app_assoc. }
  destruct Hrun as (w' & H1 & H2 & H3). exists w'.
  split; [exact H1|]. split; [exact H2|]. split; [exact H3|].
  subst d. unfold step_dict.
  split; [now rewrite !lookup_insert_ne, !lookup_delete_ne, lookup_delete_eq
            by discriminate|].
  split; [now rewrite !lookup_insert_ne, !lookup_delete_ne, lookup_delete_eq
            by discriminate|].
  split; [now rewrite !lookup_insert_ne, lookup_delete_eq by discriminate|].
  split; [now rewrite !lookup_insert_ne, lookup_insert_eq by discriminate|].
  split; [now rewrite !lookup_insert_ne, lookup_insert_eq by discriminate|].
  apply lookup_insert_eq.
Qed.

Lemma scratch_cell_config section config w :
  env_config (execute_scratch_cell section config w).2
    = config ∪ <["workflow_id" := PStr "0"]> (env_config w).
Proof.
  unfold execute_scratch_cell, scratch_setup, scratch_body, scratch_handler,
    config_set, sos_dict_set, sos_dict_pop.
  run. proj.
  destruct (prepare_env _ _) as [prepared|e]; [|reflexivity]. proj.
  destruct (analyze_section section) as [res|e]; proj.
  - destruct (Interactive_Step_Executor_run section _) as [[v|e] d'];
      [reflexivity|].
    destruct (target_failure e); reflexivity.
  - destruct (target_failure e); reflexivity.
Qed.

(** X20.  However the cell ends, [env.config] holds every entry of
    the configuration that was passed in (line 76), ['workflow_id'] is
    ['0'] unless that configuration has its own, and every other key
    is as before. *)
Theorem scratch_config_merge (section : Step) (config : gmap string pyval)
    (w : World) :
  let w' := (execute_scratch_cell section config w).2 in
  (forall k v, config !! k = Some v -> env_config w' !! k = Some v) /\
  (config !! "workflow_id" = None ->
   env_config w' !! "workflow_id" = Some (PStr "0")) /\
  (forall k, config !! k = None -> k <> "workflow_id" ->
     env_config w' !! k = env_config w !! k).
Proof.
  intros w'. subst w'. rewrite scratch_cell_config. split; [|split].
  - intros k v Hk. now apply lookup_union_Some_l.
  - intros Hk. rewrite lookup_union_r by exact Hk. apply lookup_insert_eq.
  - intros k Hk Hne. rewrite lookup_union_r by exact Hk.
    now apply lookup_insert_ne.
Qed.

(** *** The worker, once more *)

(** X21.  Whatever configuration a worker was built with, its engine
    is built, first of all, with ['verbosity'] set to 4 and every
    other entry of that configuration unchanged. *)
Theorem worker_verbosity (self : Tapped_Executor) (w : World) :
  exists cfg rest,
    trace (Tapped_Executor_run self w).2
      = trace w
        ++ EvBaseExecutor (self_workflow self) (self_args self) cfg :: rest /\
    cfg !! "verbosity" = Some (PInt 4) /\
    (forall k, k <> "verbosity" -> cfg !! k = self_config self !! k).
Proof.
  pose (cfg := <["verbosity" := PInt 4]> (self_config self)).
  assert (H : exists rest,
             trace (Tapped_Executor_run self w).2
             = trace w
               ++ EvBaseExecutor (self_workflow self) (self_args self) cfg
                  :: rest).
  { unfold Tapped_Executor_run, worker_body. fold cfg.
    match goal with
    | |- context [try_except (call ?ev ?x ≫= ?k) ?h w] =>
        assert (Hk : preserves extends (try_except (lift x ≫= k) h));
        [|assert (E : try_except (call ev x ≫= k) h w
                      = try_except (lift x ≫= k) h (log [ev] w))
            by reflexivity;
          rewrite E;
          destruct (try_except (lift x ≫= k) h (log [ev] w)) as [r w'] eqn:Eg;
          destruct (Hk _ _ _ Eg) as [evs Hevs]]
    end.
    - apply (preserves_try_except extends).
      + unfold tapping_controller_recv. frame.
      + frame_handler.
    - exists evs. cbn [snd]. rewrite Hevs. proj. now rewrite <- app_assoc. }
  destruct H as [rest H]. exists cfg, rest. split; [exact H|].
  split; [apply lookup_insert_eq|]. intros k Hk. now apply lookup_insert_ne.
Qed.

(** X22.  The worker raises exactly when its engine raises something
    that is no [Exception] (a [SystemExit], a [KeyboardInterrupt]);
    every [Exception], also the [AttributeError] of line 124 when
    [env.tapping_controller] is not bound, ends in a normal return. *)
Theorem worker_raises_iff (self : Tapped_Executor) (w : World) (e : exn) :
  (Tapped_Executor_run self w).1 = Raise e <->
  engine_outcome self = Raise e /\ is_Exception e = false.
Proof.
  unfold engine_outcome, Tapped_Executor_run, worker_body,
    tapping_controller_recv, worker_handler.
  run.
  destruct (Base_Executor _ _ _) as [ex|e0].
  - destruct (Base_Executor_run ex _) as [ret|e0].
    + proj. destruct (env_tapping_controller w); cbn [is_Exception fst];
        (split; [discriminate | intros [H _]; discriminate H]).
    + destruct (is_Exception e0) eqn:He; cbn [fst].
      * split; [discriminate|]. intros [H1 H2]. inversion H1; subst. congruence.
      * split; [intros H; inversion H; subst; now split | intros [H _]; inversion H; reflexivity].
  - destruct (is_Exception e0) eqn:He; cbn [fst].
    + split; [discriminate|]. intros [H1 H2]. inversion H1; subst. congruence.
    + split; [intros H; inversion H; subst; now split | intros [H _]; inversion H; reflexivity].
Qed.

(** X23.  When the engine raises something that is no [Exception],
    the worker stops there: only the calls of the engine were made,
    nothing is pushed on the log channel, no reply is sent. *)
Theorem worker_base_exception (self : Tapped_Executor) (w : World) (e : exn) :
  engine_outcome self = Raise e ->
  is_Exception e = false ->
  Tapped_Executor_run self w = (Raise e, log (engine_events self) w) /\
  Forall (fun ev => match ev with
                    | EvLoggingSend _ | EvControllerSend _ | EvControllerRecv
                        => False
                    | _ => True
                    end) (engine_events self).
Proof.
  intros Ho He. split.
  - revert Ho.
    unfold engine_outcome, Tapped_Executor_run, worker_body, worker_handler,
      engine_events.
    run.
    destruct (Base_Executor _ _ _) as [ex|e0].
    + intros Ho. rewrite Ho, He. now rewrite !log_log.
    + intros Ho. inversion Ho; subst. now rewrite He.
  - unfold engine_events. destruct (Base_Executor _ _ _); repeat constructor.
Qed.

(** *** The messages of the logging handler *)

Lemma append_cons c (s t : string) : String c s +:+ t = String c (s +:+ t).
Proof. reflexivity. Qed.

Lemma append_nil (t : string) : EmptyString +:+ t = t.
Proof. reflexivity. Qed.

Lemma length_append (s t : string) :
  String.length (s +:+ t) = (String.length s + String.length t)%nat.
Proof.
  induction s as [|c s IH]; [reflexivity|].
  rewrite append_cons. cbn [String.length]. now rewrite IH.
Qed.

Lemma span_plain_length s :
  (String.length (span_plain s).1 + String.length (span_plain s).2)%nat
  = String.length s.
Proof.
  induction s as [|c s IH]; [reflexivity|]. cbn [span_plain].
  destruct (is_backtick c); [reflexivity|].
  destruct (span_plain s) as [body rest]. cbn [fst snd String.length] in *.
  now rewrite <- IH.
Qed.

Lemma span_plain_stop body c rest :
  no_backtick body = true -> is_backtick c = true ->
  span_plain (body +:+ String c rest) = (body, String c rest).
Proof.
  intros Hb Hc. induction body as [|a body IH].
  - rewrite append_nil. cbn [span_plain]. now rewrite Hc.
  - cbn [no_backtick] in Hb. apply andb_true_iff in Hb as [Ha Hb].
    rewrite append_cons. cbn [span_plain].
    apply negb_true_iff in Ha. rewrite Ha, (IH Hb). reflexivity.
Qed.

Lemma match_highlight_shorter s body rest :
  match_highlight s = Some (body, rest) ->
  (String.length rest < String.length s)%nat.
Proof.
  destruct s as [|a [|b r]]; try discriminate. cbn [match_highlight].
  destruct (is_backtick a && is_backtick b); [|discriminate].
  pose proof (span_plain_length r) as Hl.
  destruct (span_plain r) as [body' rest']. cbn [fst snd] in Hl.
  destruct rest' as [|c [|d rest'']]; try discriminate.
  destruct (is_backtick c && is_backtick d); [|discriminate].
  intros H. inversion H; subst. cbn [String.length] in *. lia.
Qed.

Lemma match_highlight_plain c r :
  is_backtick c = false -> match_highlight (String c r) = None.
Proof. intros Hc. destruct r; [reflexivity|]. cbn [match_highlight]. now rewrite Hc. Qed.

Lemma match_highlight_hit body post :
  no_backtick body = true ->
  match_highlight ("``" +:+ body +:+ "``" +:+ post) = Some (body, post).
Proof.
  intros Hb.
  change ("``" +:+ body +:+ "``" +:+ post)
    with (String "`" (String "`" (body +:+ String "`" (String "`" post)))).
  cbn [match_highlight].
  change (is_backtick "`") with true. cbn [andb].
  rewrite (span_plain_stop body "`" (String "`" post) Hb eq_refl).
  reflexivity.
Qed.

(** The fuel does not matter once it covers the text. *)
Lemma sub_highlight_fuel n : forall m s,
  (String.length s <= n)%nat -> (String.length s <= m)%nat ->
  sub_highlight n s = sub_highlight m s.
Proof.
  induction n as [|n IH]; intros m s Hn Hm.
  - destruct s; [|cbn [String.length] in Hn; lia]. now destruct m.
  - destruct m as [|m].
    + destruct s; [reflexivity|cbn [String.length] in Hm; lia].
    + destruct s as [|c r]; [reflexivity|]. cbn [sub_highlight].
      destruct (match_highlight (String c r)) as [[body rest]|] eqn:E.
      * apply match_highlight_shorter in E. f_equal. apply IH; lia.
      * f_equal. cbn [String.length] in Hn, Hm. apply IH; lia.
Qed.

Lemma sub_highlight_plain n : forall s,
  no_backtick s = true -> sub_highlight n s = s.
Proof.
  induction n as [|n IH]; intros s Hs; [reflexivity|].
  destruct s as [|c r]; [reflexivity|]. cbn [no_backtick] in Hs.
  apply andb_true_iff in Hs as [Hc Hr]. apply negb_true_iff in Hc.
  cbn [sub_highlight]. rewrite (match_highlight_plain c r Hc).
  now rewrite (IH r Hr).
Qed.

Lemma sub_highlight_prefix pre : forall n s,
  no_backtick pre = true ->
  sub_highlight (String.length pre + n) (pre +:+ s)
    = pre +:+ sub_highlight n s.
Proof.
  induction pre as [|c pre IH]; intros n s Hp; [reflexivity|].
  cbn [no_backtick] in Hp. apply andb_true_iff in Hp as [Hc Hr].
  apply negb_true_iff in Hc. rewrite !append_cons.
  cbn [String.length Nat.add sub_highlight].
  rewrite (match_highlight_plain c _ Hc). now rewrite (IH n s Hr).
Qed.

(** X24.  A message without any backtick is sent as it is: the
    frontend gets one [display_data] message on the page ['SoS'],
    appended under the title of the handler, whose text is the level
    name, a colon and the message, in a [div] of the classes
    [sos_logging] and [sos_] followed by the level name in lower
    case. *)
Theorem emit_plain_message (k : Kernel) (title : string) (record : LogRecord) :
  no_backtick (record_msg record) = true ->
  NotebookLoggingHandler_emit (Some k) title record
    = Ret (mkFrontendMsg k "display_data"
             ("<div class=" +:+ dquote +:+ "sos_logging sos_"
              +:+ lower (record_levelname record) +:+ dquote +:+ ">"
              +:+ record_levelname record +:+ ": " +:+ record_msg record
              +:+ "</div>")
             title true "SoS").
Proof.
  intros Hm. unfold NotebookLoggingHandler_emit, highlight.
  now rewrite (sub_highlight_plain _ _ Hm).
Qed.

(** X25.  The first stretch between two pairs of backticks, when
    neither it nor the text before it has a backtick, is put into a
    [span] of class [sos_highlight], without the backticks; the text
    before it stays, and the text behind it is treated in the same
    way. *)
Theorem highlight_first_span (pre body post : string) :
  no_backtick pre = true ->
  no_backtick body = true ->
  highlight (pre +:+ "``" +:+ body +:+ "``" +:+ post)
    = pre +:+ highlight_span body +:+ highlight post.
Proof.
  intros Hp Hb. unfold highlight.
  set (s := "``" +:+ body +:+ "``" +:+ post).
  rewrite length_append, (sub_highlight_prefix pre _ s Hp). f_equal.
  assert (Hs : String.length s
               = S (String.length body + 3 + String.length post)%nat).
  { subst s. rewrite !length_append. cbn [String.length]. lia. }
  rewrite Hs. subst s.
  change ("``" +:+ body +:+ "``" +:+ post)
    with (String "`" ("`" +:+ body +:+ "``" +:+ post)).
  cbn [sub_highlight].
  change (String "`" ("`" +:+ body +:+ "``" +:+ post))
    with ("``" +:+ body +:+ "``" +:+ post).
  rewrite (match_highlight_hit body post Hb). f_equal.
  apply sub_highlight_fuel; lia.
Qed.

(** *** Failures that are not caught *)

(** X26.  When the argument string cannot be split, the exception of
    [shlex.split] leaves the call before anything else happens, also
    for a request without code, which would only print the usage. *)
Theorem shlex_error_propagates (code : option string) (s : string)
    (kernel : option Kernel) (workflow_mode : bool) (w : World) (e : exn) :
  shlex_split s = Raise e ->
  run_sos_workflow code (RawStr s) kernel workflow_mode w = (Raise e, w).
Proof.
  intros Hs. unfold run_sos_workflow. apply bind_raise.
  unfold dispatch_prologue. apply bind_raise.
  unfold split_raw_args, lift. now rewrite Hs.
Qed.

(** X27.  When the remote command raises something that is no
    [Exception], the clause of line 210 does not take it: it leaves the
    call, after the redirection of the output was undone, and nothing
    is sent to the frontend. *)
Theorem remote_interrupt (code : option string) (raw_args : RawArgs)
    (kernel : option Kernel) (workflow_mode : bool) (w w1 w2 : World)
    (c : string) (tokens : list string) (args : Args)
    (workflow_args : list string) (host : Host) (script : string)
    (argv : list string) (e : exn) :
  dispatch_prologue code raw_args kernel w
    = (Ret (Some (c, tokens, args, workflow_args)), w1) ->
  truthy_opt_str (__remote__ args) = true ->
  remote_setup c tokens args w1 = (Ret (Some (host, script, argv)), w2) ->
  let cmd := ["sos"; "run"; script] ++ argv in
  run_command host cmd = Raise e ->
  is_Exception e = false ->
  exists k,
    kernel = Some k /\
    run_sos_workflow code raw_args kernel workflow_mode w
      = (Raise e,
         log [EvRedirectEnter k; EvRunCommand cmd; EvRedirectExit k] w2).
Proof.
  intros Hp Hr Hs cmd Hc He.
  destruct (dispatch_prologue_inv _ _ _ _ _ _ _ _ _ Hp) as (_ & _ & [k ->] & _).
  exists k. split; [reflexivity|].
  unfold run_sos_workflow. rewrite (bind_ret _ _ _ _ _ Hp). cbv beta iota.
  rewrite Hr. unfold remote_delegate. rewrite (bind_ret _ _ _ _ _ Hs).
  cbv beta iota. apply bind_raise.
  unfold remote_run, remote_command, remote_handler, with_redirect_sos_io,
    send_response. fold cmd.
  run. rewrite Hc, He. now rewrite !log_log.
Qed.

End Proofs.

(** * The statements at concrete requests *)

(** Closes [m w = (r, (m w).2)] by evaluating the result of the run. *)
Ltac run_of := exact (run_eq _ _ _ eq_refl).

Lemma worker_rendezvous_witness :
  (exists rest,
     Tapped_Executor_run (worker0 (sos := sound) ["[a]"]) w0
       = (Ret tt,
          log (engine_events (worker0 (sos := sound) ["[a]"]) ++
               [EvLoggingSend ["info"; "DONE"]; EvControllerSend (PInt 0)]
               ++ rest) w0)) /\
  Tapped_Executor_run
      (worker0 (sos := failing_engine (OtherError "ValueError" "bad")) ["[a]"])
      w0
    = (Ret tt,
       log (engine_events
              (worker0 (sos := failing_engine (OtherError "ValueError" "bad"))
                 ["[a]"]) ++
            [EvLogToFile "bad"; EvLoggingSend ["info"; "bad"]]) w0) /\
  Tapped_Executor_run
      (worker0 (sos := failing_engine (SystemExit 1)) ["[a]"]) w0
    = (Raise (SystemExit 1),
       log (engine_events
              (worker0 (sos := failing_engine (SystemExit 1)) ["[a]"])) w0).
Proof.
  split; [|split].
  - exact (proj1 (worker_rendezvous (worker0 (sos := sound) ["[a]"]) w0)
             (PInt 0) eq_refl).
  - exact (proj1 (proj2 (worker_rendezvous
                           (worker0 (sos := failing_engine
                                              (OtherError "ValueError" "bad"))
                                    ["[a]"]) w0))
             _ eq_refl eq_refl).
  - exact (proj1 (proj2 (proj2 (worker_rendezvous
                                  (worker0 (sos := failing_engine (SystemExit 1))
                                           ["[a]"]) w0)))
             _ eq_refl eq_refl).
Defined.

(** The claim that the worker takes any exception of its engine fails
    on an engine that raises [KeyboardInterrupt]: line 126 catches
    [Exception] only, so the interrupt leaves [run].  The claim that
    it waits for an acknowledgement after the reply fails where [env]
    has no attribute [tapping_controller]: the engine succeeds, the
    reply is sent, and the next calls are those of the handler. *)
Lemma worker_exception_escapes :
  (Tapped_Executor_run
     (worker0 (sos := failing_engine KeyboardInterrupt) ["[a]"]) w0).1
    = Raise KeyboardInterrupt /\
  engine_outcome (worker0 (sos := sound) ["[a]"]) = Ret (PInt 0) /\
  exists msg,
    Tapped_Executor_run (worker0 (sos := sound) ["[a]"]) w_unbound
      = (Ret tt,
         log (engine_events (worker0 (sos := sound) ["[a]"]) ++
              [EvLoggingSend ["info"; "DONE"]; EvControllerSend (PInt 0);
               EvLogToFile msg; EvLoggingSend ["info"; msg]]) w_unbound).
Proof.
  split; [reflexivity|]. split; [reflexivity|].
  exact (worker_without_tapping_controller (worker0 (sos := sound) ["[a]"])
           w_unbound (PInt 0) eq_refl eq_refl).
Defined.



Lemma handers_attribute_error_witness :
  (exists msg w',
     run_sos_workflow (sos := sound) (Some "x = 1") (RawList []) None false w0
       = (Raise (AttributeError msg), w') /\
     files w' = files (w0 (sos := sound))) /\
  (exists args w1,
     dispatch_prologue (sos := sound) (Some "x = 1") (RawList [])
         (Some kernel0) w_notebook
       = (Ret (Some ("x = 1", [], args, [])), w1)).
Proof.
  split.
  - destruct (proj1 (handers_attribute_error (sos := sound) (Some "x = 1")
                       (RawList []) None false w0 "x = 1" [] demo_args []
                       eq_refl eq_refl eq_refl) eq_refl)
      as (msg & w' & H & _ & Hf & _).
    exists msg, w'. split; [exact H | exact Hf].
  - exact (proj2 (handers_attribute_error (sos := sound) (Some "x = 1")
                    (RawList []) (Some kernel0) false w_notebook "x = 1" []
                    demo_args [] eq_refl eq_refl eq_refl)
             kernel0 eq_refl eq_refl).
Defined.

(** The claim that a logger whose first handler is a
    [NotebookLoggingHandler] already makes the call raise
    [AttributeError] fails on such a session, with a kernel and the
    verbosity 2: the assignment of line 152 sets up the logger before
    line 153 looks at its first handler, the branch of line 166 is not
    taken, and the cell runs and returns its result. *)
Lemma notebook_handler_no_error :
  logger_handlers (w_notebook (sos := sound))
    = [NotebookLoggingHandler INFO kernel0 "%run"] /\
  (run_sos_workflow (sos := sound) (Some "x = 1") (RawList [])
     (Some kernel0) false w_notebook).1 = Ret (PInt 42).
Proof. split; reflexivity. Defined.

Lemma parse_mode_witness :
  (exists rest,
     trace (run_sos_workflow (sos := sound) (Some "x = 1")
              (RawList [" -v"; "1"]) (Some kernel0) false w0).2
       = trace (w0 (sos := sound))
         ++ EvGetRunParser true false
            :: EvParseKnownArgs false [" -v"; "1"] :: rest) /\
  (exists rest,
     trace (run_sos_workflow (sos := sound) (Some "x = 1")
              (RawList ["process"; "-v"; "1"]) (Some kernel0) false w0).2
       = trace (w0 (sos := sound))
         ++ EvGetRunParser true true
            :: EvParseKnownArgs true ["process"; "-v"; "1"] :: rest) /\
  (exists rest,
     trace (run_sos_workflow (sos := sound) (Some "x = 1")
              (RawList []) (Some kernel0) false w0).2
       = trace (w0 (sos := sound))
         ++ EvGetRunParser true true :: EvParseKnownArgs true [] :: rest).
Proof.
  assert (Hflag : leading_flag [" -v"; "1"]).
  { exists " -v", ["1"]. split; [reflexivity|].
    exists " ", "v". split; reflexivity. }
  assert (Hword : ~ leading_flag ["process"; "-v"; "1"]).
  { intros H. apply flag_first_iff in H. discriminate H. }
  assert (Hnone : ~ leading_flag []).
  { intros H. apply flag_first_iff in H. discriminate H. }
  assert (H1 : "-h" ∉ [" -v"; "1"]).
  { intros H. repeat (apply elem_of_cons in H as [H|H]; [discriminate H|]).
    now apply elem_of_nil in H. }
  assert (H2 : "-h" ∉ ["process"; "-v"; "1"]).
  { intros H. repeat (apply elem_of_cons in H as [H|H]; [discriminate H|]).
    now apply elem_of_nil in H. }
  split; [|split].
  - exact (proj1 (proj1 (parse_mode (sos := sound) (Some "x = 1")
                           (RawList [" -v"; "1"]) (Some kernel0) false w0
                           "x = 1" [" -v"; "1"] eq_refl eq_refl H1) Hflag)).
  - exact (proj1 (proj2 (parse_mode (sos := sound) (Some "x = 1")
                           (RawList ["process"; "-v"; "1"]) (Some kernel0)
                           false w0 "x = 1" ["process"; "-v"; "1"]
                           eq_refl eq_refl H2) Hword)).
  - exact (proj1 (proj2 (parse_mode (sos := sound) (Some "x = 1")
                           (RawList []) (Some kernel0) false w0 "x = 1" []
                           eq_refl eq_refl (not_elem_of_nil _)) Hnone)).
Defined.

(** The claim that a first token starting with ['-'] makes the
    dispatcher parse with a parser without workflow support fails on
    the argument list [['-h']]: the help check of line 135 comes
    first, with the parser that has workflow support, and nothing is
    parsed. *)
Lemma help_flag_not_parsed :
  let out := run_sos_workflow (sos := sound) (Some "x = 1") (RawList ["-h"])
               (Some kernel0) false w0 in
  leading_flag ["-h"] /\
  out.1 = Ret PNone /\
  trace out.2 = [EvGetRunParser true true; EvPrintHelp].
Proof.
  intros out. split; [|split; reflexivity].
  exists "-h", []. split; [reflexivity|].
  exists EmptyString, "h". split; reflexivity.
Defined.

Lemma output_defaults_witness :
  (exists args w1 T,
     dispatch_prologue (sos := sound) (Some "x = 1") (RawList [])
         (Some kernel0) w0
       = (Ret (Some ("x = 1", [], args, [])), w1) /\
     MMDDYY_HHMM (mkDatetime 2019 1 5 9 7) T /\
     __dag__ args = Some ("workflow_" +:+ T +:+ ".dot") /\
     __report__ args = Some ("workflow_" +:+ T +:+ ".html")) /\
  (exists args w1,
     dispatch_prologue
         (sos := demo (set_dag (Some "") (set_report (Some "my.html") demo_args))
                   (Ret 0) ok_analysis ok_step (Ret PNone))
         (Some "x = 1") (RawList []) (Some kernel0) w0
       = (Ret (Some ("x = 1", [], args, [])), w1) /\
     __dag__ args = None /\
     __report__ args = Some "my.html").
Proof.
  split.
  - pose (args := resolve_outputs "010519_0907" demo_args).
    pose (w1 := (dispatch_prologue (sos := sound) (Some "x = 1") (RawList [])
                   (Some kernel0) w0).2).
    assert (Hp : dispatch_prologue (sos := sound) (Some "x = 1") (RawList [])
                   (Some kernel0) w0
                 = (Ret (Some ("x = 1", [], args, [])), w1)) by run_of.
    destruct (output_defaults (sos := sound) (Some "x = 1") (RawList [])
                (Some kernel0) false w0 w1 "x = 1" [] args [] Hp)
      as (parsed & T & Hparse & HT & Hd & Hr & _).
    injection Hparse as <-.
    exists args, w1, T. split; [exact Hp|]. split; [exact HT|].
    split; [exact (Hd eq_refl) | exact (Hr eq_refl)].
  - pose (parsed0 := set_dag (Some "") (set_report (Some "my.html") demo_args)).
    pose (d := demo parsed0 (Ret 0) ok_analysis ok_step (Ret PNone)).
    pose (args := resolve_outputs "010519_0907" parsed0).
    pose (w1 := (dispatch_prologue (sos := d) (Some "x = 1") (RawList [])
                   (Some kernel0) w0).2).
    assert (Hp : dispatch_prologue (sos := d) (Some "x = 1") (RawList [])
                   (Some kernel0) w0
                 = (Ret (Some ("x = 1", [], args, [])), w1)) by run_of.
    destruct (output_defaults (sos := d) (Some "x = 1") (RawList [])
                (Some kernel0) false w0 w1 "x = 1" [] args [] Hp)
      as (parsed & T & Hparse & _ & _ & _ & Hd & _ & _ & Hr & _).
    injection Hparse as <-.
    exists args, w1. split; [exact Hp|].
    split; [exact (Hd eq_refl)|].
    apply (Hr "my.html"); [discriminate | reflexivity].
Defined.

Lemma remote_exit_report_witness :
  (exists w',
     run_sos_workflow (sos := remote_exit 0) (Some "x = 1")
         (RawList ["-r"; "cluster"]) (Some kernel0) false w0
       = (Ret PNone, w') /\
     silent w0 w') /\
  (exists text w',
     run_sos_workflow (sos := remote_exit 3) (Some "x = 1")
         (RawList ["-r"; "cluster"]) (Some kernel0) false w0
       = (Ret PNone, log [EvSendResponse kernel0 "stream" "stderr" text] w') /\
     PyStr.occurs_in "3" text) /\
  (exists w',
     run_sos_workflow
         (sos := remote_failure (OtherError "ConnectionError" "unreachable"))
         (Some "x = 1") (RawList ["-r"; "cluster"]) (Some kernel0) false w0
       = (Ret PNone,
          log [EvSendResponse kernel0 "stream" "stdout" "unreachable"] w')).
Proof.
  pose (tokens := ["-r"; "cluster"]).
  pose (args := resolve_outputs "010519_0907" (set_workflow None remote_args)).
  split; [|split].
  - pose (d := remote_exit 0).
    pose (w1 := (dispatch_prologue (sos := d) (Some "x = 1") (RawList tokens)
                   (Some kernel0) w0).2).
    pose (w2 := (remote_setup (sos := d) "x = 1" tokens args w1).2).
    destruct (remote_exit_report (sos := d) (Some "x = 1") (RawList tokens)
                (Some kernel0) false w0 w1 w2 "x = 1" tokens args tokens
                "cluster" interactive_script tokens
                ltac:(run_of) eq_refl ltac:(run_of))
      as (k & Hk & H0 & _ & _).
    injection Hk as <-. destruct (H0 eq_refl) as [H1 H2].
    eexists. split; [exact H1 | exact H2].
  - pose (d := remote_exit 3).
    pose (w1 := (dispatch_prologue (sos := d) (Some "x = 1") (RawList tokens)
                   (Some kernel0) w0).2).
    pose (w2 := (remote_setup (sos := d) "x = 1" tokens args w1).2).
    destruct (remote_exit_report (sos := d) (Some "x = 1") (RawList tokens)
                (Some kernel0) false w0 w1 w2 "x = 1" tokens args tokens
                "cluster" interactive_script tokens
                ltac:(run_of) eq_refl ltac:(run_of))
      as (k & Hk & _ & Hn & _).
    injection Hk as <-.
    destruct (Hn 3 ltac:(discriminate) eq_refl) as (text & H1 & H2).
    exists text. eexists. split; [exact H1 | exact H2].
  - pose (e := OtherError "ConnectionError" "unreachable").
    pose (d := remote_failure e).
    pose (w1 := (dispatch_prologue (sos := d) (Some "x = 1") (RawList tokens)
                   (Some kernel0) w0).2).
    pose (w2 := (remote_setup (sos := d) "x = 1" tokens args w1).2).
    destruct (remote_exit_report (sos := d) (Some "x = 1") (RawList tokens)
                (Some kernel0) false w0 w1 w2 "x = 1" tokens args tokens
                "cluster" interactive_script tokens
                ltac:(run_of) eq_refl ltac:(run_of))
      as (k & Hk & _ & _ & He).
    injection Hk as <-. eexists. exact (He e eq_refl eq_refl).
Defined.

Lemma pending_and_exit_witness :
  (exists w',
     run_sos_workflow (sos := failing_step (PendingTasks ["t1"] ""))
         (Some "x = 1") (RawList []) (Some kernel0) false w0
       = (Raise (PendingTasks ["t1"] ""), w')) /\
  (exists w',
     run_sos_workflow (sos := failing_step (SystemExit 0))
         (Some "x = 1") (RawList []) (Some kernel0) false w0
       = (Ret PNone, w')).
Proof.
  pose (args := resolve_outputs "010519_0907" demo_args).
  pose (config := make_config args [] "/home/user").
  split.
  - pose (d := failing_step (PendingTasks ["t1"] "")).
    pose (w1 := (dispatch_prologue (sos := d) (Some "x = 1") (RawList [])
                   (Some kernel0) w0).2).
    pose (w2 := (local_setup (sos := d) args [] w1).2).
    pose (w3 := (execution_phase (sos := d) "x = 1" args [] config false w2).2).
    exists (finalize w3).
    exact (proj1 (pending_and_exit (sos := d) (Some "x = 1") (RawList [])
                    (Some kernel0) false w0 w1 w2 w3 "x = 1" [] args []
                    config ltac:(run_of) eq_refl ltac:(run_of))
             ["t1"] "" ltac:(run_of)).
  - pose (d := failing_step (SystemExit 0)).
    pose (w1 := (dispatch_prologue (sos := d) (Some "x = 1") (RawList [])
                   (Some kernel0) w0).2).
    pose (w2 := (local_setup (sos := d) args [] w1).2).
    pose (w3 := (execution_phase (sos := d) "x = 1" args [] config false w2).2).
    exists (finalize w3).
    exact (proj1 (proj2
                    (pending_and_exit (sos := d) (Some "x = 1") (RawList [])
                       (Some kernel0) false w0 w1 w2 w3 "x = 1" [] args []
                       config ltac:(run_of) eq_refl ltac:(run_of)))
             0 ltac:(run_of)).
Defined.

Lemma scratch_wrapping_witness :
  (run_sos_workflow (sos := sound) (Some "x = 1") (RawList [])
     (Some kernel0) false w0).1 = Ret (PInt 42) /\
  (exists w',
     run_sos_workflow (sos := sound) (Some "[step]") (RawList [])
       (Some kernel0) false w0 = (Ret PNone, w')).
Proof.
  pose (args := resolve_outputs "010519_0907" demo_args).
  pose (config := make_config args [] "/home/user").
  split.
  - pose (w1 := (dispatch_prologue (sos := sound) (Some "x = 1") (RawList [])
                   (Some kernel0) w0).2).
    pose (w2 := (local_setup (sos := sound) args [] w1).2).
    assert (Hplain : Forall (plain_line (sos := sound))
                       (PyStr.splitlines "x = 1")).
    { repeat constructor. }
    pose proof
      (proj2 (proj1 (scratch_wrapping (sos := sound) (Some "x = 1")
                       (RawList []) (Some kernel0) w0 w1 w2 "x = 1" [] args []
                       config ltac:(run_of) eq_refl ltac:(run_of) eq_refl)
                Hplain)
         (wrapped "x = 1") [wrapped "x = 1"] (wrapped "x = 1") []
         eq_refl eq_refl eq_refl)
      as E.
    apply (eq_trans (f_equal fst E)). reflexivity.
  - pose (w1 := (dispatch_prologue (sos := sound) (Some "[step]") (RawList [])
                   (Some kernel0) w0).2).
    pose (w2 := (local_setup (sos := sound) args [] w1).2).
    assert (Hhead : Exists (fun line => ~ plain_line (sos := sound) line)
                      (PyStr.splitlines "[step]")).
    { apply Exists_cons_hd. intros (H & _). discriminate H. }
    eexists.
    exact (proj1 (proj2 (scratch_wrapping (sos := sound) (Some "[step]")
                           (RawList []) (Some kernel0) w0 w1 w2 "[step]" []
                           args [] config ltac:(run_of) eq_refl ltac:(run_of)
                           eq_refl) Hhead)).
Defined.



(** ** Further statements at concrete requests *)

Lemma usage_only_witness :
  run_sos_workflow (sos := sound) None (RawList []) (Some kernel0) false w0
    = (Ret PNone, log [EvGetRunParser true true; EvPrintHelp] w0) /\
  run_sos_workflow (sos := sound) (Some "x = 1") (RawList ["-h"])
      (Some kernel0) false w0
    = (Ret PNone, log [EvGetRunParser true true; EvPrintHelp] w0).
Proof.
  split.
  - exact (usage_only (sos := sound) None (RawList []) (Some kernel0) false
             w0 [] eq_refl (or_introl eq_refl)).
  - exact (usage_only (sos := sound) (Some "x = 1") (RawList ["-h"])
             (Some kernel0) false w0 ["-h"] eq_refl
             (or_intror (list_elem_of_here "-h" []))).
Defined.

Lemma parse_error_propagates_witness :
  run_sos_workflow (sos := strict (OtherError "ArgumentError" "bad option"))
      (Some "x = 1") (RawList ["--bogus"]) (Some kernel0) false w0
    = (Raise (OtherError "ArgumentError" "bad option"),
       log [EvGetRunParser true false; EvParseKnownArgs false ["--bogus"]] w0).
Proof.
  exact (parse_error_propagates
           (sos := strict (OtherError "ArgumentError" "bad option"))
           (Some "x = 1") (RawList ["--bogus"]) (Some kernel0) false w0
           "x = 1" ["--bogus"] _ eq_refl eq_refl eq_refl).
Defined.

Lemma logger_installed_witness :
  (exists args w1,
     dispatch_prologue (sos := sound) (Some "x = 1") (RawList ["-v"; "2"])
         (Some kernel0) w_notebook
       = (Ret (Some ("x = 1", ["-v"; "2"], args, ["-v"; "2"])), w1) /\
     logger_handlers w1 = [NotebookLoggingHandler INFO kernel0 "%run -v 2"] /\
     env_verbosity w1 = Some 2) /\
  (exists args w1,
     dispatch_prologue (sos := unset) (Some "x = 1") (RawList [])
         (Some kernel0) w0
       = (Ret (Some ("x = 1", [], args, [])), w1) /\
     logger_handlers w1 = [NotebookLoggingHandler INFO kernel0 "%run"] /\
     env_verbosity w1 = Some 2).
Proof.
  split.
  - destruct (logger_installed (sos := sound) (Some "x = 1")
                (RawList ["-v"; "2"]) kernel0 w_notebook "x = 1" ["-v"; "2"]
                demo_args ["-v"; "2"] eq_refl eq_refl eq_refl
                (or_introl eq_refl))
      as (args & w1 & level & H1 & H2 & H3 & H4 & H5 & _).
    change (env_verbosity w1 = Some 2) in H4.
    rewrite H4 in H5. injection H5 as <-.
    exists args, w1. split; [exact H1|]. split; [|exact H4].
    rewrite H2, H3. reflexivity.
  - destruct (logger_installed (sos := unset) (Some "x = 1")
                (RawList []) kernel0 w0 "x = 1" [] unset_args []
                eq_refl eq_refl eq_refl
                (or_intror
                   (ex_intro _ (OtherHandler "StreamHandler")
                      (ex_intro _ []
                         (ex_intro _ INFO
                            (conj eq_refl (conj eq_refl eq_refl)))))))
      as (args & w1 & level & H1 & H2 & H3 & H4 & H5 & _).
    change (env_verbosity w1 = Some 2) in H4.
    rewrite H4 in H5. injection H5 as <-.
    exists args, w1. split; [exact H1|]. split; [|exact H4].
    rewrite H2, H3. reflexivity.
Defined.

Lemma argv_replaced_witness :
  sys_argv (run_sos_workflow (sos := failing_step (OtherError "ValueError" "bad"))
              (Some "x = 1") (RawList []) (Some kernel0) false w0).2
    = ["%run"].
Proof.
  exact (argv_replaced (sos := failing_step (OtherError "ValueError" "bad"))
           "x = 1" (RawList []) (Some kernel0) false w0 _ _ [] demo_args []
           (run_pair _ _) eq_refl (not_elem_of_nil _) eq_refl).
Defined.

Lemma finally_always_witness :
  let out := run_sos_workflow
               (sos := failing_step (OtherError "ValueError" "bad"))
               (Some "x = 1") (RawList []) (Some kernel0) false w0 in
  env_config out.2 !! "sig_mode" = Some (PStr "ignore") /\
  env_verbosity out.2 = Some 2.
Proof.
  intros out.
  pose (d := failing_step (OtherError "ValueError" "bad")).
  pose (args := resolve_outputs "010519_0907" demo_args).
  pose (config := make_config args [] "/home/user").
  pose (w1 := (dispatch_prologue (sos := d) (Some "x = 1") (RawList [])
                 (Some kernel0) w0).2).
  pose (w2 := (local_setup (sos := d) args [] w1).2).
  exact (finally_always (sos := d) (Some "x = 1") (RawList [])
           (Some kernel0) false w0 w1 w2 out.2 "x = 1" [] args [] config
           out.1 ltac:(run_of) eq_refl ltac:(run_of) (run_pair _ _)).
Defined.

Lemma exception_reraised_witness :
  (exists w3,
     run_sos_workflow (sos := debugging (OtherError "ValueError" "bad"))
         (Some "x = 1") (RawList ["-v"; "3"]) (Some kernel0) false w0
       = (Raise (OtherError "ValueError" "bad"),
          finalize (log [EvStderrWrite "bad"] w3))) /\
  (exists w3,
     run_sos_workflow (sos := debugging KeyboardInterrupt)
         (Some "x = 1") (RawList ["-v"; "3"]) (Some kernel0) false w0
       = (Raise KeyboardInterrupt, finalize w3)).
Proof.
  pose (tokens := ["-v"; "3"]).
  pose (args := resolve_outputs "010519_0907" (set_workflow None debug_args)).
  pose (config := make_config args tokens "/home/user").
  split.
  - pose (e := OtherError "ValueError" "bad").
    pose (d := debugging e).
    pose (w1 := (dispatch_prologue (sos := d) (Some "x = 1") (RawList tokens)
                   (Some kernel0) w0).2).
    pose (w2 := (local_setup (sos := d) args tokens w1).2).
    pose (w3 := (execution_phase (sos := d) "x = 1" args tokens config false
                   w2).2).
    exists w3.
    exact (proj1 (exception_reraised (sos := d) (Some "x = 1")
                    (RawList tokens) (Some kernel0) false w0 w1 w2 w3 "x = 1"
                    tokens args tokens config e
                    ltac:(run_of) eq_refl ltac:(run_of) ltac:(run_of)
                    ltac:(intros; discriminate) ltac:(intros; discriminate))
             eq_refl (ex_intro _ 3 (conj eq_refl eq_refl))).
  - pose (e := KeyboardInterrupt).
    pose (d := debugging e).
    pose (w1 := (dispatch_prologue (sos := d) (Some "x = 1") (RawList tokens)
                   (Some kernel0) w0).2).
    pose (w2 := (local_setup (sos := d) args tokens w1).2).
    pose (w3 := (execution_phase (sos := d) "x = 1" args tokens config false
                   w2).2).
    exists w3.
    exact (proj2 (exception_reraised (sos := d) (Some "x = 1")
                    (RawList tokens) (Some kernel0) false w0 w1 w2 w3 "x = 1"
                    tokens args tokens config e
                    ltac:(run_of) eq_refl ltac:(run_of) ltac:(run_of)
                    ltac:(intros; discriminate) ltac:(intros; discriminate))
             (or_introl eq_refl)).
Defined.

Lemma worker_started_witness :
  exists w2,
    run_sos_workflow (sos := sound) (Some "x = 1") (RawList [])
        (Some kernel0) true w_tapped
      = (Ret PNone,
         finalize
           (log [EvSoSScript "x = 1"; EvScriptWorkflow None (Some true);
                 EvStart
                   (mkTapped_Executor (sos := sound) ["x = 1"] []
                      (worker_config
                         (make_config
                            (resolve_outputs "010519_0907" demo_args) []
                            "/home/user")
                         (PInt 5001) (PInt 5002))
                      None)] w2)).
Proof.
  pose (args := resolve_outputs "010519_0907" demo_args).
  pose (config := make_config args [] "/home/user").
  pose (w1 := (dispatch_prologue (sos := sound) (Some "x = 1") (RawList [])
                 (Some kernel0) w_tapped).2).
  pose (w2 := (local_setup (sos := sound) args [] w1).2).
  exists w2.
  exact (worker_started (sos := sound) (Some "x = 1") (RawList [])
           (Some kernel0) w_tapped w1 w2 "x = 1" [] args [] config
           "x = 1" ["x = 1"]
           [("tapping_logging", PInt 5001); ("tapping_controller", PInt 5002)]
           (PInt 5001) (PInt 5002)
           ltac:(run_of) eq_refl ltac:(run_of) eq_refl eq_refl eq_refl
           eq_refl eq_refl eq_refl).
Defined.

Lemma scratch_no_section_witness :
  exists w',
    run_sos_workflow (sos := hollow) (Some "x = 1") (RawList [])
        (Some kernel0) false w0
      = (Raise (IndexError "list index out of range"), w').
Proof.
  pose (args := resolve_outputs "010519_0907" demo_args).
  pose (config := make_config args [] "/home/user").
  pose (w1 := (dispatch_prologue (sos := hollow) (Some "x = 1") (RawList [])
                 (Some kernel0) w0).2).
  pose (w2 := (local_setup (sos := hollow) args [] w1).2).
  assert (Hplain : Forall (plain_line (sos := hollow))
                     (PyStr.splitlines "x = 1")).
  { repeat constructor. }
  eexists.
  exact (scratch_no_section (sos := hollow) (Some "x = 1") (RawList [])
           (Some kernel0) w0 w1 w2 "x = 1" [] args [] config
           (wrapped "x = 1") []
           ltac:(run_of) eq_refl ltac:(run_of) eq_refl Hplain eq_refl eq_refl
           eq_refl).
Defined.

Lemma scratch_last_res_witness :
  (exists w',
     run_sos_workflow (sos := sound) (Some "x = 1") (RawList [])
         (Some kernel0) false w0
       = (Ret (PInt 42), w')) /\
  (exists w',
     run_sos_workflow (sos := forgetful) (Some "x = 1") (RawList [])
         (Some kernel0) false w0
       = (Raise (KeyError "__last_res__"), w')).
Proof.
  pose (args := resolve_outputs "010519_0907" demo_args).
  pose (config := make_config args [] "/home/user").
  split.
  - pose (w1 := (dispatch_prologue (sos := sound) (Some "x = 1") (RawList [])
                   (Some kernel0) w0).2).
    pose (w2 := (local_setup (sos := sound) args [] w1).2).
    pose (w4 := (execute_scratch_cell (sos := sound) (wrapped "x = 1") config
                   (log [EvSoSScript (wrapped "x = 1");
                         EvScriptWorkflow None None]
                      (set_env_config
                         (<["master_id" := PStr "0"]> (env_config w2)) w2))).2).
    assert (Hplain : Forall (plain_line (sos := sound))
                       (PyStr.splitlines "x = 1")).
    { repeat constructor. }
    eexists.
    exact (proj1 (scratch_last_res (sos := sound) (Some "x = 1") (RawList [])
                    (Some kernel0) w0 w1 w2 w4 "x = 1" [] args [] config
                    (wrapped "x = 1") [wrapped "x = 1"] (wrapped "x = 1") []
                    [("__last_res__", PInt 42)]
                    ltac:(run_of) eq_refl ltac:(run_of) eq_refl Hplain
                    eq_refl eq_refl eq_refl ltac:(run_of))
             (PInt 42) eq_refl).
  - pose (w1 := (dispatch_prologue (sos := forgetful) (Some "x = 1")
                   (RawList []) (Some kernel0) w0).2).
    pose (w2 := (local_setup (sos := forgetful) args [] w1).2).
    pose (w4 := (execute_scratch_cell (sos := forgetful) (wrapped "x = 1")
                   config
                   (log [EvSoSScript (wrapped "x = 1");
                         EvScriptWorkflow None None]
                      (set_env_config
                         (<["master_id" := PStr "0"]> (env_config w2)) w2))).2).
    assert (Hplain : Forall (plain_line (sos := forgetful))
                       (PyStr.splitlines "x = 1")).
    { repeat constructor. }
    eexists.
    exact (proj2 (scratch_last_res (sos := forgetful) (Some "x = 1")
                    (RawList []) (Some kernel0) w0 w1 w2 w4 "x = 1" [] args []
                    config (wrapped "x = 1") [wrapped "x = 1"]
                    (wrapped "x = 1") [] []
                    ltac:(run_of) eq_refl ltac:(run_of) eq_refl Hplain
                    eq_refl eq_refl eq_refl ltac:(run_of))
             eq_refl).
Defined.

Lemma remote_script_shipped_witness :
  (exists w',
     remote_setup (sos := remote_exit 0) "x = 1" ["-r"; "cluster"]
         remote_args w0
       = (Ret (Some ("cluster", interactive_script, ["-r"; "cluster"])), w') /\
     files w' !! interactive_script = Some "x = 1") /\
  (exists w',
     remote_setup (sos := remote_exit 0) "x = 1" ["-r"; "cluster"]
         remote_args w_fresh
       = (Raise (OtherError "FileNotFoundError" interactive_script), w') /\
     files w' = ∅).
Proof.
  assert (Hd : ".sos" ∈ dirs (w0 (sos := remote_exit 0))).
  { apply elem_of_singleton. reflexivity. }
  assert (Hn : interactive_script ∉ dirs (w0 (sos := remote_exit 0))).
  { change (interactive_script ∉ ({[".sos"]} : gset string)).
    intros H. apply elem_of_singleton in H. discriminate H. }
  split.
  - destruct (proj1 (remote_script_shipped (sos := remote_exit 0) "x = 1"
                       ["-r"; "cluster"] remote_args w0 (PDict []) "cluster"
                       eq_refl eq_refl eq_refl) Hd Hn)
      as (w' & H1 & _ & H2 & _).
    exists w'. split; [exact H1|]. rewrite H2. apply lookup_insert_eq.
  - destruct (proj2 (remote_script_shipped (sos := remote_exit 0) "x = 1"
                       ["-r"; "cluster"] remote_args w_fresh (PDict [])
                       "cluster" eq_refl eq_refl eq_refl)
                (not_elem_of_empty _))
      as (w' & H1 & _ & H2 & _).
    exists w'. split; [exact H1 | exact H2].
Defined.

Lemma shipping_failure_propagates_witness :
  exists w',
    run_sos_workflow
        (sos := unreachable (OtherError "ConnectionError" "no route"))
        (Some "x = 1") (RawList ["-r"; "cluster"]) (Some kernel0) false w0
      = (Raise (OtherError "ConnectionError" "no route"), w') /\
    files w' !! interactive_script = Some "x = 1".
Proof.
  pose (e := OtherError "ConnectionError" "no route").
  pose (tokens := ["-r"; "cluster"]).
  pose (args := resolve_outputs "010519_0907" (set_workflow None remote_args)).
  pose (w1 := (dispatch_prologue (sos := unreachable e) (Some "x = 1")
                 (RawList tokens) (Some kernel0) w0).2).
  assert (Hd : ".sos" ∈ dirs w1).
  { change (".sos" ∈ ({[".sos"]} : gset string)).
    apply elem_of_singleton. reflexivity. }
  assert (Hn : interactive_script ∉ dirs w1).
  { change (interactive_script ∉ ({[".sos"]} : gset string)).
    intros H. apply elem_of_singleton in H. discriminate H. }
  destruct (shipping_failure_propagates (sos := unreachable e) (Some "x = 1")
              (RawList tokens) (Some kernel0) false w0 w1 "x = 1" tokens args
              tokens (PDict []) "cluster" e
              ltac:(run_of) eq_refl eq_refl eq_refl eq_refl Hd Hn eq_refl)
    as (w' & H1 & _ & H2).
  exists w'. split; [exact H1 | exact H2].
Defined.

Lemma bin_dirs_path_witness :
  (exists w',
     prepend_bin_dirs (sos := sound) demo_args w0 = (Ret tt, w') /\
     environ w' !! "PATH" = Some "~/.sos/bin:/usr/bin" /\
     "~/.sos/bin" ∈ dirs w') /\
  (exists cls,
     prepend_bin_dirs (sos := sound) demo_args w_blocked
       = (Raise (OtherError cls "~/.sos/bin"), w_blocked)).
Proof.
  split.
  - destruct (proj1 (bin_dirs_path (sos := sound) demo_args w0
                       ltac:(discriminate))
                "/usr/bin" eq_refl (or_intror (or_intror eq_refl)))
      as (w' & H1 & H2 & _ & _ & _ & H3 & _).
    exists w'. split; [exact H1|]. split; [exact H2|].
    exact (H3 (list_elem_of_here _ _)).
  - assert (Hd : "~/.sos/bin" ∉ ({[".sos"]} : gset string)).
    { intros H. apply elem_of_singleton in H. discriminate H. }
    exact (proj2 (bin_dirs_path (sos := sound) demo_args w_blocked
                    ltac:(discriminate))
             (list_elem_of_here _ _) Hd eq_refl).
Defined.

Lemma bin_dirs_without_path_witness :
  exists w',
    run_sos_workflow (sos := sound) (Some "x = 1") (RawList [])
        (Some kernel0) false w_nopath
      = (Raise (KeyError "PATH"), w') /\
    env_config w' !! "sig_mode" = None.
Proof.
  pose (args := resolve_outputs "010519_0907" demo_args).
  pose (w1 := (dispatch_prologue (sos := sound) (Some "x = 1") (RawList [])
                 (Some kernel0) w_nopath).2).
  destruct (bin_dirs_without_path (sos := sound) (Some "x = 1") (RawList [])
              (Some kernel0) false w_nopath w1 "x = 1" [] args []
              ltac:(run_of) eq_refl ltac:(discriminate) eq_refl)
    as (e & w' & H1 & _ & H2 & _ & H3 & _).
  rewrite (H3 (or_intror (or_intror eq_refl))) in H1.
  exists w'. split; [exact H1|]. rewrite H2. reflexivity.
Defined.

Lemma scratch_step_dict_witness :
  exists w',
    execute_scratch_cell (sos := sound) "[a]" ∅ w0
      = (Ret (PDict [("__last_res__", PInt 42)]), w') /\
    trace w' = [EvPrepareEnv ""; EvAnalyzeSection (sos := sound) "[a]";
                EvStepRun (sos := sound) "[a]"].
Proof.
  destruct (scratch_step_dict (sos := sound) "[a]" ∅ w0
              (<["workflow_id" := PStr "0"]> ∅)
              (mkAnalysis (PList []) (PList []) (PList []))
              eq_refl eq_refl)
    as (w' & H1 & _ & H2 & _).
  exists w'. split; [exact H1 | exact H2].
Defined.

Lemma worker_base_exception_witness :
  Tapped_Executor_run
      (worker0 (sos := failing_engine KeyboardInterrupt) ["[a]"]) w0
    = (Raise KeyboardInterrupt,
       log (engine_events
              (worker0 (sos := failing_engine KeyboardInterrupt) ["[a]"])) w0).
Proof.
  exact (proj1 (worker_base_exception
                  (worker0 (sos := failing_engine KeyboardInterrupt) ["[a]"])
                  w0 KeyboardInterrupt eq_refl eq_refl)).
Defined.

Lemma emit_plain_message_witness :
  NotebookLoggingHandler_emit (Some kernel0) "%run"
      (mkLogRecord "WARNING" "no input")
    = Ret (mkFrontendMsg kernel0 "display_data"
             ("<div class=" +:+ dquote +:+ "sos_logging sos_warning"
              +:+ dquote +:+ ">WARNING: no input</div>")
             "%run" true "SoS").
Proof.
  exact (emit_plain_message kernel0 "%run" (mkLogRecord "WARNING" "no input")
           eq_refl).
Defined.

Lemma highlight_first_span_witness :
  highlight "input ``a.txt`` is missing"
    = "input " +:+ highlight_span "a.txt" +:+ " is missing".
Proof.
  exact (highlight_first_span "input " "a.txt" " is missing" eq_refl eq_refl).
Defined.

Lemma shlex_error_propagates_witness :
  run_sos_workflow
      (sos := unbalanced (OtherError "ValueError" "No closing quotation"))
      None (RawStr "-v 'x") (Some kernel0) false w0
    = (Raise (OtherError "ValueError" "No closing quotation"), w0).
Proof.
  exact (shlex_error_propagates
           (sos := unbalanced (OtherError "ValueError" "No closing quotation"))
           None "-v 'x" (Some kernel0) false w0 _ eq_refl).
Defined.

Lemma remote_interrupt_witness :
  exists w2,
    run_sos_workflow (sos := remote_failure KeyboardInterrupt)
        (Some "x = 1") (RawList ["-r"; "cluster"]) (Some kernel0) false w0
      = (Raise KeyboardInterrupt,
         log [EvRedirectEnter kernel0;
              EvRunCommand ["sos"; "run"; interactive_script; "-r"; "cluster"];
              EvRedirectExit kernel0] w2).
Proof.
  pose (tokens := ["-r"; "cluster"]).
  pose (args := resolve_outputs "010519_0907" (set_workflow None remote_args)).
  pose (d := remote_failure KeyboardInterrupt).
  pose (w1 := (dispatch_prologue (sos := d) (Some "x = 1") (RawList tokens)
                 (Some kernel0) w0).2).
  pose (w2 := (remote_setup (sos := d) "x = 1" tokens args w1).2).
  destruct (remote_interrupt (sos := d) (Some "x = 1") (RawList tokens)
              (Some kernel0) false w0 w1 w2 "x = 1" tokens args tokens
              "cluster" interactive_script tokens KeyboardInterrupt
              ltac:(run_of) eq_refl ltac:(run_of) eq_refl eq_refl)
    as (k & Hk & H).
  injection Hk as <-. exists w2. exact H.
Defined.
